(** * RK3588 TSADC drivers (day2/tsadc.c, day2/tsadc_platform.c)

    A shallow embedding of the temperature conversion, the file
    operations and the interrupt handler of the two TSADC drivers,
    together with the properties of the natural-language specification
    that concern them. *)

From Stdlib Require Import ZArith List Lia Bool String Ascii DecimalString.
Import ListNotations.
Local Open Scope Z_scope.

(** ** C integers

    [int] is a 32-bit two's complement integer, [unsigned int] and [u32]
    are 32-bit.  The kernel is built with wrapping signed arithmetic, so
    [int] operations wrap as well. *)
Module CInt.

Definition two32 : Z := 2 ^ 32.
Definition two31 : Z := 2 ^ 31.

(** Conversion to [u32] / [unsigned int]. *)
Definition to_u32 (z : Z) : Z := z mod two32.

(** Conversion to [int]. *)
Definition to_s32 (z : Z) : Z := (z + two31) mod two32 - two31.

Definition in_int (z : Z) : Prop := - two31 <= z < two31.
Definition in_intb (z : Z) : bool := (- two31 <=? z) && (z <? two31).

(** [a - b] on [int]. *)
Definition isub (a b : Z) : Z := to_s32 (a - b).

(** [a + b], [a - b], [a * b], [a / b] on [unsigned int]. *)
Definition uadd (a b : Z) : Z := to_u32 (a + b).
Definition usub (a b : Z) : Z := to_u32 (a - b).
Definition umul (a b : Z) : Z := to_u32 (a * b).
Definition udiv (a b : Z) : Z := a / b.

(** Conversion to [size_t] (64-bit). *)
Definition to_size_t (z : Z) : Z := z mod 2 ^ 64.

(** [BIT(n)], that is [1UL << n].  C defines the shift for
    [0 <= n < 64] only, and there it is the value below; the channels
    of the drivers, 0 to [TSADC_MAX_CHANNELS - 1], and their source
    bits, 4 to [TSADC_MAX_CHANNELS + 3], are well inside. *)
Definition BIT (n : Z) : Z := Z.shiftl 1 n.

End CInt.
Import CInt.

(** ** Error numbers (include/uapi/asm-generic/errno-base.h) *)
Definition EAGAIN : Z := 11.
Definition EFAULT : Z := 14.
Definition EINVAL : Z := 22.
Definition ENOTTY : Z := 25.

(** ** Undefined behaviour

    A computation either yields a value or stops at the first operation
    that C leaves undefined. *)
Inductive fault : Type :=
| UninitRead    (* a local variable is read before it was assigned *)
| OutOfBounds   (* an array is read outside its bounds *)
| DivByZero     (* division by zero *)
| OutOfFuel.    (* the loop bound of the model was too small *)

Inductive result (A : Type) : Type :=
| Ok (a : A)
| Fault (f : fault).
Arguments Ok {A} a.
Arguments Fault {A} f.

Definition bind {A B : Type} (m : result A) (k : A -> result B) : result B :=
  match m with
  | Ok a => k a
  | Fault f => Fault f
  end.

Notation "x <- m ;; k" := (bind m (fun x => k))
  (at level 61, m at next level, right associativity).

(** ** Conversion tables *)

(** [struct tsadc_table] / [struct rk3588_tsadc_table]. *)
Record tsadc_table : Type := mkEntry { temp : Z; code : Z }.

Definition table := list tsadc_table.

(** [ARRAY_SIZE(t)]. *)
Definition ARRAY_SIZE (t : table) : Z := Z.of_nat (List.length t).

(** [t[i]] for an [unsigned int] index. *)
Definition tbl (t : table) (i : Z) : result tsadc_table :=
  if i <? 0 then Fault OutOfBounds
  else match nth_error t (Z.to_nat i) with
       | Some e => Ok e
       | None => Fault OutOfBounds
       end.

(** What a conversion hands back: the returned status and the value
    stored through the [temp] pointer, if any. *)
Record conv : Type := mkConv { conv_ret : Z; conv_temp : option Z }.

(** How the [while] loop was left, with the value of [mid] at that
    point. *)
Inductive loop_exit : Type :=
| Break (mid : Z)                  (* left by [break] *)
| Exhausted (mid : option Z).      (* [low <= high] became false *)

Definition exit_mid (x : loop_exit) : result Z :=
  match x with
  | Break m => Ok m
  | Exhausted (Some m) => Ok m
  | Exhausted None => Fault UninitRead
  end.

(** The binary search loop shared by [code_to_temp] and
    [rk3588_tsadc_code_to_temp]:
<<
	while (low <= high) {
		mid = (low + high) / 2;
		if (code >= table[mid].code && code <= table[mid - 1].code)
			break;
		else if (code > table[mid].code)
			high = mid - 1;
		else
			low = mid + 1;
	}
>> *)
Fixpoint search_loop (t : table) (c : Z) (fuel : nat)
         (low high : Z) (mid : option Z) : result loop_exit :=
  if low <=? high then
    match fuel with
    | O => Fault OutOfFuel
    | S fuel' =>
        let m := udiv (uadd low high) 2 in
        e <- tbl t m ;;
        in_bracket <-
          (if c >=? code e
           then (e1 <- tbl t (usub m 1) ;; Ok (c <=? code e1))
           else Ok false) ;;
        if in_bracket : bool then Ok (Break m)
        else if c >? code e
             then search_loop t c fuel' low (usub m 1) (Some m)
             else search_loop t c fuel' (uadd m 1) high (Some m)
    end
  else Ok (Exhausted mid).

(** ** tsadc.c *)
Module Tsadc.

(** The table compiled in by default. *)
Definition rk3588_code_table : table :=
  [ mkEntry 125 395; mkEntry 85 350; mkEntry 25 285; mkEntry (-40) 215 ].

(** The table compiled in under [TRY_AI_BUG]. *)
Definition rk3588_code_table_ai : table :=
  [ mkEntry (-40) 3800; mkEntry (-30) 3630; mkEntry (-20) 3440;
    mkEntry (-10) 3240; mkEntry 0 3020; mkEntry 10 2790;
    mkEntry 20 2550; mkEntry 30 2290; mkEntry 40 2020;
    mkEntry 50 1730; mkEntry 60 1420; mkEntry 70 1090;
    mkEntry 80 740; mkEntry 90 360; mkEntry 100 (-50);
    mkEntry 110 (-530) ].

(** [code_to_temp], with the table it reads as a parameter. *)
Definition code_to_temp (t : table) (c : Z) : result conv :=
  let low := 1 in
  let high := to_u32 (ARRAY_SIZE t - 1) in
  e0 <- tbl t 0 ;;
  if c >? code e0 then Ok (mkConv (- EAGAIN) None)
  else
    eh <- tbl t high ;;
    if c <? code eh then Ok (mkConv (- EINVAL) None)
    else
      x <- search_loop t c (List.length t) low high None ;;
      mid <- exit_mid x ;;
      hi <- tbl t (usub mid 1) ;;
      lo <- tbl t mid ;;
      let num := to_u32 (isub (temp hi) (temp lo)) in
      let den := to_u32 (isub (code hi) (code lo)) in
      if den =? 0 then Fault DivByZero
      else
        let v := uadd (udiv (umul (to_u32 (isub c (code lo))) num) den)
                      (to_u32 (temp lo)) in
        Ok (mkConv 0 (Some (to_s32 v))).

(** [temp_to_code], with the table it reads as a parameter.  The loop
    [for (i = 0; i < ARRAY_SIZE(t) - 1; i++)] compares [i] with a
    [size_t]. *)
Fixpoint temp_to_code_loop (t : table) (tc : Z) (fuel : nat) (i : Z)
  : result Z :=
  if i <? to_size_t (ARRAY_SIZE t - 1) then
    match fuel with
    | O => Fault OutOfFuel
    | S fuel' =>
        e <- tbl t i ;;
        hit <-
          (if tc <=? temp e
           then (e' <- tbl t (i + 1) ;; Ok (tc >? temp e'))
           else Ok false) ;;
        if hit : bool then Ok (code e)
        else temp_to_code_loop t tc fuel' (i + 1)
    end
  else
    e0 <- tbl t 0 ;; Ok (code e0).

Definition temp_to_code (t : table) (tc : Z) : result Z :=
  temp_to_code_loop t tc (S (List.length t)) 0.

(** *** Registers and constants *)
Definition TSADC_AUTO_CON : Z := 0x0004.
Definition TSADC_INT_EN : Z := 0x0008.
Definition TSADC_INT_PD : Z := 0x000c.
Definition TSADC_DATA (chn : Z) : Z := 0x002C + chn * 4.
Definition TSADC_COMP_INT (chn : Z) : Z := 0x0030 + chn * 4.
Definition TSADC_INT_SRC_EN (chn : Z) : Z := BIT chn.
Definition TSADC_INT_SRC_MASK (chn : Z) : Z := BIT chn.
Definition TSADC_DATA_MASK : Z := 0xfff.
Definition TSADC_MAX_CHANNELS : Z := 8.

(** The ioctl numbers, [_IOW('T', 1, int)], [_IOR('T', 2, int)] and
    [_IOW('T', 3, int)], with the encoding of
    include/uapi/asm-generic/ioctl.h. *)
Definition IOC (dir type nr size : Z) : Z :=
  Z.lor (Z.lor (Z.lor (Z.shiftl dir 30) (Z.shiftl type 8)) nr)
        (Z.shiftl size 16).
Definition TSADC_MAGIC : Z := 84.
Definition TSADC_SET_CHANNEL : Z := IOC 1 TSADC_MAGIC 1 4.
Definition TSADC_GET_CHANNEL : Z := IOC 2 TSADC_MAGIC 2 4.
Definition TSADC_SET_INT_THRESHOLD : Z := IOC 1 TSADC_MAGIC 3 4.

Definition POLLIN : Z := 0x0001.
Definition POLLRDNORM : Z := 0x0040.
Definition IRQ_HANDLED : Z := 1.

(** *** Device state

    The fields of [struct tsadc_dev] the file operations and the
    interrupt handler use.  [regs] gives the value a read of the
    register at an offset returns; the device has one event flag,
    [irq_fired], and one wait queue. *)
Record tsadc_dev : Type := mkDev {
  regs : Z -> Z;
  current_channel : Z;
  int_threshold_temp : Z;
  irq_fired : bool
}.

Definition set_current_channel (d : tsadc_dev) (ch : Z) : tsadc_dev :=
  mkDev (regs d) ch (int_threshold_temp d) (irq_fired d).
Definition set_int_threshold_temp (d : tsadc_dev) (tc : Z) : tsadc_dev :=
  mkDev (regs d) (current_channel d) tc (irq_fired d).
Definition set_irq_fired (d : tsadc_dev) (b : bool) : tsadc_dev :=
  mkDev (regs d) (current_channel d) (int_threshold_temp d) b.

(** What the driver asks of the hardware and of the kernel, in program
    order. *)
Inductive event : Type :=
| EvReadl (off v : Z)          (* [readl_relaxed(regs + off)] gave [v] *)
| EvWritel (v off : Z)         (* [writel_relaxed(v, regs + off)] *)
| EvPollWait                   (* [poll_wait(file, &dev->waitq, wait)] *)
| EvWakeUp                     (* [wake_up_interruptible(&dev->waitq)] *)
| EvCall (service : string).   (* any other kernel service *)

Definition trace := list event.

(** The wait queue, seen from the tasks sleeping on it:
    [wake_up_interruptible] wakes every one of them; [poll_wait] only
    registers the polling task, which is not asleep yet. *)
Definition task := nat.

Definition waitq_step (sleeping : list task) (e : event) : list task :=
  match e with
  | EvWakeUp => []
  | _ => sleeping
  end.

Definition waitq_after (tr : trace) (sleeping : list task) : list task :=
  fold_left waitq_step tr sleeping.

(** [sprintf(kbuf, "%d\n", v)]. *)
Definition newline : string := String (ascii_of_nat 10) EmptyString.
Definition sprintf_d_nl (v : Z) : string :=
  (NilZero.string_of_int (Z.to_int v) ++ newline)%string.
Definition strlen (s : string) : Z := Z.of_nat (String.length s).

(** *** my_read

    [off] is [*off] on entry, [len] the size of the user buffer and
    [user_ok] tells whether [copy_to_user] succeeds. *)
Record read_out : Type := mkRead {
  read_ret : Z;                 (* returned value *)
  read_off : Z;                 (* [*off] on return *)
  read_buf : option string;     (* what was copied to the user buffer *)
  read_trace : trace
}.

Definition my_read (t : table) (d : tsadc_dev) (off len : Z)
           (user_ok : bool) : result read_out :=
  if (off >? 0) || (len <? 12) then Ok (mkRead 0 off None [])
  else
    let off_data := TSADC_DATA (current_channel d) in
    let v := regs d off_data in
    let raw_val := to_s32 (Z.land v TSADC_DATA_MASK) in
    let tr := [EvReadl off_data v] in
    let finish (temp_c : option Z) : result read_out :=
      temp_c <- (match temp_c with
                 | Some v => Ok v
                 | None => Fault UninitRead
                 end) ;;
      let kbuf := sprintf_d_nl temp_c in
      if user_ok
      then Ok (mkRead (strlen kbuf) (off + strlen kbuf) (Some kbuf) tr)
      else Ok (mkRead (- EFAULT) off None tr) in
    r <- code_to_temp t raw_val ;;
    let ret := conv_ret r in
    if ret =? 0 then finish (conv_temp r)
    else if ret =? - EAGAIN then finish (Some (-40))
    else Ok (mkRead ret off None tr).

(** The code [my_read] converts: the data register of the current
    channel, masked. *)
Definition sampled_code (d : tsadc_dev) : Z :=
  to_s32 (Z.land (regs d (TSADC_DATA (current_channel d))) TSADC_DATA_MASK).

(** *** my_ioctl

    [uarg] is the [int] the user pointer [arg] refers to, or [None]
    when the pointer cannot be accessed. *)
Record ioctl_out : Type := mkIoctl {
  ioctl_ret : Z;
  ioctl_dev : tsadc_dev;
  ioctl_user : option Z;        (* what was copied to [*arg] *)
  ioctl_trace : trace
}.

Definition my_ioctl (t : table) (d : tsadc_dev) (cmd : Z) (uarg : option Z)
  : result ioctl_out :=
  if cmd =? TSADC_SET_CHANNEL then
    match uarg with
    | None => Ok (mkIoctl (- EFAULT) d None [])
    | Some channel =>
        if (channel <? 0) || (channel >=? TSADC_MAX_CHANNELS)
        then Ok (mkIoctl (- EINVAL) d None [])
        else Ok (mkIoctl 0 (set_current_channel d channel) None [])
    end
  else if cmd =? TSADC_GET_CHANNEL then
    match uarg with
    | None => Ok (mkIoctl (- EFAULT) d None [])
    | Some _ => Ok (mkIoctl 0 d (Some (current_channel d)) [])
    end
  else if cmd =? TSADC_SET_INT_THRESHOLD then
    match uarg with
    | None => Ok (mkIoctl (- EFAULT) d None [])
    | Some tc =>
        let d' := set_int_threshold_temp d tc in
        c <- temp_to_code t tc ;;
        Ok (mkIoctl 0 d' None
              [ EvWritel (to_u32 c) (TSADC_COMP_INT (current_channel d'));
                EvWritel (to_u32 (TSADC_INT_SRC_EN (current_channel d')))
                         TSADC_INT_EN ])
    end
  else Ok (mkIoctl (- ENOTTY) d None []).

(** *** my_poll *)
Definition my_poll (d : tsadc_dev) : Z * tsadc_dev * trace :=
  if irq_fired d
  then (Z.lor POLLIN POLLRDNORM, set_irq_fired d false, [EvPollWait])
  else (0, d, [EvPollWait]).

(** *** tsadc_isr *)
Definition tsadc_isr (d : tsadc_dev) : Z * tsadc_dev * trace :=
  let val := regs d TSADC_INT_PD in
  let tr := [EvReadl TSADC_INT_PD val; EvWritel val TSADC_INT_PD] in
  if negb (Z.land val (TSADC_INT_SRC_MASK (current_channel d)) =? 0)
  then (IRQ_HANDLED, set_irq_fired d true, tr ++ [EvWakeUp])
  else (IRQ_HANDLED, d, tr).

(** *** tsadc_char_exit

    The device structure is freed at the end, so only the trace
    remains. *)
Definition tsadc_char_exit (d : tsadc_dev) : trace :=
  [ EvWritel 0 TSADC_AUTO_CON;
    EvWritel 0 TSADC_INT_EN;
    EvCall "reset_control_assert";
    EvCall "clk_disable_unprepare";
    EvCall "free_irq";
    EvCall "reset_control_put";
    EvCall "clk_put";
    EvCall "iounmap";
    EvCall "cdev_del";
    EvCall "device_destroy";
    EvCall "class_destroy";
    EvCall "unregister_chrdev_region";
    EvCall "kfree" ].

(** *** Sequences of ioctls

    What a caller such as app.c does: one [ioctl] after the other on the
    same open file, each with the [int] its argument points to.  The
    run stops at the first call that does not return 0. *)
Fixpoint run_ioctls (t : table) (d : tsadc_dev) (calls : list (Z * Z))
  : result (Z * tsadc_dev * trace) :=
  match calls with
  | [] => Ok (0, d, [])
  | (cmd, arg) :: rest =>
      o <- my_ioctl t d cmd (Some arg) ;;
      if ioctl_ret o =? 0
      then r <- run_ioctls t (ioctl_dev o) rest ;;
           let '(ret, d', tr) := r in
           Ok (ret, d', ioctl_trace o ++ tr)
      else Ok (ioctl_ret o, ioctl_dev o, ioctl_trace o)
  end.

(** *** tsadc_char_init *)
Definition ENOMEM : Z := 12.
Definition TSADC_PHYS_SIZE : Z := 0x100.
Definition TSADC_HIGHT_INT_DEBOUNCE : Z := 0x0060.
Definition TSADC_AUTO_PERIOD : Z := 0x0068.
Definition TSADC_AUTO_CON_SRC_EN (chn : Z) : Z := BIT (4 + chn).
Definition TSADC_AUTO_CON_START : Z := BIT 0.
Definition TSADC_SAMPLE_RATE : Z := 20 * 1000.
Definition TSADC_SAMPLE_CYCLE : Z := 4800 / TSADC_SAMPLE_RATE.

(** What the kernel services called by [tsadc_char_init] answer:
    whether an allocation or mapping gives a pointer, the [int] a
    service returns, and for a service that returns a pointer checked
    with [IS_ERR], the [PTR_ERR] of an error pointer. *)
Record init_env : Type := mkInitEnv {
  kzalloc_ok : bool;
  alloc_chrdev_region_ret : Z;
  class_create_err : option Z;
  device_create_err : option Z;
  cdev_add_ret : Z;
  ioremap_ok : bool;
  clk_get_err : option Z;
  reset_control_get_err : option Z;
  request_irq_ret : Z;
  clk_prepare_enable_ret : Z
}.

(** The error labels, each falling through to the next. *)
Definition label_free_dev : trace := [EvCall "kfree"].
Definition label_unreg_chrdev : trace :=
  EvCall "unregister_chrdev_region" :: label_free_dev.
Definition label_destroy_class : trace :=
  EvCall "class_destroy" :: label_unreg_chrdev.
Definition label_destroy_device : trace :=
  EvCall "device_destroy" :: label_destroy_class.
Definition label_del_cdev : trace := EvCall "cdev_del" :: label_destroy_device.
Definition label_unmap_regs : trace := EvCall "iounmap" :: label_del_cdev.
Definition label_put_clk : trace := EvCall "clk_put" :: label_unmap_regs.
Definition label_put_reset : trace :=
  EvCall "reset_control_put" :: label_put_clk.
Definition label_free_irq : trace := EvCall "free_irq" :: label_put_reset.

(** Step 7, the hardware start, and [return 0]. *)
Definition init_start_hw (d : tsadc_dev) (tr : trace)
  : Z * option tsadc_dev * trace :=
  let start :=
    [ EvWritel (to_u32 (TSADC_AUTO_CON_SRC_EN (current_channel d)))
               TSADC_AUTO_CON;
      EvWritel (to_u32 (Z.lor TSADC_AUTO_CON_START
                              (TSADC_AUTO_CON_SRC_EN (current_channel d))))
               TSADC_AUTO_CON ] in
  (0, Some d, tr ++ start).

(** The part of step 6 and 7 compiled in under [TRY_AI_BUG]. *)
Definition init_clocks (env : init_env) (d : tsadc_dev) (tr : trace)
  : Z * option tsadc_dev * trace :=
  match clk_get_err env with
  | Some e => (e, None, tr ++ label_unmap_regs)
  | None =>
      let tr := tr ++ [EvCall "clk_get"] in
      match reset_control_get_err env with
      | Some e => (e, None, tr ++ label_put_clk)
      | None =>
          let tr := tr ++ [EvCall "reset_control_get"] in
          let ret := request_irq_ret env in
          if negb (ret =? 0) then (ret, None, tr ++ label_put_reset)
          else
            let tr := tr ++ [EvCall "request_irq"] in
            let ret := clk_prepare_enable_ret env in
            if negb (ret =? 0) then (ret, None, tr ++ label_free_irq)
            else
              let tr :=
                tr ++ [ EvCall "clk_prepare_enable";
                        EvCall "reset_control_deassert";
                        EvWritel (to_u32 TSADC_SAMPLE_CYCLE)
                                 TSADC_AUTO_PERIOD;
                        EvWritel 0 TSADC_HIGHT_INT_DEBOUNCE ] in
              init_start_hw d tr
      end
  end.

(** [tsadc_char_init]: [try_ai_bug] tells whether [TRY_AI_BUG] is
    defined, [hw] is the register file the mapping gives access to.  A
    service that fails leaves nothing behind and is not recorded. *)
Definition tsadc_char_init (try_ai_bug : bool) (hw : Z -> Z) (env : init_env)
  : Z * option tsadc_dev * trace :=
  if negb (kzalloc_ok env) then (- ENOMEM, None, [])
  else
    let d := mkDev hw 0 85 false in
    let tr := [EvCall "kzalloc"; EvCall "init_waitqueue_head"] in
    let ret := alloc_chrdev_region_ret env in
    if ret <? 0 then (ret, None, tr ++ label_free_dev)
    else
      let tr := tr ++ [EvCall "alloc_chrdev_region"] in
      match class_create_err env with
      | Some e => (e, None, tr ++ label_unreg_chrdev)
      | None =>
          let tr := tr ++ [EvCall "class_create"] in
          match device_create_err env with
          | Some e => (e, None, tr ++ label_destroy_class)
          | None =>
              let tr := tr ++ [EvCall "device_create"; EvCall "cdev_init"] in
              let ret := cdev_add_ret env in
              if ret <? 0 then (ret, None, tr ++ label_destroy_device)
              else
                let tr := tr ++ [EvCall "cdev_add"] in
                if negb (ioremap_ok env)
                then (- ENOMEM, None, tr ++ label_del_cdev)
                else
                  let tr := tr ++ [EvCall "ioremap"] in
                  if try_ai_bug then init_clocks env d tr
                  else init_start_hw d tr
          end
      end.

End Tsadc.

(** ** tsadc_platform.c *)
Module Platform.

Definition rk3588_code_table : table :=
  [ mkEntry (-40) 3800; mkEntry (-30) 3630; mkEntry (-20) 3440;
    mkEntry (-10) 3240; mkEntry 0 3020; mkEntry 10 2790;
    mkEntry 20 2550; mkEntry 30 2290; mkEntry 40 2020;
    mkEntry 50 1730; mkEntry 60 1420; mkEntry 70 1090;
    mkEntry 80 740; mkEntry 90 360; mkEntry 100 (-50);
    mkEntry 110 (-530) ].

(** [rk3588_tsadc_code_to_temp]: [high] comes from the size of the
    global table, whatever [table] is passed. *)
Definition rk3588_tsadc_code_to_temp (t : table) (c : Z) : result conv :=
  let low := 1 in
  let high := to_u32 (ARRAY_SIZE rk3588_code_table - 1) in
  e0 <- tbl t 0 ;;
  if c >? code e0 then Ok (mkConv (- EAGAIN) None)
  else
    eh <- tbl t high ;;
    if c <? code eh then Ok (mkConv (- EINVAL) None)
    else
      x <- search_loop t c (List.length rk3588_code_table) low high None ;;
      mid <- exit_mid x ;;
      hi <- tbl t (usub mid 1) ;;
      lo <- tbl t mid ;;
      let num := to_u32 (isub (temp hi) (temp lo)) in
      let den := to_u32 (isub (code hi) (code lo)) in
      if den =? 0 then Fault DivByZero
      else
        let v := usub (to_u32 (temp hi))
                      (udiv (umul (to_u32 (isub c (code lo))) num) den) in
        Ok (mkConv 0 (Some (to_s32 v))).

(** *** Registers and constants *)
Definition TSADC_DATA (chn : Z) : Z := 0x0020 + chn * 4.
Definition TSADC_DATA_MASK : Z := 0xfff.
Definition TSADC_MAX_CHANNELS : Z := 8.

(** The fields of [struct rk3588_tsadc_chip] the callbacks use. *)
Record rk3588_tsadc_chip : Type := mkChip {
  regs : Z -> Z;
  id : Z
}.

(** The code [rk3588_tsadc_get_temp] converts. *)
Definition sampled_code (chip : rk3588_tsadc_chip) : Z :=
  to_s32 (Z.land (to_s32 (regs chip (TSADC_DATA (id chip)))) TSADC_DATA_MASK).

(** [rk3588_tsadc_get_temp]. *)
Definition rk3588_tsadc_get_temp (chip : rk3588_tsadc_chip) : result conv :=
  let raw_val := to_s32 (regs chip (TSADC_DATA (id chip))) in
  let raw_val := to_s32 (Z.land raw_val TSADC_DATA_MASK) in
  r <- rk3588_tsadc_code_to_temp rk3588_code_table raw_val ;;
  if conv_ret r =? - EAGAIN
  then Ok (mkConv 0 (Some (-40000)))
  else Ok r.

(** *** The hardware side of the platform driver *)
Definition TSADC_AUTO_CON : Z := 0x0004.
Definition TSADC_INT_EN : Z := 0x0008.
Definition TSADC_INT_PD : Z := 0x000c.
Definition TSADC_HIGHT_INT_DEBOUNCE : Z := 0x0060.
Definition TSADC_HIGHT_TSHUT_DEBOUNCE : Z := 0x0064.
Definition TSADC_AUTO_PERIOD : Z := 0x0068.
Definition TSADC_AUTO_PERIOD_HT : Z := 0x006c.
Definition TSADC_AUTO_CON_SRC_EN (chn : Z) : Z := BIT (4 + chn).
Definition TSADC_AUTO_CON_START : Z := BIT 0.
Definition TSADC_INT_SRC_EN (chn : Z) : Z := BIT chn.
Definition TSADC_INT_SRC_MASK (chn : Z) : Z := BIT chn.
Definition TSADC_SAMPLE_RATE : Z := 20 * 1000.
Definition TSADC_SAMPLE_CYCLE : Z := 4800 / TSADC_SAMPLE_RATE.
Definition IRQ_HANDLED : Z := 1.
Definition ENOMEM : Z := 12.

(** [rk3588_tsadc_irq]. *)
Definition rk3588_tsadc_irq (chip : rk3588_tsadc_chip) : Z * Tsadc.trace :=
  let val := regs chip TSADC_INT_PD in
  let tr := [Tsadc.EvReadl TSADC_INT_PD val; Tsadc.EvWritel val TSADC_INT_PD] in
  if negb (Z.land val (TSADC_INT_SRC_MASK (id chip)) =? 0)
  then (IRQ_HANDLED, tr ++ [Tsadc.EvCall "thermal_zone_device_update"])
  else (IRQ_HANDLED, tr).

(** What the clock and reset services answer to
    [rk3588_tsadc_initialize]. *)
Record hw_env : Type := mkHwEnv {
  clk_prepare_enable_ret : Z;
  reset_control_assert_ret : Z;
  reset_control_deassert_ret : Z
}.

(** [rk3588_tsadc_initialize]. *)
Definition rk3588_tsadc_initialize (chip : rk3588_tsadc_chip) (env : hw_env)
  : Z * Tsadc.trace :=
  let ret := clk_prepare_enable_ret env in
  if negb (ret =? 0) then (ret, [])
  else
    let tr := [Tsadc.EvCall "clk_prepare_enable"] in
    let err_disable_clk := [Tsadc.EvCall "clk_disable_unprepare"] in
    let ret := reset_control_assert_ret env in
    if negb (ret =? 0) then (ret, tr ++ err_disable_clk)
    else
      let tr := tr ++ [Tsadc.EvCall "reset_control_assert";
                       Tsadc.EvCall "udelay"] in
      let ret := reset_control_deassert_ret env in
      if negb (ret =? 0) then (ret, tr ++ err_disable_clk)
      else
        (0,
         tr ++
         [ Tsadc.EvCall "reset_control_deassert";
           Tsadc.EvWritel (to_u32 TSADC_SAMPLE_CYCLE) TSADC_AUTO_PERIOD;
           Tsadc.EvWritel (to_u32 TSADC_SAMPLE_CYCLE) TSADC_AUTO_PERIOD_HT;
           Tsadc.EvWritel 0 TSADC_HIGHT_INT_DEBOUNCE;
           Tsadc.EvWritel 0 TSADC_HIGHT_TSHUT_DEBOUNCE;
           Tsadc.EvWritel (to_u32 (TSADC_AUTO_CON_SRC_EN (id chip)))
                          TSADC_AUTO_CON;
           Tsadc.EvWritel (to_u32 (TSADC_INT_SRC_EN (id chip))) TSADC_INT_EN;
           Tsadc.EvWritel
             (to_u32 (Z.lor TSADC_AUTO_CON_START
                            (TSADC_AUTO_CON_SRC_EN (id chip))))
             TSADC_AUTO_CON ]).

(** [rk3588_tsadc_disable]. *)
Definition rk3588_tsadc_disable (chip : rk3588_tsadc_chip) : Tsadc.trace :=
  [ Tsadc.EvWritel 0 TSADC_AUTO_CON;
    Tsadc.EvWritel 0 TSADC_INT_EN;
    Tsadc.EvCall "reset_control_assert";
    Tsadc.EvCall "clk_disable_unprepare" ].

(** What the services called by [rk3588_tsadc_probe] answer; [reg] is
    the value of the "reg" property. *)
Record probe_env : Type := mkProbeEnv {
  devm_kzalloc_ok : bool;
  ioremap_err : option Z;
  clk_get_err : option Z;
  reset_get_err : option Z;
  platform_get_irq_ret : Z;
  of_property_read_u32_ret : Z;
  reg : Z;
  init_env : hw_env;
  request_irq_ret : Z;
  thermal_register_err : option Z
}.

(** [rk3588_tsadc_probe]: every resource is device-managed, so the only
    undoing the function does itself is [rk3588_tsadc_disable]. *)
Definition rk3588_tsadc_probe (hw : Z -> Z) (env : probe_env)
  : Z * option rk3588_tsadc_chip * Tsadc.trace :=
  if negb (devm_kzalloc_ok env) then (- ENOMEM, None, [])
  else
    let tr := [Tsadc.EvCall "devm_kzalloc";
               Tsadc.EvCall "platform_set_drvdata"] in
    match ioremap_err env with
    | Some e => (e, None, tr)
    | None =>
        let tr := tr ++ [Tsadc.EvCall "devm_platform_ioremap_resource"] in
        match clk_get_err env with
        | Some e => (e, None, tr)
        | None =>
            let tr := tr ++ [Tsadc.EvCall "devm_clk_get"] in
            match reset_get_err env with
            | Some e => (e, None, tr)
            | None =>
                let tr :=
                  tr ++ [Tsadc.EvCall "devm_reset_control_get_exclusive"] in
                let irq := platform_get_irq_ret env in
                if irq <? 0 then (irq, None, tr)
                else
                  let tr := tr ++ [Tsadc.EvCall "platform_get_irq"] in
                  let ret := of_property_read_u32_ret env in
                  if negb (ret =? 0) then (ret, None, tr)
                  else
                    let chip := mkChip hw (to_s32 (reg env)) in
                    let tr := tr ++ [Tsadc.EvCall "of_property_read_u32"] in
                    let '(ret, tr_init) :=
                      rk3588_tsadc_initialize chip (init_env env) in
                    let tr := tr ++ tr_init in
                    if negb (ret =? 0) then (ret, None, tr)
                    else
                      let err_disable_hw := rk3588_tsadc_disable chip in
                      let ret := request_irq_ret env in
                      if negb (ret =? 0)
                      then (ret, None, tr ++ err_disable_hw)
                      else
                        let tr :=
                          tr ++ [Tsadc.EvCall "devm_request_threaded_irq"] in
                        match thermal_register_err env with
                        | Some e => (e, None, tr ++ err_disable_hw)
                        | None =>
                            (0, Some chip,
                             tr ++ [Tsadc.EvCall
                                "devm_thermal_zone_of_sensor_register"])
                        end
            end
        end
    end.

(** [rk3588_tsadc_remove]. *)
Definition rk3588_tsadc_remove (chip : rk3588_tsadc_chip) : Z * Tsadc.trace :=
  (0, rk3588_tsadc_disable chip).

End Platform.


(** ** Table shapes *)

(** Strictly descending list of integers. *)
Fixpoint desc (l : list Z) : bool :=
  match l with
  | a :: ((b :: _) as tl) => (b <? a) && desc tl
  | _ => true
  end.

(** Strictly ascending list of integers. *)
Definition asc (l : list Z) : bool := desc (map Z.opp l).

Definition codes (t : table) : list Z := map code t.
Definition temps (t : table) : list Z := map temp t.

(** The entry, code and temperature at an index. *)
Definition entry_at (t : table) (i : Z) : tsadc_table :=
  nth (Z.to_nat i) t (mkEntry 0 0).
Definition code_at (t : table) (i : Z) : Z := code (entry_at t i).
Definition temp_at (t : table) (i : Z) : Z := temp (entry_at t i).

(** Index of the last entry. *)
Definition last_index (t : table) : Z := ARRAY_SIZE t - 1.

(** Every field of the table is a C [int]. *)
Definition int_fields (t : table) : bool :=
  forallb (fun e => in_intb (temp e) && in_intb (code e)) t.

(** The table has at least two entries and its size fits the
    [unsigned int] arithmetic on indices. *)
Definition index_fits (t : table) : bool :=
  (2 <=? ARRAY_SIZE t) && (ARRAY_SIZE t <? two31).

(** The products formed by the interpolation fit 32 bits. *)
Definition product_fits (t : table) : bool :=
  (code_at t 0 - code_at t (last_index t))
  * (temp_at t 0 - temp_at t (last_index t)) <? two32.

(** The entry with the lowest temperature. *)
Fixpoint coldest_from (best : tsadc_table) (rest : table) : tsadc_table :=
  match rest with
  | [] => best
  | e :: rest' =>
      coldest_from (if temp e <? temp best then e else best) rest'
  end.

Definition coldest (t : table) : option tsadc_table :=
  match t with
  | [] => None
  | e :: rest => Some (coldest_from e rest)
  end.

(** The entry with the highest temperature. *)
Fixpoint hottest_from (best : tsadc_table) (rest : table) : tsadc_table :=
  match rest with
  | [] => best
  | e :: rest' =>
      hottest_from (if temp best <? temp e then e else best) rest'
  end.

Definition hottest (t : table) : option tsadc_table :=
  match t with
  | [] => None
  | e :: rest => Some (hottest_from e rest)
  end.

(** The interpolation formula of the specification,
    [temp_lo + (code - code_lo) * (temp_hi - temp_lo) / (code_hi - code_lo)],
    on unbounded integers with truncating division. *)
Definition interpolate (lo hi : tsadc_table) (c : Z) : Z :=
  temp lo + Z.quot ((c - code lo) * (temp hi - temp lo)) (code hi - code lo).

(** The value [code_to_temp] stores for the bracket [lo], [hi], as the
    32-bit arithmetic of the source computes it. *)
Definition stored_temp (lo hi : tsadc_table) (c : Z) : Z :=
  to_s32 (uadd (udiv (umul (to_u32 (isub c (code lo)))
                           (to_u32 (isub (temp hi) (temp lo))))
                     (to_u32 (isub (code hi) (code lo))))
               (to_u32 (temp lo))).

(** The same for [rk3588_tsadc_code_to_temp]. *)
Definition stored_temp_platform (lo hi : tsadc_table) (c : Z) : Z :=
  to_s32 (usub (to_u32 (temp hi))
               (udiv (umul (to_u32 (isub c (code lo)))
                           (to_u32 (isub (temp hi) (temp lo))))
                     (to_u32 (isub (code hi) (code lo))))).

(** ** Devices used in the examples *)

(** A character device whose data registers read [data] and whose
    pending-interrupt register reads [pending], with channel [ch]
    selected, the default threshold and no event pending. *)
Definition example_dev (data pending ch : Z) : Tsadc.tsadc_dev :=
  Tsadc.mkDev
    (fun off => if off =? Tsadc.TSADC_INT_PD then pending else data)
    ch 85 false.

(** A platform chip whose data registers read [data]. *)
Definition example_chip (data : Z) : Platform.rk3588_tsadc_chip :=
  Platform.mkChip (fun _ => data) 0.

(** The status a conversion owes a code, by its place against the
    first and the last code of the table. *)
Definition expected_status (t : table) (c : Z) : Z :=
  if code_at t 0 <? c then - EAGAIN
  else if c <? code_at t (last_index t) then - EINVAL
  else 0.

(** ** Reading traces *)

(** The value last written to the register at [off], if any. *)
Fixpoint last_write (off : Z) (tr : Tsadc.trace) : option Z :=
  match tr with
  | [] => None
  | e :: rest =>
      match last_write off rest with
      | Some v => Some v
      | None =>
          match e with
          | Tsadc.EvWritel v off' => if off' =? off then Some v else None
          | _ => None
          end
      end
  end.

(** The register offset an event touches. *)
Definition ev_offset (e : Tsadc.event) : option Z :=
  match e with
  | Tsadc.EvReadl off _ => Some off
  | Tsadc.EvWritel _ off => Some off
  | _ => None
  end.

(** A 32-bit access at [off] lies in the window mapped by [ioremap],
    [TSADC_PHYS_SIZE] bytes, and is aligned. *)
Definition in_window (off : Z) : bool :=
  (0 <=? off) && (off + 4 <=? Tsadc.TSADC_PHYS_SIZE) && (off mod 4 =? 0).

Definition mmio_in_window (tr : Tsadc.trace) : bool :=
  forallb (fun e => match ev_offset e with
                    | Some off => in_window off
                    | None => true
                    end) tr.

(** The channel selector of the character device is a channel. *)
Definition channel_ok (d : Tsadc.tsadc_dev) : Prop :=
  0 <= Tsadc.current_channel d < Tsadc.TSADC_MAX_CHANNELS.

(** What a service takes or gives back. *)
Inductive resource : Type :=
| RDev | RChrdev | RClass | RDevice | RCdev | RRegs
| RClk | RRst | RIrq | RClkOn | RRstOff.

Definition service_table : list (string * string * resource) :=
  [ ("kzalloc", "kfree", RDev);
    ("alloc_chrdev_region", "unregister_chrdev_region", RChrdev);
    ("class_create", "class_destroy", RClass);
    ("device_create", "device_destroy", RDevice);
    ("cdev_add", "cdev_del", RCdev);
    ("ioremap", "iounmap", RRegs);
    ("clk_get", "clk_put", RClk);
    ("reset_control_get", "reset_control_put", RRst);
    ("request_irq", "free_irq", RIrq);
    ("clk_prepare_enable", "clk_disable_unprepare", RClkOn);
    ("reset_control_deassert", "reset_control_assert", RRstOff) ]%string.

Definition acquires (e : Tsadc.event) : option resource :=
  match e with
  | Tsadc.EvCall s =>
      option_map snd
        (find (fun row => String.eqb (fst (fst row)) s) service_table)
  | _ => None
  end.

Definition releases (e : Tsadc.event) : option resource :=
  match e with
  | Tsadc.EvCall s =>
      option_map snd
        (find (fun row => String.eqb (snd (fst row)) s) service_table)
  | _ => None
  end.

Fixpoint collect (f : Tsadc.event -> option resource) (tr : Tsadc.trace)
  : list resource :=
  match tr with
  | [] => []
  | e :: rest =>
      match f e with
      | Some r => r :: collect f rest
      | None => collect f rest
      end
  end.

(** The resources a trace takes and the ones it gives back, in order. *)
Definition acquired (tr : Tsadc.trace) : list resource := collect acquires tr.
Definition released (tr : Tsadc.trace) : list resource := collect releases tr.

(** How often a service is called in a trace. *)
Definition count_calls (service : string) (tr : Tsadc.trace) : nat :=
  List.length
    (filter (fun e => match e with
                      | Tsadc.EvCall s => String.eqb s service
                      | _ => false
                      end) tr).

(** The register reads and writes of a trace. *)
Definition mmio (tr : Tsadc.trace) : Tsadc.trace :=
  filter (fun e => match ev_offset e with
                   | Some _ => true
                   | None => false
                   end) tr.

(** Whether a trace wakes the wait queue. *)
Definition wakes (tr : Tsadc.trace) : bool :=
  existsb (fun e => match e with
                    | Tsadc.EvWakeUp => true
                    | _ => false
                    end) tr.

(** An environment in which every service of [tsadc_char_init]
    succeeds, and one for the platform driver. *)
Definition init_env_ok : Tsadc.init_env :=
  Tsadc.mkInitEnv true 0 None None 0 true None None 0 0.

Definition hw_env_ok : Platform.hw_env := Platform.mkHwEnv 0 0 0.

Definition probe_env_ok (reg : Z) : Platform.probe_env :=
  Platform.mkProbeEnv true None None None 42 0 reg hw_env_ok 0 None.

(** Error pointers carry a negative errno. *)
Definition err_ok (e : option Z) : Prop :=
  match e with
  | Some v => v < 0
  | None => True
  end.

(** The error of the first service that fails [tsadc_char_init], in the
    order in which the function calls them; the last four are called
    under [TRY_AI_BUG] only. *)
Definition init_failure (try_ai_bug : bool) (env : Tsadc.init_env)
  : option Z :=
  if negb (Tsadc.kzalloc_ok env) then Some (- Tsadc.ENOMEM)
  else if Tsadc.alloc_chrdev_region_ret env <? 0
  then Some (Tsadc.alloc_chrdev_region_ret env)
  else match Tsadc.class_create_err env with
  | Some e => Some e
  | None =>
  match Tsadc.device_create_err env with
  | Some e => Some e
  | None =>
  if Tsadc.cdev_add_ret env <? 0 then Some (Tsadc.cdev_add_ret env)
  else if negb (Tsadc.ioremap_ok env) then Some (- Tsadc.ENOMEM)
  else if negb try_ai_bug then None
  else match Tsadc.clk_get_err env with
  | Some e => Some e
  | None =>
  match Tsadc.reset_control_get_err env with
  | Some e => Some e
  | None =>
  if negb (Tsadc.request_irq_ret env =? 0)
  then Some (Tsadc.request_irq_ret env)
  else if negb (Tsadc.clk_prepare_enable_ret env =? 0)
  then Some (Tsadc.clk_prepare_enable_ret env)
  else None
  end end end end.

(** ** Arithmetic on C integers *)
Section CIntFacts.

Lemma two32_eq : two32 = 4294967296.
Proof. reflexivity. Qed.

Lemma two31_eq : two31 = 2147483648.
Proof. reflexivity. Qed.

Lemma to_u32_small (z : Z) : 0 <= z < two32 -> to_u32 z = z.
Proof. intros H. unfold to_u32. now apply Z.mod_small. Qed.

Lemma to_s32_small (z : Z) : in_int z -> to_s32 z = z.
Proof.
  unfold in_int, to_s32. intros H.
  rewrite Z.mod_small; rewrite ?two32_eq, ?two31_eq in *; lia.
Qed.

Lemma to_u32_to_s32 (z : Z) : to_u32 (to_s32 z) = to_u32 z.
Proof.
  unfold to_u32, to_s32.
  rewrite Zminus_mod, Zmod_mod, <- Zminus_mod.
  f_equal. lia.
Qed.

Lemma to_s32_to_u32 (z : Z) : to_s32 (to_u32 z) = to_s32 z.
Proof.
  unfold to_u32, to_s32.
  now rewrite Zplus_mod_idemp_l.
Qed.

Lemma to_u32_isub (a b : Z) : 0 <= a - b < two32 -> to_u32 (isub a b) = a - b.
Proof.
  intros H. unfold isub. rewrite to_u32_to_s32. now apply to_u32_small.
Qed.

Lemma uadd_to_u32_r (a b : Z) : uadd a (to_u32 b) = to_u32 (a + b).
Proof. unfold uadd, to_u32. now rewrite Zplus_mod_idemp_r. Qed.

Lemma in_intb_spec (z : Z) : in_intb z = true <-> in_int z.
Proof. unfold in_intb, in_int. rewrite andb_true_iff. lia. Qed.

End CIntFacts.

(** ** Tables *)
Section TableFacts.

Lemma desc_head (l : list Z) (a : Z) (j : nat) :
  desc (a :: l) = true -> (j < List.length l)%nat -> nth j l 0 < a.
Proof.
  revert a j. induction l as [|b l IH]; intros a j Hd Hj.
  - simpl in Hj. lia.
  - change (desc (a :: b :: l)) with ((b <? a) && desc (b :: l)) in Hd.
    apply andb_true_iff in Hd as [Hba Hd]. apply Z.ltb_lt in Hba.
    destruct j as [|j]; simpl.
    + exact Hba.
    + simpl in Hj. specialize (IH b j Hd). lia.
Qed.

Lemma desc_tail (l : list Z) (a : Z) : desc (a :: l) = true -> desc l = true.
Proof.
  destruct l as [|b l]; [reflexivity|].
  change (desc (a :: b :: l)) with ((b <? a) && desc (b :: l)).
  intros H. now apply andb_true_iff in H as [_ H].
Qed.

Lemma desc_nth_lt (l : list Z) :
  desc l = true ->
  forall i j : nat, (i < j < List.length l)%nat -> nth j l 0 < nth i l 0.
Proof.
  induction l as [|a l IH]; intros Hd i j Hij.
  - simpl in Hij. lia.
  - destruct j as [|j]; [lia|]. simpl in Hij.
    destruct i as [|i]; simpl.
    + apply desc_head; [assumption | lia].
    + apply IH; [eapply desc_tail; eassumption | lia].
Qed.

Lemma asc_nth_lt (l : list Z) :
  asc l = true ->
  forall i j : nat, (i < j < List.length l)%nat -> nth i l 0 < nth j l 0.
Proof.
  unfold asc. intros Ha i j Hij.
  pose proof (desc_nth_lt (map Z.opp l) Ha i j
                ltac:(rewrite length_map; exact Hij)) as H.
  change 0 with (Z.opp 0) in H at 1 2. rewrite !map_nth in H. lia.
Qed.

Lemma code_at_nth (t : table) (i : Z) :
  code_at t i = nth (Z.to_nat i) (codes t) 0.
Proof.
  unfold code_at, entry_at, codes.
  now rewrite <- (map_nth code t (mkEntry 0 0)).
Qed.

Lemma temp_at_nth (t : table) (i : Z) :
  temp_at t i = nth (Z.to_nat i) (temps t) 0.
Proof.
  unfold temp_at, entry_at, temps.
  now rewrite <- (map_nth temp t (mkEntry 0 0)).
Qed.

Lemma code_at_lt (t : table) (i j : Z) :
  desc (codes t) = true -> 0 <= i < j -> j < ARRAY_SIZE t ->
  code_at t j < code_at t i.
Proof.
  intros Hd Hij Hj. rewrite !code_at_nth.
  apply desc_nth_lt; [assumption|].
  unfold codes. rewrite length_map. unfold ARRAY_SIZE in Hj. lia.
Qed.

Lemma code_at_le (t : table) (i j : Z) :
  desc (codes t) = true -> 0 <= i <= j -> j < ARRAY_SIZE t ->
  code_at t j <= code_at t i.
Proof.
  intros Hd Hij Hj. destruct (Z.eq_dec i j) as [->|Hne]; [lia|].
  apply Z.lt_le_incl, code_at_lt; [assumption | lia | assumption].
Qed.

Lemma temp_at_lt (t : table) (i j : Z) :
  desc (temps t) = true -> 0 <= i < j -> j < ARRAY_SIZE t ->
  temp_at t j < temp_at t i.
Proof.
  intros Hd Hij Hj. rewrite !temp_at_nth.
  apply desc_nth_lt; [assumption|].
  unfold temps. rewrite length_map. unfold ARRAY_SIZE in Hj. lia.
Qed.

Lemma temp_at_le (t : table) (i j : Z) :
  desc (temps t) = true -> 0 <= i <= j -> j < ARRAY_SIZE t ->
  temp_at t j <= temp_at t i.
Proof.
  intros Hd Hij Hj. destruct (Z.eq_dec i j) as [->|Hne]; [lia|].
  apply Z.lt_le_incl, temp_at_lt; [assumption | lia | assumption].
Qed.

(** With descending codes, a smaller code sits at a larger index. *)
Lemma code_at_lt_inv (t : table) (i j : Z) :
  desc (codes t) = true -> 0 <= i < ARRAY_SIZE t -> 0 <= j < ARRAY_SIZE t ->
  code_at t j < code_at t i -> i < j.
Proof.
  intros Hd Hi Hj Hlt. destruct (Z_lt_le_dec i j) as [|Hge]; [assumption|].
  pose proof (code_at_le t j i Hd ltac:(lia) ltac:(lia)). lia.
Qed.

Lemma tbl_ok (t : table) (i : Z) :
  0 <= i < ARRAY_SIZE t -> tbl t i = Ok (entry_at t i).
Proof.
  intros Hi. unfold tbl, entry_at.
  destruct (Z.ltb_spec i 0); [lia|].
  rewrite (nth_error_nth' t (mkEntry 0 0)); [reflexivity|].
  unfold ARRAY_SIZE in Hi. lia.
Qed.

Lemma tbl_inv (t : table) (i : Z) (e : tsadc_table) :
  tbl t i = Ok e -> 0 <= i < ARRAY_SIZE t /\ e = entry_at t i.
Proof.
  unfold tbl, entry_at, ARRAY_SIZE. destruct (Z.ltb_spec i 0); [discriminate|].
  destruct (nth_error t (Z.to_nat i)) as [e'|] eqn:E; [|discriminate].
  intros [= <-]. split.
  - assert (Z.to_nat i < List.length t)%nat
      by (apply nth_error_Some; congruence). lia.
  - symmetry. now apply nth_error_nth.
Qed.

Lemma tbl_fault (t : table) (i : Z) (f : fault) :
  tbl t i = Fault f -> f = OutOfBounds.
Proof.
  unfold tbl. destruct (i <? 0); [congruence|].
  destruct (nth_error t (Z.to_nat i)); congruence.
Qed.

Lemma int_fields_at (t : table) (i : Z) :
  int_fields t = true -> 0 <= i < ARRAY_SIZE t ->
  in_int (temp_at t i) /\ in_int (code_at t i).
Proof.
  unfold int_fields. intros Hf Hi. rewrite forallb_forall in Hf.
  assert (In (entry_at t i) t) as Hin.
  { unfold entry_at. apply nth_In. unfold ARRAY_SIZE in Hi. lia. }
  specialize (Hf _ Hin). apply andb_true_iff in Hf as [Ht Hc].
  now rewrite !in_intb_spec in *.
Qed.

End TableFacts.

(** ** The binary search *)
Section Search.

Variable t : table.
Variable c : Z.
Hypothesis codes_desc : desc (codes t) = true.
Hypothesis size_fits : ARRAY_SIZE t < two31.

Lemma probe_index (low high : Z) :
  1 <= low <= high -> high < ARRAY_SIZE t ->
  let m := udiv (uadd low high) 2 in
  low <= m <= high /\ usub m 1 = m - 1 /\ uadd m 1 = m + 1.
Proof.
  intros Hlh Hh m. subst m. unfold udiv, uadd, usub.
  rewrite two31_eq in size_fits.
  rewrite (to_u32_small (low + high)) by (rewrite two32_eq; lia).
  assert (low <= (low + high) / 2 <= high) as Hm.
  { split; [apply Z.div_le_lower_bound | apply Z.div_le_upper_bound]; lia. }
  repeat split; try lia; apply to_u32_small; rewrite two32_eq; lia.
Qed.

(** The loop keeps [table[high].code <= code <= table[low - 1].code]
    and [low <= high], so it can only be left by [break]. *)
Lemma search_loop_break (fuel : nat) :
  forall (low high : Z) (mid : option Z),
    1 <= low <= high -> high < ARRAY_SIZE t ->
    code_at t high <= c <= code_at t (low - 1) ->
    high - low < Z.of_nat fuel ->
    exists m,
      search_loop t c fuel low high mid = Ok (Break m)
      /\ low <= m <= high
      /\ code_at t m <= c <= code_at t (m - 1).
Proof.
  induction fuel as [|fuel IH]; intros low high mid Hlh Hh Hc Hfuel; [lia|].
  cbn [search_loop].
  destruct (Z.leb_spec low high) as [_|]; [|lia].
  destruct (probe_index low high Hlh Hh) as (Hm & Hsub & Hadd).
  set (m := udiv (uadd low high) 2) in *.
  rewrite (tbl_ok t m) by lia. cbn [bind].
  fold (code_at t m).
  rewrite Z.geb_leb, Z.gtb_ltb, Hsub, Hadd.
  destruct (Z.leb_spec (code_at t m) c) as [Hge|Hlt].
  - rewrite (tbl_ok t (m - 1)) by lia. cbn [bind].
    fold (code_at t (m - 1)).
    destruct (Z.leb_spec c (code_at t (m - 1))) as [Hle|Hgt].
    + exists m. repeat split; assumption || lia.
    + assert (low - 1 < m - 1) as Hlow.
      { apply (code_at_lt_inv t); try assumption; lia. }
      destruct (Z.ltb_spec (code_at t m) c) as [Hgt'|Heq].
      * destruct (IH low (m - 1) (Some m)) as (m' & E & Hb & Hbr);
          try lia.
        exists m'. repeat split; assumption || lia.
      * pose proof (code_at_lt t (m - 1) m codes_desc ltac:(lia) ltac:(lia)).
        lia.
  - cbn [bind].
    destruct (Z.ltb_spec (code_at t m) c) as [|_]; [lia|].
    assert (m < high) as Hhigh.
    { apply (code_at_lt_inv t); try assumption; lia. }
    destruct (IH (m + 1) high (Some m)) as (m' & E & Hb & Hbr);
      try lia.
    + replace (m + 1 - 1) with m by lia. lia.
    + exists m'. repeat split; assumption || lia.
Qed.

(** From the entry of [code_to_temp] the search ends by [break] at an
    index between 1 and the last one. *)
Lemma search_from_entry :
  2 <= ARRAY_SIZE t ->
  code_at t (last_index t) <= c <= code_at t 0 ->
  exists m,
    search_loop t c (List.length t) 1 (last_index t) None = Ok (Break m)
    /\ 1 <= m <= last_index t
    /\ code_at t m <= c <= code_at t (m - 1).
Proof.
  intros Hn Hc. unfold last_index in *.
  apply search_loop_break; try lia.
  - now replace (1 - 1) with 0 by lia.
  - unfold ARRAY_SIZE. lia.
Qed.

End Search.

(** The loop bound of the model is never the reason the loop stops:
    with [high - low < fuel] and indices that fit, the loop ends by
    itself or at an undefined operation. *)
Lemma search_loop_fuel (t : table) (c : Z) (fuel : nat) :
  forall (low high : Z) (mid : option Z),
    1 <= low -> high < two31 -> high - low < Z.of_nat fuel ->
    search_loop t c fuel low high mid <> Fault OutOfFuel.
Proof.
  induction fuel as [|fuel IH]; intros low high mid Hl Hh Hf.
  - cbn [search_loop]. destruct (Z.leb_spec low high); [lia|discriminate].
  - cbn [search_loop]. destruct (Z.leb_spec low high) as [Hlh|]; [|discriminate].
    rewrite two31_eq in Hh.
    assert (uadd low high = low + high) as E
        by (apply to_u32_small; rewrite two32_eq; lia).
    rewrite E. unfold udiv.
    assert (low <= (low + high) / 2 <= high) as Hm.
    { split; [apply Z.div_le_lower_bound | apply Z.div_le_upper_bound]; lia. }
    set (m := (low + high) / 2) in *.
    destruct (tbl t m) as [e|f] eqn:Hm_read; cbn [bind].
    2:{ apply tbl_fault in Hm_read. congruence. }
    assert (usub m 1 = m - 1) as Es
        by (apply to_u32_small; rewrite two32_eq; lia).
    assert (uadd m 1 = m + 1) as Ea
        by (apply to_u32_small; rewrite two32_eq; lia).
    rewrite Es, Ea.
    destruct (c >=? code e).
    + destruct (tbl t (m - 1)) as [e1|f] eqn:Hm1; cbn [bind].
      2:{ apply tbl_fault in Hm1. congruence. }
      destruct (c <=? code e1); [discriminate|].
      destruct (c >? code e); apply IH; rewrite ?two31_eq; lia.
    + cbn [bind].
      destruct (c >? code e); apply IH; rewrite ?two31_eq; lia.
Qed.

(** ** The conversions on a code inside the table *)

(** So [code_to_temp] never stops at the loop bound of the model. *)
Lemma code_to_temp_fuel (t : table) (c : Z) :
  ARRAY_SIZE t < two31 -> Tsadc.code_to_temp t c <> Fault OutOfFuel.
Proof.
  intros Hn. unfold Tsadc.code_to_temp.
  destruct (tbl t 0) as [e0|f] eqn:E0; cbn [bind].
  2:{ apply tbl_fault in E0. congruence. }
  apply tbl_inv in E0 as [Hn0 _].
  destruct (c >? code e0); [discriminate|].
  rewrite two31_eq in Hn.
  rewrite (to_u32_small (ARRAY_SIZE t - 1)) by (rewrite two32_eq; lia).
  destruct (tbl t (ARRAY_SIZE t - 1)) as [eh|f] eqn:Eh; cbn [bind].
  2:{ apply tbl_fault in Eh. congruence. }
  destruct (c <? code eh); [discriminate|].
  pose proof (search_loop_fuel t c (List.length t) 1 (ARRAY_SIZE t - 1) None
                ltac:(lia) ltac:(rewrite two31_eq; lia)
                ltac:(unfold ARRAY_SIZE; lia)) as Hfuel.
  destruct (search_loop t c (List.length t) 1 (ARRAY_SIZE t - 1) None)
    as [x|f]; cbn [bind]; [|congruence].
  destruct (exit_mid x) as [m|f] eqn:Ex; cbn [bind].
  2:{ destruct x as [|[|]]; cbn in Ex; congruence. }
  destruct (tbl t (usub m 1)) as [hi|f] eqn:Ehi; cbn [bind].
  2:{ apply tbl_fault in Ehi. congruence. }
  destruct (tbl t m) as [lo|f] eqn:Elo; cbn [bind].
  2:{ apply tbl_fault in Elo. congruence. }
  destruct (_ =? 0); discriminate.
Qed.

Section InRange.

Variable t : table.
Variable c : Z.
Hypothesis codes_desc : desc (codes t) = true.
Hypothesis size_ok : index_fits t = true.
Hypothesis ints : int_fields t = true.
Hypothesis in_range : code_at t (last_index t) <= c <= code_at t 0.

Lemma size_bounds : 2 <= ARRAY_SIZE t /\ ARRAY_SIZE t < two31.
Proof.
  unfold index_fits in size_ok. apply andb_true_iff in size_ok as [H1 H2].
  apply Z.leb_le in H1. apply Z.ltb_lt in H2. now split.
Qed.

Lemma high_index : to_u32 (ARRAY_SIZE t - 1) = last_index t.
Proof.
  destruct size_bounds as [H1 H2]. rewrite two31_eq in H2.
  unfold last_index. apply to_u32_small. rewrite two32_eq. lia.
Qed.

Lemma den_positive (m : Z) :
  1 <= m <= last_index t ->
  to_u32 (isub (code_at t (m - 1)) (code_at t m))
  = code_at t (m - 1) - code_at t m
  /\ 0 < code_at t (m - 1) - code_at t m.
Proof.
  intros Hm. destruct size_bounds as [H1 H2]. unfold last_index in Hm.
  pose proof (code_at_lt t (m - 1) m codes_desc ltac:(lia) ltac:(lia)).
  destruct (int_fields_at t m ints ltac:(lia)) as [_ Hc].
  destruct (int_fields_at t (m - 1) ints ltac:(lia)) as [_ Hc1].
  unfold in_int in *. rewrite two31_eq in *.
  split; [|lia]. apply to_u32_isub. rewrite two32_eq. lia.
Qed.

(** [code_to_temp] finds a bracket by [break] and returns 0 with the
    value interpolated in it. *)
Lemma code_to_temp_found :
  exists m,
    search_loop t c (List.length t) 1 (last_index t) None = Ok (Break m)
    /\ 1 <= m <= last_index t
    /\ code_at t m <= c <= code_at t (m - 1)
    /\ Tsadc.code_to_temp t c
       = Ok (mkConv 0 (Some (stored_temp (entry_at t m)
                                         (entry_at t (m - 1)) c))).
Proof.
  destruct size_bounds as [H1 H2].
  destruct (search_from_entry t c codes_desc H2 H1 in_range)
    as (m & E & Hm & Hbr).
  exists m. repeat split; try assumption || lia.
  unfold Tsadc.code_to_temp. rewrite high_index.
  rewrite (tbl_ok t 0) by lia. cbn [bind]. fold (code_at t 0).
  rewrite Z.gtb_ltb. destruct (Z.ltb_spec (code_at t 0) c); [lia|].
  unfold last_index in *.
  rewrite (tbl_ok t (ARRAY_SIZE t - 1)) by lia. cbn [bind].
  fold (code_at t (ARRAY_SIZE t - 1)).
  destruct (Z.ltb_spec c (code_at t (ARRAY_SIZE t - 1))); [lia|].
  rewrite E. cbn [bind exit_mid].
  assert (usub m 1 = m - 1) as Es.
  { apply to_u32_small. rewrite two32_eq. rewrite two31_eq in H2. lia. }
  rewrite Es, (tbl_ok t (m - 1)), (tbl_ok t m) by lia. cbn [bind].
  destruct (den_positive m ltac:(unfold last_index; lia)) as [Hden Hpos].
  unfold code_at in Hden. rewrite Hden.
  destruct (Z.eqb_spec (code (entry_at t (m - 1)) - code (entry_at t m)) 0)
    as [Hz|_]; [unfold code_at in Hpos; lia|].
  unfold stored_temp. now rewrite Hden.
Qed.

(** The same for the platform driver, when the table passed has the
    size of the global one, which the function takes [high] from. *)
Lemma platform_code_to_temp_found :
  List.length t = List.length Platform.rk3588_code_table ->
  exists m,
    search_loop t c (List.length t) 1 (last_index t) None = Ok (Break m)
    /\ 1 <= m <= last_index t
    /\ code_at t m <= c <= code_at t (m - 1)
    /\ Platform.rk3588_tsadc_code_to_temp t c
       = Ok (mkConv 0 (Some (stored_temp_platform (entry_at t m)
                                                  (entry_at t (m - 1)) c))).
Proof.
  intros Hlen.
  destruct size_bounds as [H1 H2].
  destruct (search_from_entry t c codes_desc H2 H1 in_range)
    as (m & E & Hm & Hbr).
  exists m. repeat split; try assumption || lia.
  unfold Platform.rk3588_tsadc_code_to_temp.
  assert (ARRAY_SIZE Platform.rk3588_code_table = ARRAY_SIZE t) as ->
      by (unfold ARRAY_SIZE; now rewrite Hlen).
  rewrite <- Hlen, high_index.
  rewrite (tbl_ok t 0) by lia. cbn [bind]. fold (code_at t 0).
  rewrite Z.gtb_ltb. destruct (Z.ltb_spec (code_at t 0) c); [lia|].
  unfold last_index in *.
  rewrite (tbl_ok t (ARRAY_SIZE t - 1)) by lia. cbn [bind].
  fold (code_at t (ARRAY_SIZE t - 1)).
  destruct (Z.ltb_spec c (code_at t (ARRAY_SIZE t - 1))); [lia|].
  rewrite E. cbn [bind exit_mid].
  assert (usub m 1 = m - 1) as Es.
  { apply to_u32_small. rewrite two32_eq. rewrite two31_eq in H2. lia. }
  rewrite Es, (tbl_ok t (m - 1)), (tbl_ok t m) by lia. cbn [bind].
  destruct (den_positive m ltac:(unfold last_index; lia)) as [Hden Hpos].
  unfold code_at in Hden. rewrite Hden.
  destruct (Z.eqb_spec (code (entry_at t (m - 1)) - code (entry_at t m)) 0)
    as [Hz|_]; [unfold code_at in Hpos; lia|].
  unfold stored_temp_platform. now rewrite Hden.
Qed.

End InRange.

(** ** Exact interpolation

    When temperatures rise with codes inside the bracket and the product
    fits 32 bits, the wrapping arithmetic of [code_to_temp] computes the
    interpolation formula with truncating division. *)
Lemma stored_temp_exact (lo hi : tsadc_table) (c : Z) :
  code lo <= c <= code hi -> code lo < code hi ->
  temp lo <= temp hi ->
  in_int (temp lo) -> in_int (temp hi) ->
  code hi - code lo < two32 ->
  (code hi - code lo) * (temp hi - temp lo) < two32 ->
  stored_temp lo hi c
  = interpolate lo hi c.
Proof.
  intros Hc Hlt Ht Hlo Hhi Hspan Hprod.
  unfold stored_temp, interpolate, in_int in *.
  rewrite two31_eq, two32_eq in *.
  rewrite (to_u32_isub c (code lo)) by (rewrite two32_eq; lia).
  rewrite (to_u32_isub (temp hi) (temp lo)) by (rewrite two32_eq; lia).
  rewrite (to_u32_isub (code hi) (code lo)) by (rewrite two32_eq; lia).
  assert (0 <= (c - code lo) * (temp hi - temp lo)
          <= (code hi - code lo) * (temp hi - temp lo)) as Hp by nia.
  unfold umul. rewrite to_u32_small by (rewrite two32_eq; lia).
  unfold udiv. rewrite uadd_to_u32_r, to_s32_to_u32.
  rewrite Z.quot_div_nonneg by lia.
  assert (0 <= (c - code lo) * (temp hi - temp lo) / (code hi - code lo)
          <= temp hi - temp lo) as Hq.
  { split; [apply Z.div_pos; lia|].
    apply Z.div_le_upper_bound; [lia|]. nia. }
  rewrite to_s32_small; [lia|].
  unfold in_int. rewrite two31_eq. lia.
Qed.

(** At the lower end of the bracket the stored value is the
    temperature of that entry, whatever the table holds. *)
Lemma stored_temp_at_lo (lo hi : tsadc_table) :
  in_int (temp lo) ->
  to_u32 (isub (code hi) (code lo)) <> 0 ->
  stored_temp lo hi (code lo) = temp lo.
Proof.
  intros Hlo Hden. unfold stored_temp, isub.
  rewrite Z.sub_diag.
  change (to_u32 (to_s32 0)) with 0.
  unfold umul. rewrite Z.mul_0_l. change (to_u32 0) with 0.
  unfold udiv. rewrite Z.div_0_l by assumption.
  rewrite uadd_to_u32_r, to_s32_to_u32. now apply to_s32_small.
Qed.

(** ** Properties of the specification: the conversion engine *)

(** The bracket [code_to_temp] of tsadc.c ends in and the value it
    stores, on a table whose codes and temperatures descend together. *)
Lemma code_to_temp_bracket_formula (t : table) (c : Z) :
  desc (codes t) = true ->
  desc (temps t) = true ->
  index_fits t = true ->
  int_fields t = true ->
  product_fits t = true ->
  code_at t (last_index t) <= c <= code_at t 0 ->
  exists m,
    search_loop t c (List.length t) 1 (last_index t) None = Ok (Break m)
    /\ 1 <= m <= last_index t
    /\ code_at t m <= c <= code_at t (m - 1)
    /\ Tsadc.code_to_temp t c
       = Ok (mkConv 0 (Some (interpolate (entry_at t m)
                                         (entry_at t (m - 1)) c)))
    /\ (forall k, 0 <= k <= last_index t -> c = code_at t k ->
                  m = k \/ m = k + 1).
Proof.
  intros Hcd Htd Hsz Hints Hprod Hc.
  destruct (code_to_temp_found t c Hcd Hsz Hints Hc) as (m & E & Hm & Hbr & R).
  destruct (size_bounds t Hsz) as [Hn2 Hn31].
  exists m. repeat apply conj; try assumption || lia.
  - rewrite R. do 3 f_equal. unfold last_index in *.
    destruct (int_fields_at t m Hints ltac:(lia)) as [Htm Hcm].
    destruct (int_fields_at t (m - 1) Hints ltac:(lia)) as [Htm1 Hcm1].
    pose proof (code_at_lt t (m - 1) m Hcd ltac:(lia) ltac:(lia)) as Hlt.
    pose proof (temp_at_le t (m - 1) m Htd ltac:(lia) ltac:(lia)) as Htle.
    apply stored_temp_exact; try assumption.
    + unfold in_int in *. rewrite two31_eq, two32_eq in *.
      fold (code_at t m) (code_at t (m - 1)). lia.
    + unfold product_fits in Hprod. apply Z.ltb_lt in Hprod.
      unfold last_index in Hprod.
      pose proof (code_at_le t 0 (m - 1) Hcd ltac:(lia) ltac:(lia)).
      pose proof (code_at_le t m (ARRAY_SIZE t - 1) Hcd ltac:(lia) ltac:(lia)).
      pose proof (temp_at_le t 0 (m - 1) Htd ltac:(lia) ltac:(lia)).
      pose proof (temp_at_le t m (ARRAY_SIZE t - 1) Htd ltac:(lia) ltac:(lia)).
      fold (code_at t m) (code_at t (m - 1)) (temp_at t m) (temp_at t (m - 1)).
      eapply Z.le_lt_trans; [|exact Hprod].
      apply Z.mul_le_mono_nonneg; lia.
  - intros k Hk ->. unfold last_index in *.
    destruct (Z_lt_le_dec k (m - 1)) as [Hlow|Hlow].
    + pose proof (code_at_lt t k (m - 1) Hcd ltac:(lia) ltac:(lia)). lia.
    + destruct (Z_lt_le_dec m k) as [Hup|Hup]; [|lia].
      pose proof (code_at_lt t m k Hcd ltac:(lia) ltac:(lia)). lia.
Qed.

(** Hence a code of the table converts to the temperature of its
    entry: either bracket that touches the entry gives it exactly. *)
Lemma code_to_temp_exact_entry (t : table) (k : Z) :
  desc (codes t) = true ->
  desc (temps t) = true ->
  index_fits t = true ->
  int_fields t = true ->
  product_fits t = true ->
  0 <= k <= last_index t ->
  Tsadc.code_to_temp t (code_at t k) = Ok (mkConv 0 (Some (temp_at t k))).
Proof.
  intros Hcd Htd Hsz Hints Hprod Hk.
  destruct (size_bounds t Hsz) as [Hn2 Hn31]. unfold last_index in Hk.
  assert (code_at t (last_index t) <= code_at t k <= code_at t 0) as Hc.
  { unfold last_index.
    split; apply code_at_le; try assumption; lia. }
  destruct (code_to_temp_bracket_formula t (code_at t k)
              Hcd Htd Hsz Hints Hprod Hc) as (m & _ & Hm & _ & R & Htie).
  rewrite R. do 3 f_equal. unfold last_index in Hm.
  unfold interpolate. fold (code_at t m) (code_at t (m - 1)).
  fold (temp_at t m) (temp_at t (m - 1)).
  destruct (Htie k ltac:(unfold last_index; lia) eq_refl) as [->| ->].
  - rewrite Z.sub_diag, Z.mul_0_l.
    pose proof (code_at_lt t (k - 1) k Hcd ltac:(lia) ltac:(lia)).
    rewrite Z.quot_0_l by lia. lia.
  - replace (k + 1 - 1) with k by lia.
    pose proof (code_at_lt t k (k + 1) Hcd ltac:(lia) ltac:(lia)).
    rewrite Z.mul_comm, Z.quot_mul by lia. lia.
Qed.

(** C1 (as amended).  On a table whose codes and temperatures both
    descend with the index, whose fields are C ints and whose
    interpolation products fit 32 bits, and for a code between the last
    and the first code of the table, [code_to_temp] of tsadc.c leaves the
    binary search by [break] at an index [m] with
    [table[m].code <= code <= table[m-1].code] and returns 0 with
    temperature
    [temp_lo + (code - code_lo) * (temp_hi - temp_lo) / (code_hi - code_lo)],
    the division truncating, where [lo = table[m]] and [hi = table[m-1]].
    When the code equals the code of entry [k], the bracket chosen is one
    of the two that touch [k]: [m = k] or [m = k + 1]. *)
Theorem code_to_temp_interpolates (t : table) (c : Z) :
  desc (codes t) = true ->
  desc (temps t) = true ->
  index_fits t = true ->
  int_fields t = true ->
  product_fits t = true ->
  code_at t (last_index t) <= c <= code_at t 0 ->
  exists m,
    search_loop t c (List.length t) 1 (last_index t) None = Ok (Break m)
    /\ 1 <= m <= last_index t
    /\ code_at t m <= c <= code_at t (m - 1)
    /\ Tsadc.code_to_temp t c
       = Ok (mkConv 0 (Some (interpolate (entry_at t m)
                                         (entry_at t (m - 1)) c)))
    /\ (forall k, 0 <= k <= last_index t -> c = code_at t k ->
                  m = k \/ m = k + 1).
Proof.
  exact (code_to_temp_bracket_formula t c).
Qed.

Lemma code_to_temp_interpolates_witness :
  exists m,
    search_loop Tsadc.rk3588_code_table 320 4 1 3 None = Ok (Break m)
    /\ 1 <= m <= 3
    /\ code_at Tsadc.rk3588_code_table m <= 320
       <= code_at Tsadc.rk3588_code_table (m - 1)
    /\ Tsadc.code_to_temp Tsadc.rk3588_code_table 320
       = Ok (mkConv 0 (Some (interpolate
                               (entry_at Tsadc.rk3588_code_table m)
                               (entry_at Tsadc.rk3588_code_table (m - 1))
                               320)))
    /\ (forall k, 0 <= k <= 3 -> 320 = code_at Tsadc.rk3588_code_table k ->
                  m = k \/ m = k + 1).
Proof.
  apply (code_to_temp_interpolates Tsadc.rk3588_code_table 320);
    try reflexivity.
  vm_compute. split; discriminate.
Defined.

(** C1, the counterexample.  On the shipped table both interior codes,
    350 (entry 1) and 285 (entry 2), end the search at [mid = 2], the
    bracket of entries 1 and 2.  So the bracket does not always have the
    matched entry at its lower index, and neither always at its upper
    index. *)
Lemma code_to_temp_tie_break_counterexample :
  let t := Tsadc.rk3588_code_table in
  (code_at t 1 = 350 /\ search_loop t 350 4 1 3 None = Ok (Break 2))
  /\ (code_at t 2 = 285 /\ search_loop t 285 4 1 3 None = Ok (Break 2))
  /\ ~ (forall k m, 1 <= k < last_index t ->
          search_loop t (code_at t k) (List.length t) 1 (last_index t) None
          = Ok (Break m) ->
          m - 1 = k)
  /\ ~ (forall k m, 1 <= k < last_index t ->
          search_loop t (code_at t k) (List.length t) 1 (last_index t) None
          = Ok (Break m) ->
          m = k).
Proof.
  cbv zeta. repeat apply conj; try reflexivity.
  - intros H. specialize (H 2 2 ltac:(vm_compute; split; congruence) eq_refl).
    discriminate.
  - intros H. specialize (H 1 2 ltac:(vm_compute; split; congruence) eq_refl).
    discriminate.
Qed.

(** C2.  An exact table code must convert to the temperature of its
    entry.  [code_to_temp] of tsadc.c does so on its table (350 gives 85),
    but [rk3588_tsadc_code_to_temp] of tsadc_platform.c does not: on its
    own table the code 3440 of the entry (-20, 3440) gives -30, and no
    code of the table gives the temperature of its entry. *)
Theorem platform_exact_code_wrong_temp :
  (Tsadc.code_to_temp Tsadc.rk3588_code_table 350 = Ok (mkConv 0 (Some 85))
   /\ forall e, In e Tsadc.rk3588_code_table ->
        Tsadc.code_to_temp Tsadc.rk3588_code_table (code e)
        = Ok (mkConv 0 (Some (temp e))))
  /\ In (mkEntry (-20) 3440) Platform.rk3588_code_table
  /\ Platform.rk3588_tsadc_code_to_temp Platform.rk3588_code_table 3440
     = Ok (mkConv 0 (Some (-30)))
  /\ forall e, In e Platform.rk3588_code_table ->
       Platform.rk3588_tsadc_code_to_temp Platform.rk3588_code_table (code e)
       <> Ok (mkConv 0 (Some (temp e))).
Proof.
  repeat apply conj.
  - reflexivity.
  - intros e He. cbn in He.
    repeat (destruct He as [<-|He]; [reflexivity|]). contradiction.
  - cbn. tauto.
  - reflexivity.
  - intros e He. cbn in He.
    repeat (destruct He as [<-|He]; [vm_compute; discriminate|]).
    contradiction.
Qed.

(** C3 (as amended).  [code_to_temp] and [rk3588_tsadc_code_to_temp]
    return [-EAGAIN], storing no temperature, exactly for the codes
    strictly above [table[0].code]; the code [table[0].code] itself is
    not answered with [-EAGAIN]. *)
Theorem not_ready_iff_above_first (e0 : tsadc_table) (rest : table) (c : Z) :
  (Tsadc.code_to_temp (e0 :: rest) c = Ok (mkConv (- EAGAIN) None)
   <-> code e0 < c)
  /\ (Platform.rk3588_tsadc_code_to_temp (e0 :: rest) c
      = Ok (mkConv (- EAGAIN) None)
      <-> code e0 < c)
  /\ (forall r, Tsadc.code_to_temp (e0 :: rest) c = Ok r ->
                conv_ret r = - EAGAIN -> code e0 < c)
  /\ (forall r, Platform.rk3588_tsadc_code_to_temp (e0 :: rest) c = Ok r ->
                conv_ret r = - EAGAIN -> code e0 < c).
Proof.
  assert (forall r, Tsadc.code_to_temp (e0 :: rest) c = Ok r ->
                    conv_ret r = - EAGAIN -> code e0 < c) as HT.
  { intros r. unfold Tsadc.code_to_temp.
    change (tbl (e0 :: rest) 0) with (Ok e0). cbn [bind].
    rewrite Z.gtb_ltb. destruct (Z.ltb_spec (code e0) c); [trivial|].
    destruct (tbl _ _); cbn [bind]; [|discriminate].
    destruct (c <? _); [intros [= <-]; discriminate|].
    destruct (search_loop _ _ _ _ _ _); cbn [bind]; [|discriminate].
    destruct (exit_mid _); cbn [bind]; [|discriminate].
    destruct (tbl _ _); cbn [bind]; [|discriminate].
    destruct (tbl _ _); cbn [bind]; [|discriminate].
    destruct (_ =? 0); [discriminate|].
    intros [= <-]. discriminate. }
  assert (forall r, Platform.rk3588_tsadc_code_to_temp (e0 :: rest) c = Ok r ->
                    conv_ret r = - EAGAIN -> code e0 < c) as HP.
  { intros r. unfold Platform.rk3588_tsadc_code_to_temp.
    change (tbl (e0 :: rest) 0) with (Ok e0). cbn [bind].
    rewrite Z.gtb_ltb. destruct (Z.ltb_spec (code e0) c); [trivial|].
    destruct (tbl _ _); cbn [bind]; [|discriminate].
    destruct (c <? _); [intros [= <-]; discriminate|].
    destruct (search_loop _ _ _ _ _ _); cbn [bind]; [|discriminate].
    destruct (exit_mid _); cbn [bind]; [|discriminate].
    destruct (tbl _ _); cbn [bind]; [|discriminate].
    destruct (tbl _ _); cbn [bind]; [|discriminate].
    destruct (_ =? 0); [discriminate|].
    intros [= <-]. discriminate. }
  repeat apply conj; try assumption.
  - intros H. exact (HT _ H eq_refl).
  - intros H. unfold Tsadc.code_to_temp.
    change (tbl (e0 :: rest) 0) with (Ok e0). cbn [bind].
    rewrite Z.gtb_ltb. now destruct (Z.ltb_spec (code e0) c); [|lia].
  - intros H. exact (HP _ H eq_refl).
  - intros H. unfold Platform.rk3588_tsadc_code_to_temp.
    change (tbl (e0 :: rest) 0) with (Ok e0). cbn [bind].
    rewrite Z.gtb_ltb. now destruct (Z.ltb_spec (code e0) c); [|lia].
Qed.

Lemma not_ready_iff_above_first_witness :
  Tsadc.code_to_temp Tsadc.rk3588_code_table 396
  = Ok (mkConv (- EAGAIN) None)
  /\ Platform.rk3588_tsadc_code_to_temp Platform.rk3588_code_table 3801
     = Ok (mkConv (- EAGAIN) None).
Proof.
  split.
  - apply (not_ready_iff_above_first (mkEntry 125 395)
             [mkEntry 85 350; mkEntry 25 285; mkEntry (-40) 215] 396).
    cbn. lia.
  - apply (not_ready_iff_above_first (mkEntry (-40) 3800)
             (tl Platform.rk3588_code_table) 3801).
    cbn. lia.
Defined.

(** C3, the counterexample.  The code 395 equals [table[0].code] of the
    shipped table, and [code_to_temp] returns 0 with 125 degrees, not
    [-EAGAIN]; [rk3588_tsadc_code_to_temp] likewise returns 0 at 3800,
    the first code of its table. *)
Lemma not_ready_boundary_counterexample :
  code_at Tsadc.rk3588_code_table 0 = 395
  /\ Tsadc.code_to_temp Tsadc.rk3588_code_table 395
     = Ok (mkConv 0 (Some 125))
  /\ code_at Platform.rk3588_code_table 0 = 3800
  /\ (exists v, Platform.rk3588_tsadc_code_to_temp
                  Platform.rk3588_code_table 3800
                = Ok (mkConv 0 (Some v)))
  /\ ~ (forall c, c >= code_at Tsadc.rk3588_code_table 0 ->
          Tsadc.code_to_temp Tsadc.rk3588_code_table c
          = Ok (mkConv (- EAGAIN) None)).
Proof.
  repeat apply conj; try reflexivity.
  - eexists. vm_compute. reflexivity.
  - intros H. specialize (H 395 ltac:(vm_compute; discriminate)).
    vm_compute in H. discriminate.
Qed.

(** C10.  On a table with descending codes, at least two entries and
    C int fields, and for [table[last].code <= code <= table[0].code],
    the binary search loop ends by [break] at an index [mid] with
    [1 <= mid <= last] whose bracket holds the code; both [table[mid]]
    and [table[mid - 1]] are entries of the table, and the conversion
    runs to its [return 0] without reading [mid] unassigned or the
    table out of bounds.  The platform variant does the same on a
    table of the size of its global table. *)
Theorem search_terminates_in_bounds (t : table) (c : Z) :
  desc (codes t) = true ->
  index_fits t = true ->
  int_fields t = true ->
  code_at t (last_index t) <= c <= code_at t 0 ->
  exists mid,
    search_loop t c (List.length t) 1 (last_index t) None = Ok (Break mid)
    /\ 1 <= mid <= last_index t
    /\ code_at t mid <= c <= code_at t (mid - 1)
    /\ tbl t mid = Ok (entry_at t mid)
    /\ tbl t (mid - 1) = Ok (entry_at t (mid - 1))
    /\ (exists v, Tsadc.code_to_temp t c = Ok (mkConv 0 (Some v)))
    /\ (List.length t = List.length Platform.rk3588_code_table ->
        exists v, Platform.rk3588_tsadc_code_to_temp t c
                  = Ok (mkConv 0 (Some v))).
Proof.
  intros Hcd Hsz Hints Hc.
  destruct (code_to_temp_found t c Hcd Hsz Hints Hc) as (m & E & Hm & Hbr & R).
  destruct (size_bounds t Hsz) as [Hn2 Hn31].
  exists m. unfold last_index in *.
  repeat apply conj; try assumption || lia.
  - apply tbl_ok. lia.
  - apply tbl_ok. lia.
  - eexists. exact R.
  - intros Hlen.
    destruct (platform_code_to_temp_found t c Hcd Hsz Hints Hc Hlen)
      as (m' & _ & _ & _ & R').
    eexists. exact R'.
Qed.

Lemma search_terminates_in_bounds_witness :
  exists mid,
    search_loop Platform.rk3588_code_table 3000 16 1 15 None = Ok (Break mid)
    /\ 1 <= mid <= 15
    /\ code_at Platform.rk3588_code_table mid <= 3000
       <= code_at Platform.rk3588_code_table (mid - 1)
    /\ tbl Platform.rk3588_code_table mid
       = Ok (entry_at Platform.rk3588_code_table mid)
    /\ tbl Platform.rk3588_code_table (mid - 1)
       = Ok (entry_at Platform.rk3588_code_table (mid - 1))
    /\ (exists v, Tsadc.code_to_temp Platform.rk3588_code_table 3000
                  = Ok (mkConv 0 (Some v)))
    /\ (List.length Platform.rk3588_code_table
        = List.length Platform.rk3588_code_table ->
        exists v, Platform.rk3588_tsadc_code_to_temp
                    Platform.rk3588_code_table 3000
                  = Ok (mkConv 0 (Some v))).
Proof.
  apply (search_terminates_in_bounds Platform.rk3588_code_table 3000);
    try reflexivity.
  vm_compute. split; discriminate.
Defined.

(** ** The inverse lookup *)
Section TempToCode.

Variable t : table.
Variable tc : Z.
Hypothesis temps_desc : desc (temps t) = true.
Hypothesis size_ok : 1 <= ARRAY_SIZE t < 2 ^ 63.

Lemma loop_bound : to_size_t (ARRAY_SIZE t - 1) = last_index t.
Proof.
  unfold to_size_t, last_index. apply Z.mod_small. lia.
Qed.

(** A temperature outside every bracket falls through the loop to
    [return rk3588_code_table[0].code]. *)
Lemma temp_to_code_loop_default (fuel : nat) :
  forall j,
    0 <= j <= last_index t -> last_index t - j < Z.of_nat fuel ->
    tc <= temp_at t (last_index t) \/ temp_at t j < tc ->
    Tsadc.temp_to_code_loop t tc fuel j = Ok (code_at t 0).
Proof.
  unfold last_index.
  induction fuel as [|fuel IH]; intros j Hj Hfuel Hout; [lia|].
  cbn [Tsadc.temp_to_code_loop]. rewrite loop_bound. unfold last_index.
  destruct (Z.ltb_spec j (ARRAY_SIZE t - 1)) as [Hlt|Hge].
  - rewrite (tbl_ok t j) by lia. cbn [bind]. fold (temp_at t j).
    destruct (Z.leb_spec tc (temp_at t j)) as [Hle|Hgt].
    + rewrite (tbl_ok t (j + 1)) by lia. cbn [bind]. fold (temp_at t (j + 1)).
      rewrite Z.gtb_ltb.
      assert (tc <= temp_at t (ARRAY_SIZE t - 1)) as Hlow by lia.
      pose proof (temp_at_le t (j + 1) (ARRAY_SIZE t - 1) temps_desc
                    ltac:(lia) ltac:(lia)).
      destruct (Z.ltb_spec (temp_at t (j + 1)) tc); [lia|].
      apply IH; lia.
    + cbn [bind].
      pose proof (temp_at_lt t j (j + 1) temps_desc ltac:(lia) ltac:(lia)).
      apply IH; lia.
  - rewrite (tbl_ok t 0) by lia. reflexivity.
Qed.

(** A temperature in the bracket [table[i+1].temp < temp <= table[i].temp]
    stops the loop at [i]. *)
Lemma temp_to_code_loop_bracket (fuel : nat) (i : Z) :
  temp_at t (i + 1) < tc <= temp_at t i ->
  forall j,
    0 <= j <= i -> i < last_index t -> last_index t - j < Z.of_nat fuel ->
    Tsadc.temp_to_code_loop t tc fuel j = Ok (code_at t i).
Proof.
  unfold last_index. intros Hbr.
  induction fuel as [|fuel IH]; intros j Hj Hi Hfuel; [lia|].
  cbn [Tsadc.temp_to_code_loop]. rewrite loop_bound. unfold last_index.
  destruct (Z.ltb_spec j (ARRAY_SIZE t - 1)) as [_|]; [|lia].
  rewrite (tbl_ok t j) by lia. cbn [bind]. fold (temp_at t j) (code_at t j).
  pose proof (temp_at_le t j i temps_desc ltac:(lia) ltac:(lia)).
  destruct (Z.leb_spec tc (temp_at t j)); [|lia].
  rewrite (tbl_ok t (j + 1)) by lia. cbn [bind]. fold (temp_at t (j + 1)).
  rewrite Z.gtb_ltb.
  destruct (Z.ltb_spec (temp_at t (j + 1)) tc) as [Hhit|Hmiss].
  - destruct (Z.eq_dec j i) as [->|Hne]; [reflexivity|].
    pose proof (temp_at_le t (j + 1) i temps_desc ltac:(lia) ltac:(lia)). lia.
  - destruct (Z.eq_dec j i) as [->|Hne]; [lia|].
    apply IH; lia.
Qed.

Lemma temp_to_code_default :
  tc <= temp_at t (last_index t) \/ temp_at t 0 < tc ->
  Tsadc.temp_to_code t tc = Ok (code_at t 0).
Proof.
  intros H. unfold Tsadc.temp_to_code.
  apply temp_to_code_loop_default; unfold last_index, ARRAY_SIZE in *; lia.
Qed.

Lemma temp_to_code_bracket (i : Z) :
  0 <= i < last_index t ->
  temp_at t (i + 1) < tc <= temp_at t i ->
  Tsadc.temp_to_code t tc = Ok (code_at t i).
Proof.
  intros Hi H. unfold Tsadc.temp_to_code.
  apply temp_to_code_loop_bracket;
    unfold last_index, ARRAY_SIZE in *; try assumption; lia.
Qed.

End TempToCode.

(** With descending temperatures the first entry is the hottest and
    the last one the coldest. *)
Lemma hottest_from_first (best : tsadc_table) (rest : table) :
  desc (temps (best :: rest)) = true -> hottest_from best rest = best.
Proof.
  revert best. induction rest as [|e rest IH]; intros best Hd; [reflexivity|].
  cbn [hottest_from].
  pose proof (desc_head (temps (e :: rest)) (temp best) 0 Hd
                ltac:(cbn; lia)) as Hlt. cbn in Hlt.
  destruct (Z.ltb_spec (temp best) (temp e)); [lia|].
  apply IH. cbn [temps map] in *.
  change (desc (temp best :: temp e :: map temp rest))
    with ((temp e <? temp best) && desc (temp e :: map temp rest)) in Hd.
  apply andb_true_iff in Hd as [_ Hd].
  destruct rest as [|e' rest]; [reflexivity|]. cbn [map] in *.
  change (desc (temp e :: temp e' :: map temp rest))
    with ((temp e' <? temp e) && desc (temp e' :: map temp rest)) in Hd.
  apply andb_true_iff in Hd as [Hlt' Hd]. apply Z.ltb_lt in Hlt'.
  change (desc (temp best :: temp e' :: map temp rest))
    with ((temp e' <? temp best) && desc (temp e' :: map temp rest)).
  apply andb_true_iff. split; [apply Z.ltb_lt; lia | assumption].
Qed.

Lemma coldest_from_last (best : tsadc_table) (rest : table) :
  desc (temps (best :: rest)) = true ->
  coldest_from best rest
  = entry_at (best :: rest) (last_index (best :: rest)).
Proof.
  unfold entry_at, last_index, ARRAY_SIZE.
  revert best. induction rest as [|e rest IH]; intros best Hd; [reflexivity|].
  cbn [coldest_from].
  pose proof (desc_head (temps (e :: rest)) (temp best) 0 Hd
                ltac:(cbn; lia)) as Hlt. cbn in Hlt.
  destruct (Z.ltb_spec (temp e) (temp best)); [|lia].
  rewrite IH by (eapply desc_tail; exact Hd).
  replace (Z.to_nat (Z.of_nat (List.length (best :: e :: rest)) - 1))
    with (S (Z.to_nat (Z.of_nat (List.length (e :: rest)) - 1)))
    by (cbn [List.length]; lia).
  reflexivity.
Qed.

(** On a table with ascending temperatures, as the one compiled in
    under [TRY_AI_BUG], no bracket test of the loop can succeed and
    [temp_to_code] returns [table[0].code] for every temperature. *)
Lemma temp_to_code_ascending_loop (t : table) (tc : Z) (fuel : nat) :
  asc (temps t) = true -> 1 <= ARRAY_SIZE t < 2 ^ 63 ->
  forall j,
    0 <= j <= last_index t -> last_index t - j < Z.of_nat fuel ->
    Tsadc.temp_to_code_loop t tc fuel j = Ok (code_at t 0).
Proof.
  intros Ha Hn. unfold last_index.
  induction fuel as [|fuel IH]; intros j Hj Hfuel; [lia|].
  cbn [Tsadc.temp_to_code_loop]. rewrite (loop_bound t Hn). unfold last_index.
  destruct (Z.ltb_spec j (ARRAY_SIZE t - 1)) as [Hlt|Hge].
  - rewrite (tbl_ok t j) by lia. cbn [bind]. fold (temp_at t j).
    destruct (Z.leb_spec tc (temp_at t j)) as [Hle|Hgt].
    + rewrite (tbl_ok t (j + 1)) by lia. cbn [bind]. fold (temp_at t (j + 1)).
      rewrite Z.gtb_ltb.
      assert (temp_at t j < temp_at t (j + 1)) as Hup.
      { rewrite !temp_at_nth. apply asc_nth_lt; [assumption|].
        unfold temps. rewrite length_map. unfold ARRAY_SIZE in *. lia. }
      destruct (Z.ltb_spec (temp_at t (j + 1)) tc); [lia|].
      apply IH; lia.
    + cbn [bind]. apply IH; lia.
  - rewrite (tbl_ok t 0) by lia. reflexivity.
Qed.

Lemma temp_to_code_ascending (tc : Z) :
  Tsadc.temp_to_code Tsadc.rk3588_code_table_ai tc = Ok 3800.
Proof.
  unfold Tsadc.temp_to_code.
  rewrite (temp_to_code_ascending_loop Tsadc.rk3588_code_table_ai tc);
    try reflexivity; vm_compute; split; congruence.
Qed.

(** C4.  Below the lowest temperature of the table the threshold code
    must saturate at the coldest code; the source says so itself
    ("Default to coldest").  But [temp_to_code] returns [table[0].code]
    there, and on a table with descending temperatures, as the shipped
    one, entry 0 is the hottest entry and the last entry the coldest: on
    the shipped table -50 gives 395, the code of the entry of 125
    degrees, while the coldest entry is (-40, 215). *)
Theorem temp_to_code_below_range_hottest (t : table) (tc : Z) :
  desc (temps t) = true ->
  1 <= ARRAY_SIZE t < 2 ^ 63 ->
  tc < temp_at t (last_index t) ->
  Tsadc.temp_to_code t tc = Ok (code_at t 0)
  /\ hottest t = Some (entry_at t 0)
  /\ coldest t = Some (entry_at t (last_index t)).
Proof.
  intros Hd Hn Hlow. repeat apply conj.
  - apply temp_to_code_default; try assumption. lia.
  - destruct t as [|e0 rest]; [cbn in Hn; lia|].
    cbn [hottest]. now rewrite hottest_from_first.
  - destruct t as [|e0 rest]; [cbn in Hn; lia|].
    cbn [coldest]. now rewrite coldest_from_last.
Qed.

Lemma temp_to_code_below_range_hottest_witness :
  Tsadc.temp_to_code Tsadc.rk3588_code_table (-50) = Ok 395
  /\ hottest Tsadc.rk3588_code_table = Some (mkEntry 125 395)
  /\ coldest Tsadc.rk3588_code_table = Some (mkEntry (-40) 215).
Proof.
  apply (temp_to_code_below_range_hottest Tsadc.rk3588_code_table (-50)).
  - reflexivity.
  - vm_compute. split; [discriminate | reflexivity].
  - vm_compute. reflexivity.
Defined.

(** ** The interrupt handler *)

Lemma land_bit_testbit (v n : Z) :
  negb (Z.land v (BIT n) =? 0) = Z.testbit v n.
Proof.
  unfold BIT. rewrite Z.shiftl_1_l.
  destruct (Z.ltb_spec n 0) as [Hneg|Hpos].
  - rewrite Z.pow_neg_r, Z.land_0_r, Z.testbit_neg_r by assumption.
    reflexivity.
  - destruct (Z.testbit v n) eqn:E.
    + assert (Z.land v (2 ^ n) = 2 ^ n) as ->.
      { apply Z.bits_inj'. intros m Hm.
        rewrite Z.land_spec, Z.pow2_bits_eqb by assumption.
        destruct (Z.eqb_spec n m) as [<-|]; [now rewrite E|].
        apply andb_false_r. }
      pose proof (Z.pow_pos_nonneg 2 n ltac:(lia) Hpos).
      destruct (Z.eqb_spec (2 ^ n) 0); [lia|reflexivity].
    + assert (Z.land v (2 ^ n) = 0) as ->.
      { apply Z.bits_inj'. intros m Hm.
        rewrite Z.land_spec, Z.pow2_bits_eqb, Z.bits_0 by assumption.
        destruct (Z.eqb_spec n m) as [<-|]; [now rewrite E|].
        apply andb_false_r. }
      reflexivity.
Qed.

(** C5 (as amended).  [tsadc_isr] reads the pending-interrupt register
    once and writes back to it exactly the value read.  The device has
    one event flag: it becomes true, and every task sleeping on the wait
    queue is woken, exactly when the bit of the selected channel is set
    in the value read; otherwise, whatever other bits are set, the flag
    is unchanged and nobody is woken.  Nothing else of the device
    changes. *)
Theorem tsadc_isr_dispatch (d : Tsadc.tsadc_dev) :
  let val := Tsadc.regs d Tsadc.TSADC_INT_PD in
  let fired := Z.testbit val (Tsadc.current_channel d) in
  exists d' tr,
    Tsadc.tsadc_isr d = (Tsadc.IRQ_HANDLED, d', tr)
    /\ tr = [Tsadc.EvReadl Tsadc.TSADC_INT_PD val;
             Tsadc.EvWritel val Tsadc.TSADC_INT_PD]
            ++ (if fired then [Tsadc.EvWakeUp] else [])
    /\ Tsadc.irq_fired d' = Tsadc.irq_fired d || fired
    /\ Tsadc.current_channel d' = Tsadc.current_channel d
    /\ Tsadc.int_threshold_temp d' = Tsadc.int_threshold_temp d
    /\ Tsadc.regs d' = Tsadc.regs d
    /\ forall sleeping,
         Tsadc.waitq_after tr sleeping = if fired then [] else sleeping.
Proof.
  cbv zeta. unfold Tsadc.tsadc_isr, Tsadc.TSADC_INT_SRC_MASK.
  rewrite land_bit_testbit.
  destruct (Z.testbit _ _); eexists; eexists;
    (split; [reflexivity|]); repeat apply conj; try reflexivity.
  - cbn. now rewrite orb_true_r.
  - cbn. now rewrite orb_false_r.
Qed.

(** C5, the counterexample.  With channel 2 selected and only the bit
    of channel 3 pending, the handler acknowledges the value read but
    sets no event flag and wakes nobody. *)
Lemma tsadc_isr_other_channel_counterexample :
  let d := example_dev 0 8 2 in
  Z.testbit (Tsadc.regs d Tsadc.TSADC_INT_PD) 3 = true
  /\ Tsadc.tsadc_isr d
     = (Tsadc.IRQ_HANDLED, d,
        [Tsadc.EvReadl Tsadc.TSADC_INT_PD 8;
         Tsadc.EvWritel 8 Tsadc.TSADC_INT_PD])
  /\ Tsadc.irq_fired d = false
  /\ Tsadc.waitq_after (snd (Tsadc.tsadc_isr d)) [7%nat] = [7%nat]
  /\ ~ (forall (d : Tsadc.tsadc_dev) (ch : Z),
          0 <= ch < Tsadc.TSADC_MAX_CHANNELS ->
          Z.testbit (Tsadc.regs d Tsadc.TSADC_INT_PD) ch = true ->
          Tsadc.irq_fired (snd (fst (Tsadc.tsadc_isr d))) = true
          /\ forall sleeping,
               Tsadc.waitq_after (snd (Tsadc.tsadc_isr d)) sleeping = []).
Proof.
  cbv zeta. repeat apply conj; try reflexivity.
  intros H.
  destruct (H (example_dev 0 8 2) 3 ltac:(vm_compute; split; congruence)
              eq_refl) as [Hflag _].
  discriminate.
Qed.

(** The scenario of the specification: only the bit of channel 2 is
    pending and channel 2 is selected. *)
Example tsadc_isr_channel_2 :
  Tsadc.tsadc_isr (example_dev 0 4 2)
  = (Tsadc.IRQ_HANDLED, Tsadc.set_irq_fired (example_dev 0 4 2) true,
     [Tsadc.EvReadl Tsadc.TSADC_INT_PD 4;
      Tsadc.EvWritel 4 Tsadc.TSADC_INT_PD;
      Tsadc.EvWakeUp]).
Proof. reflexivity. Qed.

(** ** The ioctl *)

(** C7.  [TSADC_SET_CHANNEL] fails with [-EINVAL] for every channel id
    outside [0, TSADC_MAX_CHANNELS) and leaves the device as it was; for
    every id inside it returns 0 and changes the selected channel and
    nothing else. *)
Theorem set_channel_checks_range (t : table) (d : Tsadc.tsadc_dev) (id : Z) :
  (id < 0 \/ Tsadc.TSADC_MAX_CHANNELS <= id ->
   Tsadc.my_ioctl t d Tsadc.TSADC_SET_CHANNEL (Some id)
   = Ok (Tsadc.mkIoctl (- EINVAL) d None []))
  /\ (0 <= id < Tsadc.TSADC_MAX_CHANNELS ->
      exists d',
        Tsadc.my_ioctl t d Tsadc.TSADC_SET_CHANNEL (Some id)
        = Ok (Tsadc.mkIoctl 0 d' None [])
        /\ Tsadc.current_channel d' = id
        /\ Tsadc.int_threshold_temp d' = Tsadc.int_threshold_temp d
        /\ Tsadc.irq_fired d' = Tsadc.irq_fired d
        /\ Tsadc.regs d' = Tsadc.regs d).
Proof.
  unfold Tsadc.my_ioctl. rewrite Z.eqb_refl, Z.geb_leb.
  split; intros H.
  - destruct (Z.ltb_spec id 0); [reflexivity|].
    destruct (Z.leb_spec Tsadc.TSADC_MAX_CHANNELS id); [reflexivity|lia].
  - destruct (Z.ltb_spec id 0); [lia|].
    destruct (Z.leb_spec Tsadc.TSADC_MAX_CHANNELS id); [lia|].
    eexists. split; [reflexivity|]. repeat apply conj; reflexivity.
Qed.

Lemma set_channel_checks_range_witness :
  let d := example_dev 0 0 2 in
  Tsadc.my_ioctl Tsadc.rk3588_code_table d Tsadc.TSADC_SET_CHANNEL (Some (-1))
  = Ok (Tsadc.mkIoctl (- EINVAL) d None [])
  /\ Tsadc.my_ioctl Tsadc.rk3588_code_table d Tsadc.TSADC_SET_CHANNEL
                    (Some Tsadc.TSADC_MAX_CHANNELS)
     = Ok (Tsadc.mkIoctl (- EINVAL) d None [])
  /\ exists d',
       Tsadc.my_ioctl Tsadc.rk3588_code_table d Tsadc.TSADC_SET_CHANNEL
                      (Some 7)
       = Ok (Tsadc.mkIoctl 0 d' None [])
       /\ Tsadc.current_channel d' = 7
       /\ Tsadc.int_threshold_temp d' = Tsadc.int_threshold_temp d
       /\ Tsadc.irq_fired d' = Tsadc.irq_fired d
       /\ Tsadc.regs d' = Tsadc.regs d.
Proof.
  cbv zeta. repeat apply conj.
  - apply (set_channel_checks_range Tsadc.rk3588_code_table
             (example_dev 0 0 2) (-1)). left. lia.
  - apply (set_channel_checks_range Tsadc.rk3588_code_table
             (example_dev 0 0 2) Tsadc.TSADC_MAX_CHANNELS). right. lia.
  - apply (set_channel_checks_range Tsadc.rk3588_code_table
             (example_dev 0 0 2) 7). vm_compute. split; congruence.
Defined.

(** ** The sampling readers *)

(** The three ways [code_to_temp] returns. *)
Lemma code_to_temp_cases (t : table) (c : Z) (r : conv) :
  Tsadc.code_to_temp t c = Ok r ->
  r = mkConv (- EAGAIN) None \/ r = mkConv (- EINVAL) None
  \/ exists v, r = mkConv 0 (Some v).
Proof.
  unfold Tsadc.code_to_temp.
  destruct (tbl t 0); cbn [bind]; [|discriminate].
  destruct (c >? _); [intros [= <-]; now left|].
  destruct (tbl t _); cbn [bind]; [|discriminate].
  destruct (c <? _); [intros [= <-]; right; now left|].
  destruct (search_loop _ _ _ _ _ _); cbn [bind]; [|discriminate].
  destruct (exit_mid _); cbn [bind]; [|discriminate].
  destruct (tbl t _); cbn [bind]; [|discriminate].
  destruct (tbl t _); cbn [bind]; [|discriminate].
  destruct (_ =? 0); [discriminate|].
  intros [= <-]. right; right. eexists. reflexivity.
Qed.

Lemma my_read_eof (t : table) (d : Tsadc.tsadc_dev) (off len : Z)
      (user_ok : bool) :
  0 < off \/ len < 12 ->
  Tsadc.my_read t d off len user_ok = Ok (Tsadc.mkRead 0 off None []).
Proof.
  intros H. unfold Tsadc.my_read. rewrite Z.gtb_ltb.
  destruct (Z.ltb_spec 0 off); [reflexivity|].
  destruct (Z.ltb_spec len 12); [reflexivity|lia].
Qed.

(** What [my_read] does once it samples, by the result of the
    conversion. *)
Lemma my_read_sampling (t : table) (d : Tsadc.tsadc_dev) (off len : Z)
      (user_ok : bool) :
  off <= 0 -> 12 <= len ->
  Tsadc.my_read t d off len user_ok
  = (r <- Tsadc.code_to_temp t (Tsadc.sampled_code d) ;;
     let tr := [Tsadc.EvReadl (Tsadc.TSADC_DATA (Tsadc.current_channel d))
                  (Tsadc.regs d (Tsadc.TSADC_DATA (Tsadc.current_channel d)))]
     in
     let copy (v : Z) :=
       let s := Tsadc.sprintf_d_nl v in
       if user_ok
       then Ok (Tsadc.mkRead (Tsadc.strlen s) (off + Tsadc.strlen s)
                             (Some s) tr)
       else Ok (Tsadc.mkRead (- EFAULT) off None tr) in
     if conv_ret r =? 0
     then match conv_temp r with
          | Some v => copy v
          | None => Fault UninitRead
          end
     else if conv_ret r =? - EAGAIN then copy (-40)
          else Ok (Tsadc.mkRead (conv_ret r) off None tr)).
Proof.
  intros Hoff Hlen. unfold Tsadc.my_read. rewrite Z.gtb_ltb.
  destruct (Z.ltb_spec 0 off); [lia|].
  destruct (Z.ltb_spec len 12); [lia|].
  cbn [orb]. fold (Tsadc.sampled_code d).
  destruct (Tsadc.code_to_temp t (Tsadc.sampled_code d)) as [r|f];
    cbn [bind]; [|reflexivity].
  destruct (conv_ret r =? 0); [destruct (conv_temp r); reflexivity|].
  destruct (conv_ret r =? - EAGAIN); reflexivity.
Qed.

Lemma strlen_append (a b : string) :
  Tsadc.strlen (a ++ b) = Tsadc.strlen a + Tsadc.strlen b.
Proof.
  unfold Tsadc.strlen. induction a as [|ch a IH]; [reflexivity|].
  cbn [String.append String.length]. lia.
Qed.

Lemma strlen_sprintf_pos (v : Z) : 0 < Tsadc.strlen (Tsadc.sprintf_d_nl v).
Proof.
  unfold Tsadc.sprintf_d_nl. rewrite strlen_append.
  change (Tsadc.strlen Tsadc.newline) with 1.
  unfold Tsadc.strlen. lia.
Qed.

(** C6.  When the conversion of the sampled code returns [-EAGAIN],
    [my_read] hands the caller the text of -40 degrees and returns its
    length, never [-EAGAIN], and [rk3588_tsadc_get_temp] returns 0 with
    -40000; when it
    returns [-EINVAL], [my_read] returns [-EINVAL] and copies nothing,
    and [rk3588_tsadc_get_temp] returns whatever else than [-EAGAIN] the
    conversion returned, unchanged. *)
Theorem not_ready_substituted (t : table) (d : Tsadc.tsadc_dev)
        (chip : Platform.rk3588_tsadc_chip) (len : Z) :
  12 <= len ->
  let tr := [Tsadc.EvReadl (Tsadc.TSADC_DATA (Tsadc.current_channel d))
               (Tsadc.regs d (Tsadc.TSADC_DATA (Tsadc.current_channel d)))] in
  (Tsadc.code_to_temp t (Tsadc.sampled_code d) = Ok (mkConv (- EAGAIN) None) ->
   Tsadc.my_read t d 0 len true
   = Ok (Tsadc.mkRead 4 4 (Some ("-40" ++ Tsadc.newline)%string) tr)
   /\ forall user_ok o,
        Tsadc.my_read t d 0 len user_ok = Ok o ->
        Tsadc.read_ret o <> - EAGAIN)
  /\ (Tsadc.code_to_temp t (Tsadc.sampled_code d)
      = Ok (mkConv (- EINVAL) None) ->
      forall user_ok,
        Tsadc.my_read t d 0 len user_ok
        = Ok (Tsadc.mkRead (- EINVAL) 0 None tr))
  /\ (Platform.rk3588_tsadc_code_to_temp Platform.rk3588_code_table
        (Platform.sampled_code chip) = Ok (mkConv (- EAGAIN) None) ->
      Platform.rk3588_tsadc_get_temp chip = Ok (mkConv 0 (Some (-40000))))
  /\ (forall r,
        Platform.rk3588_tsadc_code_to_temp Platform.rk3588_code_table
          (Platform.sampled_code chip) = Ok r ->
        conv_ret r <> - EAGAIN ->
        Platform.rk3588_tsadc_get_temp chip = Ok r).
Proof.
  intros Hlen tr. repeat apply conj.
  - intros E. split.
    + rewrite my_read_sampling, E by lia. reflexivity.
    + intros user_ok o. rewrite my_read_sampling, E by lia.
      destruct user_ok; intros [= <-]; discriminate.
  - intros E user_ok. rewrite my_read_sampling, E by lia. reflexivity.
  - intros E. unfold Platform.rk3588_tsadc_get_temp.
    fold (Platform.sampled_code chip). rewrite E. reflexivity.
  - intros r E Hr. unfold Platform.rk3588_tsadc_get_temp.
    fold (Platform.sampled_code chip). rewrite E. cbn [bind].
    destruct (Z.eqb_spec (conv_ret r) (- EAGAIN)); [contradiction|reflexivity].
Qed.

Lemma not_ready_substituted_witness :
  (Tsadc.my_read Tsadc.rk3588_code_table (example_dev 400 0 0) 0 16 true
   = Ok (Tsadc.mkRead 4 4 (Some ("-40" ++ Tsadc.newline)%string)
           [Tsadc.EvReadl 44 400]))
  /\ (forall user_ok,
        Tsadc.my_read Tsadc.rk3588_code_table (example_dev 100 0 0) 0 16
                      user_ok
        = Ok (Tsadc.mkRead (- EINVAL) 0 None [Tsadc.EvReadl 44 100]))
  /\ Platform.rk3588_tsadc_get_temp (example_chip 4000)
     = Ok (mkConv 0 (Some (-40000)))
  /\ Platform.rk3588_tsadc_get_temp (example_chip 3440)
     = Ok (mkConv 0 (Some (-30))).
Proof.
  pose proof (not_ready_substituted Tsadc.rk3588_code_table
                (example_dev 400 0 0) (example_chip 4000) 16 ltac:(lia))
    as (Hread & _ & Hget & _).
  pose proof (not_ready_substituted Tsadc.rk3588_code_table
                (example_dev 100 0 0) (example_chip 3440) 16 ltac:(lia))
    as (_ & Hinval & _ & Hother).
  repeat apply conj.
  - apply (proj1 (Hread eq_refl)).
  - apply Hinval. reflexivity.
  - apply Hget. reflexivity.
  - apply Hother; [reflexivity | vm_compute; discriminate].
Defined.

(** C8 (as amended).  A read with [*off > 0] or a buffer shorter than
    12 bytes returns 0, reads no register and leaves the offset as it
    was.  A read at offset 0 with at least 12 bytes samples the data
    register once; when the conversion returns [-EINVAL] the read
    returns [-EINVAL] and the offset stays 0; otherwise, the copy to the
    caller succeeding, it returns one sample, the decimal temperature
    followed by a newline, and advances the offset by its length, so
    that the next read at that offset returns 0. *)
Theorem my_read_one_shot (t : table) (d : Tsadc.tsadc_dev) (len : Z)
        (r : conv) :
  12 <= len ->
  Tsadc.code_to_temp t (Tsadc.sampled_code d) = Ok r ->
  let tr := [Tsadc.EvReadl (Tsadc.TSADC_DATA (Tsadc.current_channel d))
               (Tsadc.regs d (Tsadc.TSADC_DATA (Tsadc.current_channel d)))] in
  (forall off' len' ok',
      0 < off' \/ len' < 12 ->
      Tsadc.my_read t d off' len' ok' = Ok (Tsadc.mkRead 0 off' None []))
  /\ (conv_ret r = - EINVAL ->
      forall ok,
        Tsadc.my_read t d 0 len ok = Ok (Tsadc.mkRead (- EINVAL) 0 None tr))
  /\ (conv_ret r <> - EINVAL ->
      exists v,
        (conv_ret r = 0 -> conv_temp r = Some v)
        /\ (conv_ret r = - EAGAIN -> v = -40)
        /\ let s := (NilZero.string_of_int (Z.to_int v) ++ Tsadc.newline)%string
           in
           Tsadc.my_read t d 0 len true
           = Ok (Tsadc.mkRead (Tsadc.strlen s) (Tsadc.strlen s) (Some s) tr)
           /\ 0 < Tsadc.strlen s
           /\ forall len' ok',
                Tsadc.my_read t d (Tsadc.strlen s) len' ok'
                = Ok (Tsadc.mkRead 0 (Tsadc.strlen s) None [])).
Proof.
  intros Hlen E tr. repeat apply conj.
  - intros off' len' ok' H. now apply my_read_eof.
  - intros Hr ok. rewrite my_read_sampling, E by lia. cbn [bind].
    rewrite Hr. reflexivity.
  - intros Hr.
    assert (forall v,
               Tsadc.my_read t d 0 len true
               = Ok (Tsadc.mkRead (Tsadc.strlen (Tsadc.sprintf_d_nl v))
                       (0 + Tsadc.strlen (Tsadc.sprintf_d_nl v))
                       (Some (Tsadc.sprintf_d_nl v)) tr) ->
               let s := Tsadc.sprintf_d_nl v in
               Tsadc.my_read t d 0 len true
               = Ok (Tsadc.mkRead (Tsadc.strlen s) (Tsadc.strlen s)
                                  (Some s) tr)
               /\ 0 < Tsadc.strlen s
               /\ forall len' ok',
                    Tsadc.my_read t d (Tsadc.strlen s) len' ok'
                    = Ok (Tsadc.mkRead 0 (Tsadc.strlen s) None [])) as Hfin.
    { intros v Hv s. pose proof (strlen_sprintf_pos v) as Hpos.
      repeat apply conj; [exact Hv | exact Hpos |].
      intros len' ok'. apply my_read_eof. left. exact Hpos. }
    destruct (code_to_temp_cases _ _ _ E) as [-> | [-> | [v ->]]].
    + exists (-40). repeat split; try discriminate.
      apply (Hfin (-40)). rewrite my_read_sampling, E by lia. reflexivity.
    + contradiction.
    + exists v. split; [reflexivity|]. split; [discriminate|].
      apply (Hfin v). rewrite my_read_sampling, E by lia. reflexivity.
Qed.

Lemma my_read_one_shot_witness :
  let d := example_dev 300 0 0 in
  let s := ("38" ++ Tsadc.newline)%string in
  Tsadc.my_read Tsadc.rk3588_code_table d 0 16 true
  = Ok (Tsadc.mkRead 3 3 (Some s) [Tsadc.EvReadl 44 300])
  /\ Tsadc.my_read Tsadc.rk3588_code_table d 3 16 true
     = Ok (Tsadc.mkRead 0 3 None [])
  /\ Tsadc.my_read Tsadc.rk3588_code_table d 0 11 true
     = Ok (Tsadc.mkRead 0 0 None []).
Proof.
  cbv zeta.
  pose proof (my_read_one_shot Tsadc.rk3588_code_table (example_dev 300 0 0)
                16 (mkConv 0 (Some 38)) ltac:(lia) eq_refl)
    as (Heof & _ & Hsample).
  destruct (Hsample ltac:(vm_compute; discriminate))
    as (v & Hv & _ & Hread & _ & Hnext).
  specialize (Hv eq_refl). injection Hv as <-.
  repeat apply conj.
  - exact Hread.
  - exact (Hnext 16 true).
  - apply Heof. right. lia.
Defined.

(** C8, the counterexample.  With the data register reading 100, below
    the last code 215 of the shipped table, a read at offset 0 with a
    16-byte buffer returns [-EINVAL] and no sample. *)
Lemma my_read_out_of_range_counterexample :
  Tsadc.my_read Tsadc.rk3588_code_table (example_dev 100 0 0) 0 16 true
  = Ok (Tsadc.mkRead (- EINVAL) 0 None [Tsadc.EvReadl 44 100])
  /\ ~ (forall (d : Tsadc.tsadc_dev) (len : Z),
          12 <= len ->
          exists n s tr,
            Tsadc.my_read Tsadc.rk3588_code_table d 0 len true
            = Ok (Tsadc.mkRead n n (Some s) tr)).
Proof.
  split; [reflexivity|].
  intros H. destruct (H (example_dev 100 0 0) 16 ltac:(lia))
    as (n & s & tr & E).
  vm_compute in E. discriminate.
Qed.

(** ** The event reader *)

(** [my_poll] registers the caller on the wait queue, reports the device
    readable exactly when the event flag is set, clears the flag, and
    wakes nobody. *)
Lemma my_poll_observes_and_clears (d : Tsadc.tsadc_dev) :
  exists mask d',
    Tsadc.my_poll d = (mask, d', [Tsadc.EvPollWait])
    /\ mask = (if Tsadc.irq_fired d
               then Z.lor Tsadc.POLLIN Tsadc.POLLRDNORM else 0)
    /\ Tsadc.irq_fired d' = false
    /\ Tsadc.current_channel d' = Tsadc.current_channel d
    /\ Tsadc.int_threshold_temp d' = Tsadc.int_threshold_temp d.
Proof.
  unfold Tsadc.my_poll. destruct (Tsadc.irq_fired d) eqn:E;
    eexists; eexists; repeat apply conj; try reflexivity.
  exact E.
Qed.

(** ** The table of [TRY_AI_BUG] in tsadc.c

    With temperatures ascending against the codes the difference
    [num] is negative and wraps as a [u32]: the interpolated value is
    far outside the table. *)
Example code_to_temp_ai_table_wraps :
  Tsadc.code_to_temp Tsadc.rk3588_code_table_ai 3700
  = Ok (mkConv 0 (Some 25264479)).
Proof. reflexivity. Qed.

(** The interpolation asked for by the specification at code 320 on the
    shipped table. *)
Example code_to_temp_320 :
  Tsadc.code_to_temp Tsadc.rk3588_code_table 320 = Ok (mkConv 0 (Some 57)).
Proof. reflexivity. Qed.


(** Above the first code both conversions stop at once. *)
Lemma not_ready_above (e0 : tsadc_table) (rest : table) (c : Z) :
  code e0 < c ->
  Tsadc.code_to_temp (e0 :: rest) c = Ok (mkConv (- EAGAIN) None)
  /\ Platform.rk3588_tsadc_code_to_temp (e0 :: rest) c
     = Ok (mkConv (- EAGAIN) None).
Proof.
  intros H. unfold Tsadc.code_to_temp, Platform.rk3588_tsadc_code_to_temp.
  change (tbl (e0 :: rest) 0) with (Ok e0). cbn [bind].
  rewrite Z.gtb_ltb. now destruct (Z.ltb_spec (code e0) c); [|lia].
Qed.

(** * Further properties of the drivers *)

(** Closes a comparison between numerals. *)
Ltac by_computation :=
  vm_compute; repeat split; (reflexivity || discriminate).

(** ** The conversion engine *)

Lemma code_to_temp_below_last (t : table) (c : Z) :
  1 <= ARRAY_SIZE t < two32 ->
  c <= code_at t 0 -> c < code_at t (last_index t) ->
  Tsadc.code_to_temp t c = Ok (mkConv (- EINVAL) None).
Proof.
  intros Hn H0 Hl. unfold Tsadc.code_to_temp.
  rewrite two32_eq in Hn.
  rewrite (tbl_ok t 0) by lia. cbn [bind]. fold (code_at t 0).
  rewrite Z.gtb_ltb. destruct (Z.ltb_spec (code_at t 0) c); [lia|].
  rewrite (to_u32_small (ARRAY_SIZE t - 1)) by (rewrite two32_eq; lia).
  rewrite (tbl_ok t (ARRAY_SIZE t - 1)) by lia. cbn [bind].
  fold (code_at t (ARRAY_SIZE t - 1)). unfold last_index in Hl.
  now destruct (Z.ltb_spec c (code_at t (ARRAY_SIZE t - 1))); [|lia].
Qed.

Lemma platform_code_to_temp_below_last (t : table) (c : Z) :
  List.length t = List.length Platform.rk3588_code_table ->
  c <= code_at t 0 -> c < code_at t (last_index t) ->
  Platform.rk3588_tsadc_code_to_temp t c = Ok (mkConv (- EINVAL) None).
Proof.
  intros Hlen H0 Hl. unfold Platform.rk3588_tsadc_code_to_temp.
  assert (ARRAY_SIZE t = 16) as Hn by (unfold ARRAY_SIZE; now rewrite Hlen).
  rewrite (tbl_ok t 0) by lia. cbn [bind]. fold (code_at t 0).
  rewrite Z.gtb_ltb. destruct (Z.ltb_spec (code_at t 0) c); [lia|].
  change (to_u32 (ARRAY_SIZE Platform.rk3588_code_table - 1)) with 15.
  rewrite (tbl_ok t 15) by lia. cbn [bind].
  unfold last_index in Hl. rewrite Hn in Hl. change (16 - 1) with 15 in Hl.
  fold (code_at t 15).
  destruct (Z.ltb_spec c (code_at t 15)); [reflexivity|lia].
Qed.

(** X1.  On a table with descending codes the status of a conversion
    is decided by the code alone: [-EAGAIN] above the first code,
    [-EINVAL] below the last one, 0 in between; and a temperature is
    stored exactly when the status is 0.  Both drivers agree on this. *)
Theorem conversion_status (t : table) (c : Z) :
  desc (codes t) = true ->
  index_fits t = true ->
  int_fields t = true ->
  (exists r,
      Tsadc.code_to_temp t c = Ok r
      /\ conv_ret r = expected_status t c
      /\ (conv_temp r = None <-> conv_ret r <> 0))
  /\ (List.length t = List.length Platform.rk3588_code_table ->
      exists r,
        Platform.rk3588_tsadc_code_to_temp t c = Ok r
        /\ conv_ret r = expected_status t c
        /\ (conv_temp r = None <-> conv_ret r <> 0)).
Proof.
  intros Hcd Hsz Hints.
  destruct (size_bounds t Hsz) as [Hn2 Hn31].
  pose proof two31_eq as E31. pose proof two32_eq as E32.
  unfold expected_status.
  destruct (Z.ltb_spec (code_at t 0) c) as [Habove|Hle].
  - destruct t as [|e0 rest]; [cbn in Hn2; lia|].
    destruct (not_ready_above e0 rest c Habove) as [R1 R2].
    change (code_at (e0 :: rest) 0) with (code e0) in Habove.
    split; [|intros _]; eexists; (split; [eassumption|]);
      (split; [reflexivity|]); cbn; split; intros; try discriminate;
      reflexivity.
  - destruct (Z.ltb_spec c (code_at t (last_index t))) as [Hbelow|Hge].
    + split; [|intros Hlen]; eexists.
      * rewrite code_to_temp_below_last by (assumption || lia).
        split; [reflexivity|]. split; [reflexivity|].
        cbn; split; intros; try discriminate; reflexivity.
      * rewrite platform_code_to_temp_below_last by assumption.
        split; [reflexivity|]. split; [reflexivity|].
        cbn; split; intros; try discriminate; reflexivity.
    + split; [|intros Hlen].
      * destruct (code_to_temp_found t c Hcd Hsz Hints ltac:(lia))
          as (m & _ & _ & _ & R).
        eexists. split; [exact R|]. split; [reflexivity|].
        cbn; split; intros; [discriminate|congruence].
      * destruct (platform_code_to_temp_found t c Hcd Hsz Hints
                    ltac:(lia) Hlen) as (m & _ & _ & _ & R).
        eexists. split; [exact R|]. split; [reflexivity|].
        cbn; split; intros; [discriminate|congruence].
Qed.

Lemma conversion_status_witness :
  (exists r,
      Tsadc.code_to_temp Platform.rk3588_code_table (-600) = Ok r
      /\ conv_ret r = - EINVAL
      /\ (conv_temp r = None <-> conv_ret r <> 0))
  /\ (exists r,
        Platform.rk3588_tsadc_code_to_temp Platform.rk3588_code_table (-600)
        = Ok r
        /\ conv_ret r = - EINVAL
        /\ (conv_temp r = None <-> conv_ret r <> 0)).
Proof.
  destruct (conversion_status Platform.rk3588_code_table (-600)
              eq_refl eq_refl eq_refl) as [HT HP].
  split; [exact HT | exact (HP eq_refl)].
Defined.

Lemma interpolate_range (lo hi : tsadc_table) (c : Z) :
  code lo <= c <= code hi -> code lo < code hi -> temp lo <= temp hi ->
  temp lo <= interpolate lo hi c <= temp hi.
Proof.
  intros Hc Hlt Ht. unfold interpolate.
  rewrite Z.quot_div_nonneg by nia.
  assert (0 <= (c - code lo) * (temp hi - temp lo) / (code hi - code lo)
          <= temp hi - temp lo); [|lia].
  split; [apply Z.div_pos; nia|].
  apply Z.div_le_upper_bound; nia.
Qed.

Lemma interpolate_mono (lo hi : tsadc_table) (c1 c2 : Z) :
  code lo <= c1 -> c1 <= c2 -> c2 <= code hi ->
  code lo < code hi -> temp lo <= temp hi ->
  interpolate lo hi c1 <= interpolate lo hi c2.
Proof.
  intros H1 H12 H2 Hlt Ht. unfold interpolate.
  rewrite !Z.quot_div_nonneg by nia.
  apply Z.add_le_mono_l, Z.div_le_mono; nia.
Qed.

(** X2.  On a table whose codes and temperatures descend together,
    [code_to_temp] of tsadc.c is monotone: a larger code never converts
    to a lower temperature, across brackets as well as inside one, and
    every converted temperature lies between the last and the first
    temperature of the table. *)
Theorem code_to_temp_monotone (t : table) (c1 c2 : Z) :
  desc (codes t) = true ->
  desc (temps t) = true ->
  index_fits t = true ->
  int_fields t = true ->
  product_fits t = true ->
  code_at t (last_index t) <= c1 -> c1 <= c2 -> c2 <= code_at t 0 ->
  exists v1 v2,
    Tsadc.code_to_temp t c1 = Ok (mkConv 0 (Some v1))
    /\ Tsadc.code_to_temp t c2 = Ok (mkConv 0 (Some v2))
    /\ temp_at t (last_index t) <= v1
    /\ v1 <= v2
    /\ v2 <= temp_at t 0.
Proof.
  intros Hcd Htd Hsz Hints Hprod Hl H12 Hu.
  destruct (size_bounds t Hsz) as [Hn2 Hn31].
  destruct (code_to_temp_bracket_formula t c1 Hcd Htd Hsz Hints Hprod
              ltac:(lia)) as (m1 & E1 & Hm1 & Hb1 & R1 & _).
  destruct (code_to_temp_bracket_formula t c2 Hcd Htd Hsz Hints Hprod
              ltac:(lia)) as (m2 & E2 & Hm2 & Hb2 & R2 & _).
  unfold last_index in *.
  exists (interpolate (entry_at t m1) (entry_at t (m1 - 1)) c1),
         (interpolate (entry_at t m2) (entry_at t (m2 - 1)) c2).
  split; [exact R1|]. split; [exact R2|].
  pose proof (code_at_lt t (m1 - 1) m1 Hcd ltac:(lia) ltac:(lia)) as Hc1.
  pose proof (code_at_lt t (m2 - 1) m2 Hcd ltac:(lia) ltac:(lia)) as Hc2.
  pose proof (temp_at_le t (m1 - 1) m1 Htd ltac:(lia) ltac:(lia)) as Ht1.
  pose proof (temp_at_le t (m2 - 1) m2 Htd ltac:(lia) ltac:(lia)) as Ht2.
  pose proof (interpolate_range (entry_at t m1) (entry_at t (m1 - 1)) c1
                Hb1 Hc1 Ht1) as Hr1.
  pose proof (interpolate_range (entry_at t m2) (entry_at t (m2 - 1)) c2
                Hb2 Hc2 Ht2) as Hr2.
  fold (temp_at t m1) (temp_at t (m1 - 1)) in Hr1.
  fold (temp_at t m2) (temp_at t (m2 - 1)) in Hr2.
  pose proof (temp_at_le t m1 (ARRAY_SIZE t - 1) Htd ltac:(lia) ltac:(lia)).
  pose proof (temp_at_le t 0 (m2 - 1) Htd ltac:(lia) ltac:(lia)).
  repeat apply conj; try lia.
  assert (m2 <= m1) as Hm.
  { destruct (Z_lt_le_dec m1 m2) as [Hlt|]; [|lia].
    pose proof (code_at_le t m1 (m2 - 1) Hcd ltac:(lia) ltac:(lia)).
    destruct (Z.eq_dec c1 c2) as [->|Hne]; [|lia].
    rewrite E1 in E2. injection E2 as E. lia. }
  destruct (Z.eq_dec m1 m2) as [->|Hne].
  - apply interpolate_mono; try assumption; unfold code_at in *; lia.
  - pose proof (temp_at_le t m2 (m1 - 1) Htd ltac:(lia) ltac:(lia)). lia.
Qed.

Lemma code_to_temp_monotone_witness :
  exists v1 v2,
    Tsadc.code_to_temp Tsadc.rk3588_code_table 284 = Ok (mkConv 0 (Some v1))
    /\ Tsadc.code_to_temp Tsadc.rk3588_code_table 351
       = Ok (mkConv 0 (Some v2))
    /\ -40 <= v1 /\ v1 <= v2 /\ v2 <= 125.
Proof.
  apply (code_to_temp_monotone Tsadc.rk3588_code_table 284 351);
    try reflexivity; vm_compute; discriminate.
Defined.

(** X3.  On such a table every code of the table converts to exactly
    the temperature of its entry, the first and the last entry
    included. *)
Theorem table_codes_convert_exactly (t : table) (k : Z) :
  desc (codes t) = true ->
  desc (temps t) = true ->
  index_fits t = true ->
  int_fields t = true ->
  product_fits t = true ->
  0 <= k <= last_index t ->
  Tsadc.code_to_temp t (code_at t k) = Ok (mkConv 0 (Some (temp_at t k))).
Proof.
  exact (code_to_temp_exact_entry t k).
Qed.

Lemma table_codes_convert_exactly_witness :
  Tsadc.code_to_temp Tsadc.rk3588_code_table 215 = Ok (mkConv 0 (Some (-40))).
Proof.
  apply (table_codes_convert_exactly Tsadc.rk3588_code_table 3);
    try reflexivity.
  vm_compute. split; discriminate.
Defined.

(** ** The inverse lookup *)

Lemma temp_to_code_loop_in_table (t : table) (tc : Z) (fuel : nat) :
  1 <= ARRAY_SIZE t < 2 ^ 63 ->
  forall j,
    0 <= j <= last_index t -> last_index t - j < Z.of_nat fuel ->
    exists i,
      0 <= i <= last_index t
      /\ Tsadc.temp_to_code_loop t tc fuel j = Ok (code_at t i).
Proof.
  intros Hn. unfold last_index.
  induction fuel as [|fuel IH]; intros j Hj Hfuel; [lia|].
  cbn [Tsadc.temp_to_code_loop]. rewrite (loop_bound t Hn). unfold last_index.
  destruct (Z.ltb_spec j (ARRAY_SIZE t - 1)) as [Hlt|Hge].
  - rewrite (tbl_ok t j) by lia. cbn [bind]. fold (code_at t j).
    destruct (tc <=? temp (entry_at t j)).
    + rewrite (tbl_ok t (j + 1)) by lia. cbn [bind].
      destruct (tc >? temp (entry_at t (j + 1))).
      * exists j. split; [lia|reflexivity].
      * apply IH; lia.
    + cbn [bind]. apply IH; lia.
  - rewrite (tbl_ok t 0) by lia. exists 0. split; [lia|reflexivity].
Qed.

(** X4.  [temp_to_code] never interpolates and never fails on a table
    that is not empty: whatever the table holds and whatever the
    temperature, the code returned is the code of an entry of the
    table. *)
Theorem temp_to_code_returns_table_code (t : table) (tc : Z) :
  1 <= ARRAY_SIZE t < 2 ^ 63 ->
  exists i,
    0 <= i <= last_index t
    /\ Tsadc.temp_to_code t tc = Ok (code_at t i)
    /\ In (code_at t i) (codes t).
Proof.
  intros Hn. unfold Tsadc.temp_to_code.
  destruct (temp_to_code_loop_in_table t tc (S (List.length t)) Hn 0)
    as (i & Hi & R).
  - unfold last_index. lia.
  - unfold last_index, ARRAY_SIZE. lia.
  - exists i. repeat apply conj; try assumption || lia.
    rewrite code_at_nth. apply nth_In. unfold codes. rewrite length_map.
    unfold last_index, ARRAY_SIZE in *. lia.
Qed.

Lemma temp_to_code_returns_table_code_witness :
  exists i,
    0 <= i <= 3
    /\ Tsadc.temp_to_code Tsadc.rk3588_code_table 60
       = Ok (code_at Tsadc.rk3588_code_table i)
    /\ In (code_at Tsadc.rk3588_code_table i)
          (codes Tsadc.rk3588_code_table).
Proof.
  apply (temp_to_code_returns_table_code Tsadc.rk3588_code_table 60).
  vm_compute. split; [discriminate | reflexivity].
Defined.

Lemma temp_to_code_loop_finds (t : table) (tc : Z) (fuel : nat) :
  desc (temps t) = true ->
  1 <= ARRAY_SIZE t < 2 ^ 63 ->
  temp_at t (last_index t) < tc ->
  forall j,
    0 <= j < last_index t -> last_index t - j < Z.of_nat fuel ->
    tc <= temp_at t j ->
    exists i,
      j <= i < last_index t
      /\ temp_at t (i + 1) < tc <= temp_at t i
      /\ Tsadc.temp_to_code_loop t tc fuel j = Ok (code_at t i).
Proof.
  intros Hd Hn Hlow. unfold last_index in *.
  induction fuel as [|fuel IH]; intros j Hj Hfuel Hup; [lia|].
  destruct (Z_lt_le_dec (temp_at t (j + 1)) tc) as [Hhit|Hmiss].
  - exists j. repeat apply conj; try lia.
    apply (temp_to_code_loop_bracket t tc Hd Hn (S fuel) j);
      unfold last_index; lia.
  - assert (j + 1 < ARRAY_SIZE t - 1) as Hnext.
    { destruct (Z.eq_dec (j + 1) (ARRAY_SIZE t - 1)) as [E|]; [|lia].
      rewrite E in Hmiss. lia. }
    destruct (IH (j + 1) ltac:(lia) ltac:(lia) Hmiss) as (i & Hi & Hbr & _).
    exists i. repeat apply conj; try lia.
    apply (temp_to_code_loop_bracket t tc Hd Hn (S fuel) i);
      unfold last_index; lia.
Qed.

(** X5.  On a table with descending temperatures, as the shipped one,
    a temperature above the last and up to the first temperature of the
    table lies in exactly one bracket
    [table[i+1].temp < temp <= table[i].temp] and [temp_to_code] returns
    [table[i].code], the code of the bracket's upper temperature; every
    other temperature, at or below the last temperature or above the
    first, gives [table[0].code]. *)
Theorem temp_to_code_descending (t : table) (tc : Z) :
  desc (temps t) = true ->
  1 <= ARRAY_SIZE t < 2 ^ 63 ->
  (temp_at t (last_index t) < tc <= temp_at t 0 ->
   exists i,
     0 <= i < last_index t
     /\ temp_at t (i + 1) < tc <= temp_at t i
     /\ Tsadc.temp_to_code t tc = Ok (code_at t i))
  /\ (tc <= temp_at t (last_index t) \/ temp_at t 0 < tc ->
      Tsadc.temp_to_code t tc = Ok (code_at t 0)).
Proof.
  intros Hd Hn. split.
  - intros [Hlow Hup].
    assert (0 < last_index t) as Hlast.
    { unfold last_index.
      destruct (Z.eq_dec (ARRAY_SIZE t) 1) as [E|]; [|lia].
      unfold last_index in Hlow. rewrite E in Hlow.
      change (1 - 1) with 0 in Hlow. lia. }
    unfold Tsadc.temp_to_code.
    destruct (temp_to_code_loop_finds t tc (S (List.length t)) Hd Hn Hlow 0)
      as (i & Hi & Hbr & R); try assumption || lia.
    + unfold last_index, ARRAY_SIZE. lia.
    + exists i. repeat apply conj; assumption || lia.
  - intros H. now apply temp_to_code_default.
Qed.

Lemma temp_to_code_descending_witness :
  (exists i,
      0 <= i < 3
      /\ temp_at Tsadc.rk3588_code_table (i + 1) < 60
         <= temp_at Tsadc.rk3588_code_table i
      /\ Tsadc.temp_to_code Tsadc.rk3588_code_table 60
         = Ok (code_at Tsadc.rk3588_code_table i))
  /\ Tsadc.temp_to_code Tsadc.rk3588_code_table (-40) = Ok 395
  /\ Tsadc.temp_to_code Tsadc.rk3588_code_table 126 = Ok 395.
Proof.
  pose proof (temp_to_code_descending Tsadc.rk3588_code_table 60 eq_refl
                ltac:(vm_compute; split; [discriminate | reflexivity]))
    as [Hin _].
  pose proof (temp_to_code_descending Tsadc.rk3588_code_table (-40) eq_refl
                ltac:(vm_compute; split; [discriminate | reflexivity]))
    as [_ Hlow].
  pose proof (temp_to_code_descending Tsadc.rk3588_code_table 126 eq_refl
                ltac:(vm_compute; split; [discriminate | reflexivity]))
    as [_ Hhigh].
  repeat apply conj.
  - apply Hin. by_computation.
  - apply Hlow. left. by_computation.
  - apply Hhigh. right. by_computation.
Defined.

(** X6.  On a table with ascending temperatures, as the one compiled in
    under [TRY_AI_BUG], the bracket test can never succeed: [temp_to_code]
    returns [table[0].code] for every temperature, so every threshold
    arms the same comparator code. *)
Theorem temp_to_code_ascending_constant (t : table) (tc : Z) :
  asc (temps t) = true ->
  1 <= ARRAY_SIZE t < 2 ^ 63 ->
  Tsadc.temp_to_code t tc = Ok (code_at t 0).
Proof.
  intros Ha Hn. unfold Tsadc.temp_to_code.
  apply temp_to_code_ascending_loop; try assumption;
    unfold last_index, ARRAY_SIZE in *; lia.
Qed.

Lemma temp_to_code_ascending_constant_witness :
  Tsadc.temp_to_code Tsadc.rk3588_code_table_ai 55 = Ok 3800.
Proof.
  apply (temp_to_code_ascending_constant Tsadc.rk3588_code_table_ai 55).
  - reflexivity.
  - vm_compute. split; [discriminate | reflexivity].
Defined.

(** X7.  Arming and reading back: on a table whose codes and
    temperatures descend together, the code [temp_to_code] returns for a
    temperature inside the table converts back, by [code_to_temp], to
    the upper temperature of the bracket: the threshold that is armed is
    the requested one rounded up to a temperature of the table, and a
    temperature of the table (the last one apart) is armed exactly. *)
Theorem threshold_round_trip (t : table) (tc : Z) :
  desc (codes t) = true ->
  desc (temps t) = true ->
  index_fits t = true ->
  int_fields t = true ->
  product_fits t = true ->
  temp_at t (last_index t) < tc <= temp_at t 0 ->
  exists c v,
    Tsadc.temp_to_code t tc = Ok c
    /\ Tsadc.code_to_temp t c = Ok (mkConv 0 (Some v))
    /\ tc <= v
    /\ In v (temps t)
    /\ (In tc (temps t) -> v = tc)
    /\ forall i, 0 <= i <= last_index t -> tc <= temp_at t i -> v <= temp_at t i.
Proof.
  intros Hcd Htd Hsz Hints Hprod Hin.
  destruct (size_bounds t Hsz) as [Hn2 Hn31]. rewrite two31_eq in Hn31.
  assert (1 <= ARRAY_SIZE t < 2 ^ 63) as Hn by lia.
  destruct (temp_to_code_descending t tc Htd Hn) as [Hfind _].
  destruct (Hfind Hin) as (i & Hi & Hbr & R).
  exists (code_at t i), (temp_at t i).
  assert (forall k, 0 <= k <= last_index t -> tc <= temp_at t k -> k <= i)
    as Hupper.
  { intros k Hk Hle. destruct (Z_lt_le_dec i k) as [Hlt|]; [|lia].
    unfold last_index in *.
    pose proof (temp_at_le t (i + 1) k Htd ltac:(lia) ltac:(lia)). lia. }
  repeat apply conj.
  - exact R.
  - apply code_to_temp_exact_entry; try assumption. lia.
  - lia.
  - rewrite temp_at_nth. apply nth_In. unfold temps. rewrite length_map.
    unfold last_index, ARRAY_SIZE in *. lia.
  - intros Hmem. apply (In_nth _ _ 0) in Hmem as (k & Hk & E).
    unfold temps in Hk. rewrite length_map in Hk.
    assert (temp_at t (Z.of_nat k) = tc) as Ek
        by (rewrite temp_at_nth, Nat2Z.id; exact E).
    pose proof (Hupper (Z.of_nat k)
                  ltac:(unfold last_index, ARRAY_SIZE; lia) ltac:(lia)).
    destruct (Z.eq_dec (Z.of_nat k) i) as [<-|Hne]; [lia|].
    unfold last_index in *.
    pose proof (temp_at_le t (Z.of_nat k + 1) i Htd ltac:(lia) ltac:(lia)).
    pose proof (temp_at_lt t (Z.of_nat k) (Z.of_nat k + 1) Htd
                  ltac:(lia) ltac:(lia)).
    lia.
  - intros k Hk Hle. specialize (Hupper k Hk Hle). unfold last_index in *.
    apply temp_at_le; try assumption; lia.
Qed.

Lemma threshold_round_trip_witness :
  exists c v,
    Tsadc.temp_to_code Tsadc.rk3588_code_table 60 = Ok c
    /\ Tsadc.code_to_temp Tsadc.rk3588_code_table c = Ok (mkConv 0 (Some v))
    /\ 60 <= v
    /\ In v (temps Tsadc.rk3588_code_table)
    /\ (In 60 (temps Tsadc.rk3588_code_table) -> v = 60)
    /\ forall i, 0 <= i <= last_index Tsadc.rk3588_code_table ->
                 60 <= temp_at Tsadc.rk3588_code_table i ->
                 v <= temp_at Tsadc.rk3588_code_table i.
Proof.
  apply (threshold_round_trip Tsadc.rk3588_code_table 60); try reflexivity.
  by_computation.
Defined.

(** ** The character device *)

Lemma channel_cases (ch : Z) :
  0 <= ch < Tsadc.TSADC_MAX_CHANNELS ->
  ch = 0 \/ ch = 1 \/ ch = 2 \/ ch = 3 \/ ch = 4 \/ ch = 5 \/ ch = 6 \/ ch = 7.
Proof. unfold Tsadc.TSADC_MAX_CHANNELS. lia. Qed.

Ltac each_channel H :=
  apply channel_cases in H;
  repeat (destruct H as [H|H]); subst.

Lemma my_ioctl_cases (t : table) (d : Tsadc.tsadc_dev) (cmd : Z)
      (uarg : option Z) (o : Tsadc.ioctl_out) :
  Tsadc.my_ioctl t d cmd uarg = Ok o ->
  (Tsadc.ioctl_dev o = d /\ Tsadc.ioctl_trace o = []
   /\ Tsadc.ioctl_ret o <> 0
   /\ (Tsadc.ioctl_ret o = - EFAULT \/ Tsadc.ioctl_ret o = - EINVAL
       \/ Tsadc.ioctl_ret o = - ENOTTY))
  \/ (cmd = Tsadc.TSADC_SET_CHANNEL
      /\ exists ch, uarg = Some ch /\ 0 <= ch < Tsadc.TSADC_MAX_CHANNELS
                    /\ o = Tsadc.mkIoctl 0 (Tsadc.set_current_channel d ch)
                                         None [])
  \/ (cmd = Tsadc.TSADC_GET_CHANNEL
      /\ uarg <> None
      /\ o = Tsadc.mkIoctl 0 d (Some (Tsadc.current_channel d)) [])
  \/ (cmd = Tsadc.TSADC_SET_INT_THRESHOLD
      /\ exists tc c,
           uarg = Some tc /\ Tsadc.temp_to_code t tc = Ok c
           /\ o = Tsadc.mkIoctl 0 (Tsadc.set_int_threshold_temp d tc) None
                    [ Tsadc.EvWritel (to_u32 c)
                        (Tsadc.TSADC_COMP_INT (Tsadc.current_channel d));
                      Tsadc.EvWritel
                        (to_u32 (Tsadc.TSADC_INT_SRC_EN
                                   (Tsadc.current_channel d)))
                        Tsadc.TSADC_INT_EN ]).
Proof.
  unfold Tsadc.my_ioctl.
  destruct (Z.eqb_spec cmd Tsadc.TSADC_SET_CHANNEL) as [->|_].
  { destruct uarg as [ch|].
    - rewrite Z.geb_leb.
      destruct (Z.ltb_spec ch 0);
        [|destruct (Z.leb_spec Tsadc.TSADC_MAX_CHANNELS ch)];
        cbn [orb]; intros [= <-].
      + left. cbn. repeat split; try discriminate. right; now left.
      + left. cbn. repeat split; try discriminate. right; now left.
      + right; left. split; [reflexivity|]. exists ch. repeat split; lia.
    - intros [= <-]. left. cbn. repeat split; try discriminate. now left. }
  destruct (Z.eqb_spec cmd Tsadc.TSADC_GET_CHANNEL) as [->|_].
  { destruct uarg as [x|]; intros [= <-].
    - right; right; left. repeat split. discriminate.
    - left. cbn. repeat split; try discriminate. now left. }
  destruct (Z.eqb_spec cmd Tsadc.TSADC_SET_INT_THRESHOLD) as [->|_].
  { destruct uarg as [tc|].
    - destruct (Tsadc.temp_to_code t tc) as [c|f] eqn:E; cbn [bind];
        intros [= <-].
      right; right; right. split; [reflexivity|].
      exists tc, c. repeat split. exact E.
    - intros [= <-]. left. cbn. repeat split; try discriminate. now left. }
  intros [= <-]. left. cbn. repeat split; try discriminate. right; now right.
Qed.

(** X8.  The channel selector stays a channel: it is 0 after a
    successful [tsadc_char_init], and no [ioctl], whatever its command
    and argument, no [poll] and no interrupt makes it leave
    [0, TSADC_MAX_CHANNELS).  An [ioctl] that fails changes nothing at
    all and touches no register, and no [ioctl] touches the event
    flag. *)
Theorem channel_selector_invariant :
  (forall try_ai_bug hw env d tr,
      Tsadc.tsadc_char_init try_ai_bug hw env = (0, Some d, tr) ->
      channel_ok d)
  /\ (forall t d cmd uarg o,
         channel_ok d ->
         Tsadc.my_ioctl t d cmd uarg = Ok o ->
         channel_ok (Tsadc.ioctl_dev o)
         /\ Tsadc.irq_fired (Tsadc.ioctl_dev o) = Tsadc.irq_fired d
         /\ (Tsadc.ioctl_ret o <> 0 ->
             Tsadc.ioctl_dev o = d /\ Tsadc.ioctl_trace o = []))
  /\ (forall d, channel_ok d ->
                channel_ok (snd (fst (Tsadc.my_poll d)))
                /\ channel_ok (snd (fst (Tsadc.tsadc_isr d)))).
Proof.
  repeat apply conj.
  - intros try_ai_bug hw env d tr. unfold Tsadc.tsadc_char_init.
    destruct (Tsadc.kzalloc_ok env); cbn [negb]; [|discriminate].
    destruct (_ <? 0); [discriminate|].
    destruct (Tsadc.class_create_err env); [discriminate|].
    destruct (Tsadc.device_create_err env); [discriminate|].
    destruct (_ <? 0); [discriminate|].
    destruct (Tsadc.ioremap_ok env); cbn [negb]; [|discriminate].
    destruct try_ai_bug.
    + unfold Tsadc.init_clocks.
      destruct (Tsadc.clk_get_err env); [discriminate|].
      destruct (Tsadc.reset_control_get_err env); [discriminate|].
      destruct (negb _); [discriminate|].
      destruct (negb _); [discriminate|].
      intros [= <- _]. cbv. split; congruence.
    + intros [= <- _]. cbv. split; congruence.
  - intros t d cmd uarg o Hd E.
    destruct (my_ioctl_cases _ _ _ _ _ E)
      as [(Ed & Etr & _) | [(_ & ch & _ & Hch & ->)
                           | [(_ & _ & ->) | (_ & tc & c & _ & _ & ->)]]].
    + rewrite Ed. repeat split; auto; apply Hd.
    + unfold channel_ok in *. cbn. repeat split; try lia;
        try (intros H; now contradiction H).
    + unfold channel_ok in *. cbn. repeat split; try lia;
        try (intros H; now contradiction H).
    + unfold channel_ok in *. cbn. repeat split; try lia;
        try (intros H; now contradiction H).
  - intros d Hd. unfold Tsadc.my_poll, Tsadc.tsadc_isr.
    destruct (Tsadc.irq_fired d); destruct (negb _); split; exact Hd.
Qed.

Lemma channel_selector_invariant_witness :
  channel_ok (example_dev 0 0 2)
  /\ channel_ok (snd (fst (Tsadc.tsadc_isr (example_dev 0 4 2)))).
Proof.
  assert (channel_ok (example_dev 0 4 2)) as H by by_computation.
  split; [by_computation|].
  apply (proj2 (proj2 (proj2 channel_selector_invariant) _ H)).
Defined.

Lemma my_read_trace_cases (t : table) (d : Tsadc.tsadc_dev) (off len : Z)
      (user_ok : bool) (o : Tsadc.read_out) :
  Tsadc.my_read t d off len user_ok = Ok o ->
  Tsadc.read_trace o = []
  \/ Tsadc.read_trace o
     = [Tsadc.EvReadl (Tsadc.TSADC_DATA (Tsadc.current_channel d))
          (Tsadc.regs d (Tsadc.TSADC_DATA (Tsadc.current_channel d)))].
Proof.
  unfold Tsadc.my_read.
  destruct ((off >? 0) || (len <? 12)); [intros [= <-]; now left|].
  destruct (Tsadc.code_to_temp _ _) as [r|f]; cbn [bind]; [|discriminate].
  destruct (conv_ret r =? 0).
  - destruct (conv_temp r); cbn [bind]; [|discriminate].
    destruct user_ok; intros [= <-]; now right.
  - destruct (conv_ret r =? - EAGAIN); cbn [bind].
    + destruct user_ok; intros [= <-]; now right.
    + intros [= <-]; now right.
Qed.

Lemma init_trace_in_window (try_ai_bug : bool) (hw : Z -> Z)
      (env : Tsadc.init_env) :
  mmio_in_window (snd (Tsadc.tsadc_char_init try_ai_bug hw env)) = true.
Proof.
  unfold Tsadc.tsadc_char_init.
  destruct (Tsadc.kzalloc_ok env); cbn [negb]; [|reflexivity].
  destruct (_ <? 0); [reflexivity|].
  destruct (Tsadc.class_create_err env); [reflexivity|].
  destruct (Tsadc.device_create_err env); [reflexivity|].
  destruct (_ <? 0); [reflexivity|].
  destruct (Tsadc.ioremap_ok env); cbn [negb]; [|reflexivity].
  destruct try_ai_bug; [|reflexivity].
  unfold Tsadc.init_clocks.
  destruct (Tsadc.clk_get_err env); [reflexivity|].
  destruct (Tsadc.reset_control_get_err env); [reflexivity|].
  destruct (negb _); [reflexivity|].
  destruct (negb _); reflexivity.
Qed.

(** X9.  With the channel selector a channel, every register the
    character driver reads or writes, in [read], in any [ioctl], in the
    interrupt handler, in [poll] and in the teardown, is a 32-bit
    aligned register inside the [TSADC_PHYS_SIZE] bytes that [ioremap]
    mapped; so does [tsadc_char_init], whatever the services answer. *)
Theorem register_accesses_in_window (d : Tsadc.tsadc_dev) :
  channel_ok d ->
  (forall t off len ok o,
      Tsadc.my_read t d off len ok = Ok o ->
      mmio_in_window (Tsadc.read_trace o) = true)
  /\ (forall t cmd uarg o,
         Tsadc.my_ioctl t d cmd uarg = Ok o ->
         mmio_in_window (Tsadc.ioctl_trace o) = true)
  /\ mmio_in_window (snd (Tsadc.tsadc_isr d)) = true
  /\ mmio_in_window (snd (Tsadc.my_poll d)) = true
  /\ mmio_in_window (Tsadc.tsadc_char_exit d) = true
  /\ forall try_ai_bug hw env,
       mmio_in_window (snd (Tsadc.tsadc_char_init try_ai_bug hw env)) = true.
Proof.
  intros Hd. unfold channel_ok in Hd. repeat apply conj.
  - intros t off len ok o E.
    destruct (my_read_trace_cases _ _ _ _ _ _ E) as [-> | ->];
      [reflexivity|].
    destruct d as [r ch thr f]. cbn in Hd |- *.
    each_channel Hd; reflexivity.
  - intros t cmd uarg o E.
    destruct (my_ioctl_cases _ _ _ _ _ E)
      as [(_ & -> & _) | [(_ & ch & _ & _ & ->)
                         | [(_ & _ & ->) | (_ & tc & c & _ & _ & ->)]]];
      try reflexivity.
    destruct d as [r ch thr f]. cbn in Hd |- *.
    each_channel Hd; reflexivity.
  - unfold Tsadc.tsadc_isr. destruct (negb _); reflexivity.
  - unfold Tsadc.my_poll. destruct (Tsadc.irq_fired d); reflexivity.
  - reflexivity.
  - apply init_trace_in_window.
Qed.

Lemma register_accesses_in_window_witness :
  mmio_in_window (snd (Tsadc.tsadc_isr (example_dev 0 4 7))) = true
  /\ forall o,
       Tsadc.my_read Tsadc.rk3588_code_table (example_dev 300 0 7) 0 16 true
       = Ok o ->
       mmio_in_window (Tsadc.read_trace o) = true.
Proof.
  pose proof (register_accesses_in_window (example_dev 0 4 7)
                ltac:(by_computation)) as (_ & _ & Hisr & _).
  pose proof (register_accesses_in_window (example_dev 300 0 7)
                ltac:(by_computation)) as (Hread & _).
  split; [exact Hisr|].
  intros o. apply Hread.
Defined.

(** X10.  [TSADC_GET_CHANNEL] hands back the channel of the last
    [TSADC_SET_CHANNEL] that succeeded: after a set with a channel id in
    range it reads that id, after a rejected set it still reads the
    channel selected before; reading does not change the device. *)
Theorem get_channel_after_set (t : table) (d : Tsadc.tsadc_dev) (id x : Z) :
  exists o o',
    Tsadc.my_ioctl t d Tsadc.TSADC_SET_CHANNEL (Some id) = Ok o
    /\ Tsadc.my_ioctl t (Tsadc.ioctl_dev o) Tsadc.TSADC_GET_CHANNEL (Some x)
       = Ok o'
    /\ Tsadc.ioctl_ret o' = 0
    /\ Tsadc.ioctl_dev o' = Tsadc.ioctl_dev o
    /\ Tsadc.ioctl_trace o' = []
    /\ Tsadc.ioctl_user o'
       = Some (if (0 <=? id) && (id <? Tsadc.TSADC_MAX_CHANNELS)
               then id else Tsadc.current_channel d)
    /\ (Tsadc.ioctl_ret o = 0
        <-> 0 <= id < Tsadc.TSADC_MAX_CHANNELS).
Proof.
  unfold Tsadc.my_ioctl at 1. rewrite Z.eqb_refl, Z.geb_leb.
  destruct (Z.ltb_spec id 0) as [Hneg|Hpos]; cbn [orb].
  - eexists. eexists. split; [reflexivity|]. cbn.
    destruct (Z.leb_spec 0 id); [lia|]. cbn.
    repeat split; try reflexivity; try discriminate; lia.
  - destruct (Z.leb_spec Tsadc.TSADC_MAX_CHANNELS id) as [Hbig|Hin].
    + eexists. eexists. split; [reflexivity|]. cbn.
      destruct (Z.leb_spec 0 id); [|lia].
      destruct (Z.ltb_spec id Tsadc.TSADC_MAX_CHANNELS); [lia|]. cbn.
      repeat split; try reflexivity; try discriminate; lia.
    + eexists. eexists. split; [reflexivity|]. cbn.
      destruct (Z.leb_spec 0 id); [|lia].
      destruct (Z.ltb_spec id Tsadc.TSADC_MAX_CHANNELS); [|lia]. cbn.
      repeat split; try reflexivity; lia.
Qed.

Lemma run_threshold_on (t : table) (d : Tsadc.tsadc_dev) (ch tc c : Z)
      (rest : list (Z * Z)) :
  0 <= ch < Tsadc.TSADC_MAX_CHANNELS ->
  Tsadc.temp_to_code t tc = Ok c ->
  Tsadc.run_ioctls t d
    ((Tsadc.TSADC_SET_CHANNEL, ch) :: (Tsadc.TSADC_SET_INT_THRESHOLD, tc)
       :: rest)
  = (r <- Tsadc.run_ioctls t
            (Tsadc.set_int_threshold_temp (Tsadc.set_current_channel d ch) tc)
            rest ;;
     let '(ret, d', tr) := r in
     Ok (ret, d',
         [ Tsadc.EvWritel (to_u32 c) (Tsadc.TSADC_COMP_INT ch);
           Tsadc.EvWritel (to_u32 (Tsadc.TSADC_INT_SRC_EN ch))
                          Tsadc.TSADC_INT_EN ] ++ tr)).
Proof.
  intros Hch Hc. cbn [Tsadc.run_ioctls]. unfold Tsadc.my_ioctl at 1.
  rewrite Z.eqb_refl, Z.geb_leb.
  destruct (Z.ltb_spec ch 0); [lia|].
  destruct (Z.leb_spec Tsadc.TSADC_MAX_CHANNELS ch); [lia|].
  cbn [orb bind Tsadc.ioctl_ret Tsadc.ioctl_dev Tsadc.ioctl_trace Z.eqb].
  unfold Tsadc.my_ioctl at 1.
  change (Tsadc.TSADC_SET_INT_THRESHOLD =? Tsadc.TSADC_SET_CHANNEL)
    with false.
  change (Tsadc.TSADC_SET_INT_THRESHOLD =? Tsadc.TSADC_GET_CHANNEL)
    with false.
  rewrite Z.eqb_refl, Hc.
  cbn [bind Tsadc.ioctl_ret Tsadc.ioctl_dev Tsadc.ioctl_trace Z.eqb app
       Tsadc.current_channel Tsadc.set_int_threshold_temp
       Tsadc.set_current_channel].
  destruct (Tsadc.run_ioctls t _ rest) as [[[ret d'] tr]|f]; reflexivity.
Qed.

(** X11.  Arming is bound to the channel selected at the time and the
    interrupt-enable register is overwritten, not updated: after a
    threshold is armed on channel [a] and then another on channel [b],
    the comparator of [a] still holds its code, but the value last
    written to the interrupt-enable register has the bit of [b] only, so
    the interrupt source of [a] is no longer enabled; the device
    remembers the last threshold only. *)
Theorem rearming_disables_previous_channel
        (t : table) (d : Tsadc.tsadc_dev) (a b ta tb : Z) :
  1 <= ARRAY_SIZE t < 2 ^ 63 ->
  0 <= a < Tsadc.TSADC_MAX_CHANNELS ->
  0 <= b < Tsadc.TSADC_MAX_CHANNELS ->
  a <> b ->
  exists ca cb d' tr en,
    Tsadc.temp_to_code t ta = Ok ca
    /\ Tsadc.temp_to_code t tb = Ok cb
    /\ Tsadc.run_ioctls t d
         [ (Tsadc.TSADC_SET_CHANNEL, a); (Tsadc.TSADC_SET_INT_THRESHOLD, ta);
           (Tsadc.TSADC_SET_CHANNEL, b); (Tsadc.TSADC_SET_INT_THRESHOLD, tb) ]
       = Ok (0, d', tr)
    /\ last_write (Tsadc.TSADC_COMP_INT a) tr = Some (to_u32 ca)
    /\ last_write (Tsadc.TSADC_COMP_INT b) tr = Some (to_u32 cb)
    /\ last_write Tsadc.TSADC_INT_EN tr = Some en
    /\ Z.testbit en b = true
    /\ Z.testbit en a = false
    /\ Tsadc.current_channel d' = b
    /\ Tsadc.int_threshold_temp d' = tb.
Proof.
  intros Hn Ha Hb Hab.
  destruct (temp_to_code_loop_in_table t ta (S (List.length t)) Hn 0)
    as (ia & _ & Ra); [unfold last_index; lia
                      | unfold last_index, ARRAY_SIZE; lia |].
  destruct (temp_to_code_loop_in_table t tb (S (List.length t)) Hn 0)
    as (ib & _ & Rb); [unfold last_index; lia
                      | unfold last_index, ARRAY_SIZE; lia |].
  fold (Tsadc.temp_to_code t ta) in Ra. fold (Tsadc.temp_to_code t tb) in Rb.
  exists (code_at t ia), (code_at t ib).
  eexists. eexists. eexists.
  split; [exact Ra|]. split; [exact Rb|].
  split.
  { rewrite (run_threshold_on t d a ta _ _ Ha Ra).
    rewrite (run_threshold_on t _ b tb _ _ Hb Rb).
    cbn [Tsadc.run_ioctls bind app]. reflexivity. }
  generalize (to_u32 (code_at t ia)), (to_u32 (code_at t ib)).
  intros ua ub.
  each_channel Ha; each_channel Hb; try contradiction;
    repeat split; reflexivity.
Qed.

Lemma rearming_disables_previous_channel_witness :
  exists ca cb d' tr en,
    Tsadc.temp_to_code Tsadc.rk3588_code_table 60 = Ok ca
    /\ Tsadc.temp_to_code Tsadc.rk3588_code_table 90 = Ok cb
    /\ Tsadc.run_ioctls Tsadc.rk3588_code_table (example_dev 0 0 0)
         [ (Tsadc.TSADC_SET_CHANNEL, 2); (Tsadc.TSADC_SET_INT_THRESHOLD, 60);
           (Tsadc.TSADC_SET_CHANNEL, 5); (Tsadc.TSADC_SET_INT_THRESHOLD, 90) ]
       = Ok (0, d', tr)
    /\ last_write (Tsadc.TSADC_COMP_INT 2) tr = Some (to_u32 ca)
    /\ last_write (Tsadc.TSADC_COMP_INT 5) tr = Some (to_u32 cb)
    /\ last_write Tsadc.TSADC_INT_EN tr = Some en
    /\ Z.testbit en 5 = true
    /\ Z.testbit en 2 = false
    /\ Tsadc.current_channel d' = 5
    /\ Tsadc.int_threshold_temp d' = 90.
Proof.
  apply (rearming_disables_previous_channel Tsadc.rk3588_code_table
           (example_dev 0 0 0) 2 5 60 90); by_computation.
Defined.

(** X12.  An event is observed once, however many interrupts carried
    it: after one interrupt, or two in a row, with the bit of the
    selected channel pending, the first [poll] reports the device
    readable and clears the flag, and the next [poll], no interrupt in
    between, reports nothing. *)
Theorem event_observed_once (d : Tsadc.tsadc_dev) :
  Z.testbit (Tsadc.regs d Tsadc.TSADC_INT_PD) (Tsadc.current_channel d)
  = true ->
  let d1 := snd (fst (Tsadc.tsadc_isr d)) in
  let d2 := snd (fst (Tsadc.tsadc_isr d1)) in
  let readable := Z.lor Tsadc.POLLIN Tsadc.POLLRDNORM in
  (fst (fst (Tsadc.my_poll d1)) = readable
   /\ fst (fst (Tsadc.my_poll (snd (fst (Tsadc.my_poll d1))))) = 0)
  /\ (fst (fst (Tsadc.my_poll d2)) = readable
      /\ fst (fst (Tsadc.my_poll (snd (fst (Tsadc.my_poll d2))))) = 0)
  /\ snd (fst (Tsadc.my_poll d1)) = Tsadc.set_irq_fired d false
  /\ snd (fst (Tsadc.my_poll d2)) = Tsadc.set_irq_fired d false.
Proof.
  intros Hbit. cbv zeta.
  assert (Tsadc.tsadc_isr d
          = (Tsadc.IRQ_HANDLED, Tsadc.set_irq_fired d true,
             [Tsadc.EvReadl Tsadc.TSADC_INT_PD
                (Tsadc.regs d Tsadc.TSADC_INT_PD);
              Tsadc.EvWritel (Tsadc.regs d Tsadc.TSADC_INT_PD)
                Tsadc.TSADC_INT_PD; Tsadc.EvWakeUp])) as E1.
  { unfold Tsadc.tsadc_isr, Tsadc.TSADC_INT_SRC_MASK.
    now rewrite land_bit_testbit, Hbit. }
  rewrite E1. cbn [fst snd].
  assert (Tsadc.tsadc_isr (Tsadc.set_irq_fired d true)
          = (Tsadc.IRQ_HANDLED, Tsadc.set_irq_fired d true,
             [Tsadc.EvReadl Tsadc.TSADC_INT_PD
                (Tsadc.regs d Tsadc.TSADC_INT_PD);
              Tsadc.EvWritel (Tsadc.regs d Tsadc.TSADC_INT_PD)
                Tsadc.TSADC_INT_PD; Tsadc.EvWakeUp])) as E2.
  { unfold Tsadc.tsadc_isr, Tsadc.TSADC_INT_SRC_MASK.
    cbn [Tsadc.regs Tsadc.current_channel Tsadc.set_irq_fired].
    now rewrite land_bit_testbit, Hbit. }
  rewrite E2. cbn [fst snd].
  repeat apply conj; reflexivity.
Qed.

Lemma event_observed_once_witness :
  let d1 := snd (fst (Tsadc.tsadc_isr (example_dev 0 4 2))) in
  fst (fst (Tsadc.my_poll d1)) = 65
  /\ fst (fst (Tsadc.my_poll (snd (fst (Tsadc.my_poll d1))))) = 0.
Proof.
  exact (proj1 (event_observed_once (example_dev 0 4 2) eq_refl)).
Defined.

(** ** [my_read] on the shipped table *)

Lemma sampled_code_range (d : Tsadc.tsadc_dev) :
  0 <= Tsadc.sampled_code d <= 4095.
Proof.
  unfold Tsadc.sampled_code, Tsadc.TSADC_DATA_MASK.
  change 0xfff with (Z.ones 12). rewrite Z.land_ones by lia.
  assert (0 <= Tsadc.regs d (Tsadc.TSADC_DATA (Tsadc.current_channel d))
               mod 2 ^ 12 < 4096) as H
      by (apply Z.mod_pos_bound; reflexivity).
  change (Z.ones 12) with 4095.
  rewrite to_s32_small; [lia|].
  unfold in_int. rewrite two31_eq. lia.
Qed.

Lemma short_sample_text (v : Z) :
  -40 <= v <= 125 -> 0 < Tsadc.strlen (Tsadc.sprintf_d_nl v) <= 4.
Proof.
  intros Hv.
  assert (forallb (fun k => let s := Tsadc.sprintf_d_nl (Z.of_nat k - 40) in
                            (0 <? Tsadc.strlen s) && (Tsadc.strlen s <=? 4))
                  (seq 0 166) = true) as Hall by (vm_compute; reflexivity).
  rewrite forallb_forall in Hall.
  specialize (Hall (Z.to_nat (v + 40))
                ltac:(apply in_seq; lia)).
  cbv zeta in Hall. rewrite Z2Nat.id in Hall by lia.
  replace (v + 40 - 40) with v in Hall by lia.
  apply andb_true_iff in Hall as [H1 H2].
  apply Z.ltb_lt in H1. apply Z.leb_le in H2. lia.
Qed.

(** X13.  With the shipped table [my_read] answers every register
    value: a read at offset 0 with at least 12 bytes of buffer returns
    [-EINVAL] exactly when the masked code is below 215, and otherwise,
    the copy succeeding, a text of one to four bytes, never more than
    the buffer holds, that is the decimal of a temperature between -40
    and 125 followed by a newline. *)
Theorem my_read_shipped_table (d : Tsadc.tsadc_dev) (len : Z) :
  12 <= len ->
  exists o,
    Tsadc.my_read Tsadc.rk3588_code_table d 0 len true = Ok o
    /\ (Tsadc.sampled_code d < 215 ->
        Tsadc.read_ret o = - EINVAL /\ Tsadc.read_buf o = None
        /\ Tsadc.read_off o = 0)
    /\ (215 <= Tsadc.sampled_code d ->
        exists v,
          -40 <= v <= 125
          /\ Tsadc.read_buf o = Some (Tsadc.sprintf_d_nl v)
          /\ Tsadc.read_ret o = Tsadc.strlen (Tsadc.sprintf_d_nl v)
          /\ Tsadc.read_off o = Tsadc.read_ret o
          /\ 0 < Tsadc.read_ret o <= 4
          /\ Tsadc.read_ret o <= len).
Proof.
  intros Hlen. pose proof (sampled_code_range d) as Hraw.
  rewrite my_read_sampling by lia.
  set (c := Tsadc.sampled_code d) in *. clearbody c.
  destruct (Z_lt_le_dec 395 c) as [Hhot|Hle].
  - destruct (not_ready_above (mkEntry 125 395)
                [mkEntry 85 350; mkEntry 25 285; mkEntry (-40) 215] c Hhot)
      as [R _].
    change (mkEntry 125 395 :: _) with Tsadc.rk3588_code_table in R.
    rewrite R. eexists. split; [reflexivity|]. split; [intros; exfalso; lia|].
    intros _. exists (-40). cbn. repeat split; lia.
  - destruct (Z_lt_le_dec c 215) as [Hcold|Hge].
    + rewrite (code_to_temp_below_last Tsadc.rk3588_code_table c);
        [| by_computation | change (c <= 395); lia | change (c < 215); lia].
      eexists. split; [reflexivity|]. split; [|intros; exfalso; lia].
      intros _. repeat split.
    + destruct (code_to_temp_bracket_formula Tsadc.rk3588_code_table c
                  eq_refl eq_refl eq_refl eq_refl eq_refl
                  ltac:(change (215 <= c <= 395); lia))
        as (m & _ & Hm & Hbr & R & _).
      rewrite R. cbn [bind conv_ret conv_temp Z.eqb].
      set (v := interpolate _ _ c) in *.
      assert (-40 <= v <= 125) as Hv.
      { change (last_index Tsadc.rk3588_code_table) with 3 in Hm.
        pose proof (code_at_lt Tsadc.rk3588_code_table (m - 1) m eq_refl
                      ltac:(lia) ltac:(change (m < 4); lia)) as Hcl.
        pose proof (temp_at_le Tsadc.rk3588_code_table (m - 1) m eq_refl
                      ltac:(lia) ltac:(change (m < 4); lia)) as Htl.
        pose proof (temp_at_le Tsadc.rk3588_code_table m 3 eq_refl
                      ltac:(lia) ltac:(change (3 < 4); lia)) as Hlo.
        pose proof (temp_at_le Tsadc.rk3588_code_table 0 (m - 1) eq_refl
                      ltac:(lia) ltac:(change (m - 1 < 4); lia)) as Hhi.
        pose proof (interpolate_range
                      (entry_at Tsadc.rk3588_code_table m)
                      (entry_at Tsadc.rk3588_code_table (m - 1)) c
                      Hbr Hcl Htl) as Hr.
        fold v in Hr.
        change (temp_at Tsadc.rk3588_code_table 3) with (-40) in Hlo.
        change (temp_at Tsadc.rk3588_code_table 0) with 125 in Hhi.
        unfold temp_at in *. lia. }
      clearbody v.
      pose proof (short_sample_text v Hv) as Hs.
      eexists. split; [reflexivity|]. split; [intros; exfalso; lia|].
      intros _. exists v. cbn. repeat split; lia.
Qed.

Lemma my_read_shipped_table_witness :
  exists o,
    Tsadc.my_read Tsadc.rk3588_code_table (example_dev 4096 0 0) 0 12 true
    = Ok o
    /\ (Tsadc.sampled_code (example_dev 4096 0 0) < 215 ->
        Tsadc.read_ret o = - EINVAL /\ Tsadc.read_buf o = None
        /\ Tsadc.read_off o = 0)
    /\ (215 <= Tsadc.sampled_code (example_dev 4096 0 0) ->
        exists v,
          -40 <= v <= 125
          /\ Tsadc.read_buf o = Some (Tsadc.sprintf_d_nl v)
          /\ Tsadc.read_ret o = Tsadc.strlen (Tsadc.sprintf_d_nl v)
          /\ Tsadc.read_off o = Tsadc.read_ret o
          /\ 0 < Tsadc.read_ret o <= 4
          /\ Tsadc.read_ret o <= 12).
Proof.
  apply (my_read_shipped_table (example_dev 4096 0 0) 12). lia.
Defined.

(** ** Loading and unloading the character driver *)

(** The paths of [tsadc_char_init], one by one. *)
Ltac init_paths E :=
  unfold Tsadc.tsadc_char_init, Tsadc.init_clocks, Tsadc.init_start_hw in E;
  repeat match type of E with
    | context [negb (Tsadc.kzalloc_ok ?env)] =>
        destruct (Tsadc.kzalloc_ok env); cbn [negb] in E
    | context [negb (Tsadc.ioremap_ok ?env)] =>
        destruct (Tsadc.ioremap_ok env); cbn [negb] in E
    | context [?x <? 0] => destruct (Z.ltb_spec x 0)
    | context [negb (?x =? 0)] => destruct (Z.eqb_spec x 0); cbn [negb] in E
    | context [match ?x with Some _ => _ | None => _ end] =>
        let e := fresh "e" in destruct x as [e|]
    | context [if ?b then _ else _] => destruct b
    end;
  injection E as <- <- <-.

(** Closes one path of [tsadc_char_init]: the conjuncts one by one,
    each by computation or by the arithmetic of the path. *)
Ltac init_case :=
  intros;
  repeat match goal with
    | H : _ /\ _ |- _ => destruct H
    | H : true = true -> _ |- _ => specialize (H eq_refl)
    end;
  first [ reflexivity | lia | discriminate | congruence
        | exfalso; lia | exfalso; congruence
        | split; init_case ].

(** X14.  [tsadc_char_init] returns 0 exactly when every service it
    calls succeeds (the clock, the reset, the interrupt line and the
    clock enable being called under [TRY_AI_BUG] only), and otherwise
    the error of the first service that fails, which is not 0.  On an
    error it hands out no device, has written no register, and has
    given back exactly what it had taken, in the reverse order of
    taking: the error labels undo neither too little nor too much. *)
Theorem tsadc_char_init_unwinds (try_ai_bug : bool) (hw : Z -> Z)
        (env : Tsadc.init_env) (ret : Z) (od : option Tsadc.tsadc_dev)
        (tr : Tsadc.trace) :
  err_ok (Tsadc.class_create_err env) ->
  err_ok (Tsadc.device_create_err env) ->
  err_ok (Tsadc.clk_get_err env) ->
  err_ok (Tsadc.reset_control_get_err env) ->
  Tsadc.tsadc_char_init try_ai_bug hw env = (ret, od, tr) ->
  (ret = 0 <->
   Tsadc.kzalloc_ok env = true
   /\ 0 <= Tsadc.alloc_chrdev_region_ret env
   /\ Tsadc.class_create_err env = None
   /\ Tsadc.device_create_err env = None
   /\ 0 <= Tsadc.cdev_add_ret env
   /\ Tsadc.ioremap_ok env = true
   /\ (try_ai_bug = true ->
       Tsadc.clk_get_err env = None
       /\ Tsadc.reset_control_get_err env = None
       /\ Tsadc.request_irq_ret env = 0
       /\ Tsadc.clk_prepare_enable_ret env = 0))
  /\ match init_failure try_ai_bug env with
     | Some e => ret = e /\ e <> 0
     | None => ret = 0
     end
  /\ (od = None <-> ret <> 0)
  /\ (ret <> 0 ->
      released tr = rev (acquired tr) /\ mmio tr = []).
Proof.
  intros H1 H2 H3 H4 E. unfold init_failure.
  init_paths E; cbn [err_ok negb] in *;
    repeat match goal with
      | |- context [?x <? 0] => destruct (Z.ltb_spec x 0); try lia
      | |- context [negb (?x =? 0)] =>
          destruct (Z.eqb_spec x 0); cbn [negb]; try lia
      end;
    unfold Tsadc.ENOMEM; init_case.
Qed.

Lemma tsadc_char_init_unwinds_witness :
  let env := Tsadc.mkInitEnv true 0 None None 0 true None None (-16) 0 in
  exists tr,
    Tsadc.tsadc_char_init true (fun _ => 0) env = (-16, None, tr)
    /\ init_failure true env = Some (-16)
    /\ acquired tr = [RDev; RChrdev; RClass; RDevice; RCdev; RRegs; RClk; RRst]
    /\ released tr = rev (acquired tr)
    /\ mmio tr = [].
Proof.
  cbv zeta. eexists. split; [reflexivity|]. split; [reflexivity|].
  split; [reflexivity|].
  pose proof (tsadc_char_init_unwinds true (fun _ => 0)
                (Tsadc.mkInitEnv true 0 None None 0 true None None (-16) 0)
                (-16) None _ I I I I eq_refl) as (_ & _ & _ & Hfail).
  apply Hfail. discriminate.
Defined.

Lemma tsadc_char_init_acquired (try_ai_bug : bool) (hw : Z -> Z)
      (env : Tsadc.init_env) (od : option Tsadc.tsadc_dev)
      (tr : Tsadc.trace) :
  err_ok (Tsadc.class_create_err env) ->
  err_ok (Tsadc.device_create_err env) ->
  err_ok (Tsadc.clk_get_err env) ->
  err_ok (Tsadc.reset_control_get_err env) ->
  Tsadc.tsadc_char_init try_ai_bug hw env = (0, od, tr) ->
  acquired tr
  = [RDev; RChrdev; RClass; RDevice; RCdev; RRegs]
    ++ (if try_ai_bug then [RClk; RRst; RIrq; RClkOn; RRstOff] else []).
Proof.
  intros H1 H2 H3 H4 E.
  remember 0 as ret eqn:Hret in E.
  init_paths E; cbn [err_ok] in *; try (exfalso; lia); reflexivity.
Qed.

(** X15.  When every step succeeds [tsadc_char_init] returns 0 with
    channel 0 selected, the threshold at 85 and no event pending; it
    gives nothing back, leaves the conversion started on channel 0 (the
    last value written to the control register has the start bit and the
    source bit of channel 0), and enables no interrupt source: the
    interrupt-enable register is not written before a threshold is
    armed. *)
Theorem tsadc_char_init_success (try_ai_bug : bool) (hw : Z -> Z)
        (env : Tsadc.init_env) (od : option Tsadc.tsadc_dev)
        (tr : Tsadc.trace) :
  err_ok (Tsadc.class_create_err env) ->
  err_ok (Tsadc.device_create_err env) ->
  err_ok (Tsadc.clk_get_err env) ->
  err_ok (Tsadc.reset_control_get_err env) ->
  Tsadc.tsadc_char_init try_ai_bug hw env = (0, od, tr) ->
  od = Some (Tsadc.mkDev hw 0 85 false)
  /\ released tr = []
  /\ acquired tr
     = [RDev; RChrdev; RClass; RDevice; RCdev; RRegs]
       ++ (if try_ai_bug then [RClk; RRst; RIrq; RClkOn; RRstOff] else [])
  /\ last_write Tsadc.TSADC_AUTO_CON tr
     = Some (Z.lor (BIT 0) (BIT 4))
  /\ last_write Tsadc.TSADC_INT_EN tr = None.
Proof.
  intros H1 H2 H3 H4 E.
  remember 0 as ret eqn:Hret in E.
  init_paths E; cbn [err_ok] in *; try (exfalso; lia);
    repeat apply conj; reflexivity.
Qed.

Lemma tsadc_char_init_success_witness :
  exists tr,
    Tsadc.tsadc_char_init false (fun _ => 0) init_env_ok
    = (0, Some (Tsadc.mkDev (fun _ => 0) 0 85 false), tr)
    /\ released tr = []
    /\ acquired tr = [RDev; RChrdev; RClass; RDevice; RCdev; RRegs]
    /\ last_write Tsadc.TSADC_AUTO_CON tr = Some 17
    /\ last_write Tsadc.TSADC_INT_EN tr = None.
Proof.
  eexists. split; [reflexivity|].
  apply (tsadc_char_init_success false (fun _ => 0) init_env_ok
           (Some (Tsadc.mkDev (fun _ => 0) 0 85 false))); cbn; trivial.
Defined.

(** X16.  Unloading against loading.  Built with [TRY_AI_BUG],
    [tsadc_char_exit] gives back exactly what a successful
    [tsadc_char_init] took, in reverse order.  Built without it, the
    init takes neither clock, reset control nor interrupt, yet the exit
    still disables the clock, asserts the reset, frees the interrupt and
    puts clock and reset control: it gives back five things that were
    never taken. *)
Theorem tsadc_char_exit_against_init (try_ai_bug : bool) (hw : Z -> Z)
        (env : Tsadc.init_env) (d : Tsadc.tsadc_dev) (tr : Tsadc.trace) :
  err_ok (Tsadc.class_create_err env) ->
  err_ok (Tsadc.device_create_err env) ->
  err_ok (Tsadc.clk_get_err env) ->
  err_ok (Tsadc.reset_control_get_err env) ->
  Tsadc.tsadc_char_init try_ai_bug hw env = (0, Some d, tr) ->
  if try_ai_bug
  then released (Tsadc.tsadc_char_exit d) = rev (acquired tr)
  else released (Tsadc.tsadc_char_exit d)
       = [RRstOff; RClkOn; RIrq; RRst; RClk] ++ rev (acquired tr)
       /\ forall r, In r [RRstOff; RClkOn; RIrq; RRst; RClk] ->
                    ~ In r (acquired tr).
Proof.
  intros H1 H2 H3 H4 E.
  pose proof (tsadc_char_init_acquired try_ai_bug hw env (Some d) tr
                H1 H2 H3 H4 E) as Hacq.
  rewrite Hacq. destruct try_ai_bug; [reflexivity|].
  split; [reflexivity|].
  intros r Hr Hin. cbn in Hr, Hin.
  repeat (destruct Hr as [<-|Hr];
          [repeat (destruct Hin as [Hin|Hin]; [discriminate|]);
           contradiction|]).
  contradiction.
Qed.

Lemma tsadc_char_exit_against_init_witness :
  exists d tr,
    Tsadc.tsadc_char_init false (fun _ => 0) init_env_ok = (0, Some d, tr)
    /\ released (Tsadc.tsadc_char_exit d)
       = [RRstOff; RClkOn; RIrq; RRst; RClk] ++ rev (acquired tr)
    /\ forall r, In r [RRstOff; RClkOn; RIrq; RRst; RClk] ->
                 ~ In r (acquired tr).
Proof.
  eexists. eexists. split; [reflexivity|].
  apply (tsadc_char_exit_against_init false (fun _ => 0) init_env_ok);
    cbn; trivial.
Defined.

(** ** Teardown and the wait queue *)

Lemma wakes_In (tr : Tsadc.trace) :
  wakes tr = true <-> In Tsadc.EvWakeUp tr.
Proof.
  unfold wakes. rewrite existsb_exists. split.
  - intros (e & Hin & He). destruct e; try discriminate. exact Hin.
  - intros Hin. exists Tsadc.EvWakeUp. split; [exact Hin | reflexivity].
Qed.

Lemma not_wakes (tr : Tsadc.trace) :
  wakes tr = false -> ~ In Tsadc.EvWakeUp tr.
Proof.
  intros H Hin. apply wakes_In in Hin. congruence.
Qed.

Lemma init_never_wakes (try_ai_bug : bool) (hw : Z -> Z)
      (env : Tsadc.init_env) :
  wakes (snd (Tsadc.tsadc_char_init try_ai_bug hw env)) = false.
Proof.
  unfold Tsadc.tsadc_char_init.
  destruct (Tsadc.kzalloc_ok env); cbn [negb]; [|reflexivity].
  destruct (_ <? 0); [reflexivity|].
  destruct (Tsadc.class_create_err env); [reflexivity|].
  destruct (Tsadc.device_create_err env); [reflexivity|].
  destruct (_ <? 0); [reflexivity|].
  destruct (Tsadc.ioremap_ok env); cbn [negb]; [|reflexivity].
  destruct try_ai_bug; [|reflexivity].
  unfold Tsadc.init_clocks.
  destruct (Tsadc.clk_get_err env); [reflexivity|].
  destruct (Tsadc.reset_control_get_err env); [reflexivity|].
  destruct (negb _); [reflexivity|].
  destruct (negb _); reflexivity.
Qed.

(** C9 (as amended).  [tsadc_char_exit] wakes nobody and [my_poll] has
    no cancelled result.  The teardown writes 0 to the control and the
    interrupt-enable registers and then calls [reset_control_assert],
    [clk_disable_unprepare], [free_irq], [reset_control_put], [clk_put],
    [iounmap], [cdev_del], [device_destroy], [class_destroy],
    [unregister_chrdev_region] and [kfree], in this order and nothing
    else: no wake of the wait queue is among them, so the tasks sleeping
    on it are the same after the teardown.  [my_poll] answers 0 or
    [POLLIN | POLLRDNORM] and wakes nobody.  Of the entry points of the
    driver ([my_read], [my_ioctl], [my_poll], [tsadc_isr],
    [tsadc_char_init], [tsadc_char_exit]) only the interrupt handler
    wakes the wait queue, exactly when the bit of the selected channel
    is pending, and then everybody sleeping on it. *)
Theorem tsadc_char_exit_wakes_nobody (d : Tsadc.tsadc_dev)
        (sleeping : list Tsadc.task) :
  Tsadc.tsadc_char_exit d
  = Tsadc.EvWritel 0 Tsadc.TSADC_AUTO_CON
    :: Tsadc.EvWritel 0 Tsadc.TSADC_INT_EN
    :: map Tsadc.EvCall
         [ "reset_control_assert"; "clk_disable_unprepare"; "free_irq";
           "reset_control_put"; "clk_put"; "iounmap"; "cdev_del";
           "device_destroy"; "class_destroy"; "unregister_chrdev_region";
           "kfree" ]%string
  /\ ~ In Tsadc.EvWakeUp (Tsadc.tsadc_char_exit d)
  /\ Tsadc.waitq_after (Tsadc.tsadc_char_exit d) sleeping = sleeping
  /\ (fst (fst (Tsadc.my_poll d)) = 0
      \/ fst (fst (Tsadc.my_poll d)) = Z.lor Tsadc.POLLIN Tsadc.POLLRDNORM)
  /\ ~ In Tsadc.EvWakeUp (snd (Tsadc.my_poll d))
  /\ (In Tsadc.EvWakeUp (snd (Tsadc.tsadc_isr d))
      <-> Z.testbit (Tsadc.regs d Tsadc.TSADC_INT_PD)
                    (Tsadc.current_channel d) = true)
  /\ Tsadc.waitq_after (snd (Tsadc.tsadc_isr d)) sleeping
     = (if Z.testbit (Tsadc.regs d Tsadc.TSADC_INT_PD)
                     (Tsadc.current_channel d)
        then [] else sleeping)
  /\ (forall t off len user_ok o,
        Tsadc.my_read t d off len user_ok = Ok o ->
        ~ In Tsadc.EvWakeUp (Tsadc.read_trace o))
  /\ (forall t cmd uarg o,
        Tsadc.my_ioctl t d cmd uarg = Ok o ->
        ~ In Tsadc.EvWakeUp (Tsadc.ioctl_trace o))
  /\ (forall try_ai_bug hw env,
        ~ In Tsadc.EvWakeUp (snd (Tsadc.tsadc_char_init try_ai_bug hw env))).
Proof.
  repeat apply conj.
  - reflexivity.
  - apply not_wakes. reflexivity.
  - reflexivity.
  - unfold Tsadc.my_poll. destruct (Tsadc.irq_fired d);
      [right | left]; reflexivity.
  - apply not_wakes. unfold Tsadc.my_poll.
    destruct (Tsadc.irq_fired d); reflexivity.
  - rewrite <- wakes_In.
    unfold Tsadc.tsadc_isr, Tsadc.TSADC_INT_SRC_MASK.
    rewrite land_bit_testbit. destruct (Z.testbit _ _); cbn; congruence.
  - rewrite <- wakes_In.
    unfold Tsadc.tsadc_isr, Tsadc.TSADC_INT_SRC_MASK.
    rewrite land_bit_testbit. destruct (Z.testbit _ _); cbn; congruence.
  - unfold Tsadc.tsadc_isr, Tsadc.TSADC_INT_SRC_MASK.
    rewrite land_bit_testbit. destruct (Z.testbit _ _); reflexivity.
  - intros t off len user_ok o E. apply not_wakes.
    destruct (my_read_trace_cases t d off len user_ok o E) as [-> | ->];
      reflexivity.
  - intros t cmd uarg o E. apply not_wakes.
    destruct (my_ioctl_cases t d cmd uarg o E)
      as [(_ & -> & _) | [(_ & ch & _ & _ & ->)
          | [(_ & _ & ->) | (_ & tc & c & _ & _ & ->)]]]; reflexivity.
  - intros try_ai_bug hw env. apply not_wakes, init_never_wakes.
Qed.

(** C9, the counterexample.  Load the driver with every service
    succeeding and unload it again: the teardown of the device that
    [tsadc_char_init] handed out makes no wake, where the claim has
    every teardown make a broadcast wake. *)
Lemma tsadc_char_exit_counterexample :
  exists d tr,
    Tsadc.tsadc_char_init false (fun _ => 0) init_env_ok = (0, Some d, tr)
    /\ wakes (Tsadc.tsadc_char_exit d) = false
    /\ ~ In Tsadc.EvWakeUp (Tsadc.tsadc_char_exit d)
    /\ ~ (forall d' : Tsadc.tsadc_dev,
            In Tsadc.EvWakeUp (Tsadc.tsadc_char_exit d')).
Proof.
  eexists. eexists. split; [reflexivity|]. split; [reflexivity|].
  split; [apply not_wakes; reflexivity|].
  intros H. apply (not_wakes (Tsadc.tsadc_char_exit (example_dev 0 0 0)));
    [reflexivity | apply H].
Qed.

(** ** The platform driver *)

Lemma platform_sampled_code_range (chip : Platform.rk3588_tsadc_chip) :
  0 <= Platform.sampled_code chip <= 4095.
Proof.
  unfold Platform.sampled_code, Platform.TSADC_DATA_MASK.
  change 0xfff with (Z.ones 12). rewrite Z.land_ones by lia.
  generalize (to_s32 (Platform.regs chip
                        (Platform.TSADC_DATA (Platform.id chip)))).
  intros x.
  assert (0 <= x mod 2 ^ 12 < 4096) as H
      by (apply Z.mod_pos_bound; reflexivity).
  change (Z.ones 12) with 4095.
  rewrite to_s32_small; [lia|].
  unfold in_int. rewrite two31_eq. lia.
Qed.

(** X17.  [rk3588_tsadc_get_temp] never reports an error: the masked
    code is at most 4095 and the last code of the table is -530, so no
    register value is out of range, and a code above the first code of
    the table is answered with -40000; the thermal framework always
    gets 0 and a value. *)
Theorem rk3588_tsadc_get_temp_never_fails (chip : Platform.rk3588_tsadc_chip) :
  exists v,
    Platform.rk3588_tsadc_get_temp chip = Ok (mkConv 0 (Some v))
    /\ (3800 < Platform.sampled_code chip -> v = -40000).
Proof.
  pose proof (platform_sampled_code_range chip) as Hraw.
  unfold Platform.rk3588_tsadc_get_temp. fold (Platform.sampled_code chip).
  set (c := Platform.sampled_code chip) in *. clearbody c.
  destruct (Z_lt_le_dec 3800 c) as [Hhot|Hle].
  - destruct (not_ready_above (mkEntry (-40) 3800)
                (tl Platform.rk3588_code_table) c Hhot) as [_ R].
    change (mkEntry (-40) 3800 :: _) with Platform.rk3588_code_table in R.
    rewrite R. exists (-40000). split; [reflexivity|trivial].
  - destruct (platform_code_to_temp_found Platform.rk3588_code_table c
                eq_refl eq_refl eq_refl
                ltac:(change (-530 <= c <= 3800); lia) eq_refl)
      as (m & _ & _ & _ & R).
    rewrite R. eexists. split; [reflexivity|]. intros; exfalso; lia.
Qed.

(** X18.  The two interrupt handlers agree: on the same pending value
    and the same channel, [rk3588_tsadc_irq] and [tsadc_isr] do the same
    register accesses, one read of the pending register and one write
    of the value read, and the platform handler notifies the thermal
    framework exactly when the character handler wakes the wait queue,
    that is when the bit of the channel is set in the value read. *)
Theorem interrupt_handlers_agree (chip : Platform.rk3588_tsadc_chip)
        (d : Tsadc.tsadc_dev) :
  Platform.regs chip Platform.TSADC_INT_PD = Tsadc.regs d Tsadc.TSADC_INT_PD ->
  Platform.id chip = Tsadc.current_channel d ->
  let val := Tsadc.regs d Tsadc.TSADC_INT_PD in
  let fired := Z.testbit val (Tsadc.current_channel d) in
  fst (Platform.rk3588_tsadc_irq chip) = fst (fst (Tsadc.tsadc_isr d))
  /\ mmio (snd (Platform.rk3588_tsadc_irq chip))
     = [Tsadc.EvReadl Tsadc.TSADC_INT_PD val;
        Tsadc.EvWritel val Tsadc.TSADC_INT_PD]
  /\ mmio (snd (Tsadc.tsadc_isr d))
     = mmio (snd (Platform.rk3588_tsadc_irq chip))
  /\ count_calls "thermal_zone_device_update"
       (snd (Platform.rk3588_tsadc_irq chip))
     = (if fired then 1%nat else 0%nat)
  /\ Tsadc.waitq_after (snd (Tsadc.tsadc_isr d)) [1%nat]
     = (if fired then [] else [1%nat]).
Proof.
  intros Hpd Hid. cbv zeta.
  unfold Platform.rk3588_tsadc_irq, Tsadc.tsadc_isr,
    Platform.TSADC_INT_SRC_MASK, Tsadc.TSADC_INT_SRC_MASK.
  rewrite Hpd, Hid, !land_bit_testbit.
  destruct (Z.testbit _ _); repeat apply conj; reflexivity.
Qed.

Lemma interrupt_handlers_agree_witness :
  let chip := Platform.mkChip (fun _ => 4) 2 in
  let d := example_dev 0 4 2 in
  fst (Platform.rk3588_tsadc_irq chip) = fst (fst (Tsadc.tsadc_isr d))
  /\ mmio (snd (Platform.rk3588_tsadc_irq chip))
     = [Tsadc.EvReadl 12 4; Tsadc.EvWritel 4 12]
  /\ mmio (snd (Tsadc.tsadc_isr d))
     = mmio (snd (Platform.rk3588_tsadc_irq chip))
  /\ count_calls "thermal_zone_device_update"
       (snd (Platform.rk3588_tsadc_irq chip)) = 1%nat
  /\ Tsadc.waitq_after (snd (Tsadc.tsadc_isr d)) [1%nat] = [].
Proof.
  exact (interrupt_handlers_agree (Platform.mkChip (fun _ => 4) 2)
           (example_dev 0 4 2) eq_refl eq_refl).
Defined.

Ltac hw_paths E :=
  repeat match type of E with
    | context [negb (?x =? 0)] => destruct (Z.eqb_spec x 0); cbn [negb] in E
    | context [?x <? 0] => destruct (Z.ltb_spec x 0)
    | context [negb ?b] => destruct b; cbn [negb] in E
    | context [match ?x with Some _ => _ | None => _ end] =>
        let e := fresh "e" in destruct x as [e|]
    end.

(** Closes one path of a platform function: the conjuncts one by one,
    the value of a register write read off the computed trace. *)
Ltac outcome_case :=
  intros;
  repeat match goal with
    | H : _ /\ _ |- _ => destruct H
    | H : last_write _ _ = Some _ |- _ => vm_compute in H; injection H as <-
    end;
  first [ reflexivity | lia | discriminate | congruence
        | exfalso; lia | exfalso; congruence
        | split; outcome_case
        | left; reflexivity
        | right; split; reflexivity ].

Lemma platform_channel_cases (ch : Z) :
  0 <= ch < Platform.TSADC_MAX_CHANNELS ->
  ch = 0 \/ ch = 1 \/ ch = 2 \/ ch = 3 \/ ch = 4 \/ ch = 5 \/ ch = 6 \/ ch = 7.
Proof. unfold Platform.TSADC_MAX_CHANNELS. lia. Qed.

(** X19.  For a chip whose channel is one of the [TSADC_MAX_CHANNELS]
    channels, [rk3588_tsadc_initialize] succeeds exactly when the clock
    enable, the reset assert and the reset deassert all return 0, and
    otherwise returns the error of the first of them that fails.  When
    it fails it has written no register and the clock is disabled again
    if it had been enabled.  When it succeeds the clock is on, the last
    value written to the control register is the start bit together
    with the source bit of the chip's channel, [2 ^ (4 + id) + 1], and
    the last value written to the interrupt-enable register is that
    channel's bit, [2 ^ id]: the conversion runs on the channel and its
    interrupt source is enabled. *)
Theorem rk3588_tsadc_initialize_outcome (chip : Platform.rk3588_tsadc_chip)
        (env : Platform.hw_env) (ret : Z) (tr : Tsadc.trace) :
  0 <= Platform.id chip < Platform.TSADC_MAX_CHANNELS ->
  Platform.rk3588_tsadc_initialize chip env = (ret, tr) ->
  (ret = 0 <->
   Platform.clk_prepare_enable_ret env = 0
   /\ Platform.reset_control_assert_ret env = 0
   /\ Platform.reset_control_deassert_ret env = 0)
  /\ ret = (if negb (Platform.clk_prepare_enable_ret env =? 0)
            then Platform.clk_prepare_enable_ret env
            else if negb (Platform.reset_control_assert_ret env =? 0)
            then Platform.reset_control_assert_ret env
            else Platform.reset_control_deassert_ret env)
  /\ (ret <> 0 ->
      mmio tr = []
      /\ count_calls "clk_prepare_enable" tr
         = count_calls "clk_disable_unprepare" tr)
  /\ (ret = 0 ->
      count_calls "clk_prepare_enable" tr = 1%nat
      /\ count_calls "clk_disable_unprepare" tr = 0%nat
      /\ last_write Platform.TSADC_AUTO_CON tr
         = Some (2 ^ (4 + Platform.id chip) + 1)
      /\ last_write Platform.TSADC_INT_EN tr
         = Some (2 ^ Platform.id chip)
      /\ (forall v, last_write Platform.TSADC_AUTO_CON tr = Some v ->
                    Z.testbit v 0 = true
                    /\ Z.testbit v (4 + Platform.id chip) = true)
      /\ (forall v, last_write Platform.TSADC_INT_EN tr = Some v ->
                    Z.testbit v (Platform.id chip) = true)).
Proof.
  intros Hid E. destruct chip as [r i]. cbn [Platform.id] in *.
  unfold Platform.rk3588_tsadc_initialize in E. cbn [Platform.id] in E.
  apply platform_channel_cases in Hid.
  hw_paths E; injection E as <- <-; cbn [negb];
    repeat (destruct Hid as [Hid|Hid]); subst i; outcome_case.
Qed.

Lemma rk3588_tsadc_initialize_outcome_witness :
  (exists tr,
     Platform.rk3588_tsadc_initialize (Platform.mkChip (fun _ => 0) 3)
       (Platform.mkHwEnv 0 0 (-5)) = (-5, tr)
     /\ mmio tr = []
     /\ count_calls "clk_prepare_enable" tr = 1%nat
     /\ count_calls "clk_disable_unprepare" tr = 1%nat)
  /\ (exists tr,
        Platform.rk3588_tsadc_initialize (Platform.mkChip (fun _ => 0) 3)
          hw_env_ok = (0, tr)
        /\ last_write Platform.TSADC_AUTO_CON tr = Some 129
        /\ last_write Platform.TSADC_INT_EN tr = Some 8).
Proof.
  split.
  - eexists. split; [reflexivity|].
    destruct (rk3588_tsadc_initialize_outcome
                (Platform.mkChip (fun _ => 0) 3) (Platform.mkHwEnv 0 0 (-5))
                (-5) _ ltac:(unfold Platform.TSADC_MAX_CHANNELS; cbn; lia)
                eq_refl) as (_ & _ & Hfail & _).
    destruct (Hfail ltac:(discriminate)) as [Hm Hc].
    repeat split; try exact Hm; reflexivity.
  - eexists. split; [reflexivity|].
    destruct (rk3588_tsadc_initialize_outcome
                (Platform.mkChip (fun _ => 0) 3) hw_env_ok
                0 _ ltac:(unfold Platform.TSADC_MAX_CHANNELS; cbn; lia)
                eq_refl) as (_ & _ & _ & Hok).
    destruct (Hok eq_refl) as (_ & _ & Ha & Hi & _).
    split; [exact Ha | exact Hi].
Defined.

(** Closes what is left of one path: an impossible case, an equation
    between computed traces, or a conjunction of such. *)
Ltac finish_path :=
  intros; cbv zeta;
  first [ exfalso; lia
        | exfalso; congruence
        | discriminate
        | reflexivity
        | lia
        | congruence
        | split; finish_path
        | left; reflexivity
        | right; split; reflexivity ].

Ltac probe_paths E :=
  unfold Platform.rk3588_tsadc_probe, Platform.rk3588_tsadc_initialize,
    Platform.rk3588_tsadc_disable in E;
  repeat match type of E with
    | context [negb (Platform.devm_kzalloc_ok ?env)] =>
        destruct (Platform.devm_kzalloc_ok env); cbn [negb] in E
    | context [negb (?x =? 0)] => destruct (Z.eqb_spec x 0); cbn [negb] in E
    | context [?x <? 0] => destruct (Z.ltb_spec x 0)
    | context [match ?x with Some _ => _ | None => _ end] =>
        let e := fresh "e" in destruct x as [e|]
    end;
  injection E as <- <- <-.

(** X20.  With the "reg" property one of the [TSADC_MAX_CHANNELS]
    channels, [rk3588_tsadc_probe] hands out a chip exactly when it
    returns 0.  When it fails, the clock has been disabled as often as
    it was enabled and the hardware is either untouched or stopped
    again: the last values written to the control and the
    interrupt-enable registers are 0.  When it succeeds the chip carries
    the channel of the "reg" property, the clock is on, the last value
    written to the control register is the start bit together with the
    source bit of that channel, [2 ^ (4 + reg) + 1], and the last value
    written to the interrupt-enable register is that channel's bit,
    [2 ^ reg]. *)
Theorem rk3588_tsadc_probe_outcome (hw : Z -> Z) (env : Platform.probe_env)
        (ret : Z) (oc : option Platform.rk3588_tsadc_chip)
        (tr : Tsadc.trace) :
  0 <= Platform.reg env < Platform.TSADC_MAX_CHANNELS ->
  err_ok (Platform.ioremap_err env) ->
  err_ok (Platform.clk_get_err env) ->
  err_ok (Platform.reset_get_err env) ->
  err_ok (Platform.thermal_register_err env) ->
  Platform.rk3588_tsadc_probe hw env = (ret, oc, tr) ->
  (oc = None <-> ret <> 0)
  /\ (ret <> 0 ->
      count_calls "clk_prepare_enable" tr
      = count_calls "clk_disable_unprepare" tr
      /\ (mmio tr = []
          \/ (last_write Platform.TSADC_AUTO_CON tr = Some 0
              /\ last_write Platform.TSADC_INT_EN tr = Some 0)))
  /\ (ret = 0 ->
      oc = Some (Platform.mkChip hw (Platform.reg env))
      /\ count_calls "clk_prepare_enable" tr = 1%nat
      /\ count_calls "clk_disable_unprepare" tr = 0%nat
      /\ last_write Platform.TSADC_AUTO_CON tr
         = Some (2 ^ (4 + Platform.reg env) + 1)
      /\ last_write Platform.TSADC_INT_EN tr
         = Some (2 ^ Platform.reg env)
      /\ (forall v, last_write Platform.TSADC_AUTO_CON tr = Some v ->
                    Z.testbit v 0 = true
                    /\ Z.testbit v (4 + Platform.reg env) = true)
      /\ (forall v, last_write Platform.TSADC_INT_EN tr = Some v ->
                    Z.testbit v (Platform.reg env) = true)).
Proof.
  intros Hid H1 H2 H3 H4 E.
  apply platform_channel_cases in Hid.
  probe_paths E; cbn [err_ok] in *;
    repeat (destruct Hid as [Hid|Hid]); rewrite ?Hid; outcome_case.
Qed.

Lemma rk3588_tsadc_probe_outcome_witness :
  let env :=
    Platform.mkProbeEnv true None None None 42 0 3 hw_env_ok 0 (Some (-19)) in
  (exists tr,
     Platform.rk3588_tsadc_probe (fun _ => 0) env = (-19, None, tr)
     /\ count_calls "clk_prepare_enable" tr = 1%nat
     /\ count_calls "clk_disable_unprepare" tr = 1%nat
     /\ last_write Platform.TSADC_AUTO_CON tr = Some 0
     /\ last_write Platform.TSADC_INT_EN tr = Some 0)
  /\ (exists chip tr,
        Platform.rk3588_tsadc_probe (fun _ => 0) (probe_env_ok 3)
        = (0, Some chip, tr)
        /\ Platform.id chip = 3
        /\ last_write Platform.TSADC_AUTO_CON tr = Some 129
        /\ last_write Platform.TSADC_INT_EN tr = Some 8).
Proof.
  cbv zeta. split.
  - eexists. split; [reflexivity|].
    destruct (rk3588_tsadc_probe_outcome (fun _ => 0)
                (Platform.mkProbeEnv true None None None 42 0 3 hw_env_ok 0
                   (Some (-19)))
                (-19) None _ ltac:(unfold Platform.TSADC_MAX_CHANNELS; cbn; lia)
                I I I ltac:(cbn; lia) eq_refl)
      as (_ & Hfail & _).
    destruct (Hfail ltac:(discriminate)) as [Hc _].
    repeat split; reflexivity.
  - eexists. eexists. split; [reflexivity|]. split; [reflexivity|].
    destruct (rk3588_tsadc_probe_outcome (fun _ => 0) (probe_env_ok 3)
                0 _ _ ltac:(unfold Platform.TSADC_MAX_CHANNELS; cbn; lia)
                I I I I eq_refl)
      as (_ & _ & Hok).
    destruct (Hok eq_refl) as (_ & _ & _ & Ha & Hi & _).
    split; [exact Ha | exact Hi].
Defined.

(** X21.  Probe and remove pair up: after a successful
    [rk3588_tsadc_probe], [rk3588_tsadc_remove] returns 0 and leaves the
    conversion stopped and every interrupt source disabled (the last
    values written to both registers are 0), the reset asserted and the
    clock disabled as often as it was enabled. *)
Theorem rk3588_tsadc_remove_after_probe (hw : Z -> Z)
        (env : Platform.probe_env) (chip : Platform.rk3588_tsadc_chip)
        (tr : Tsadc.trace) :
  err_ok (Platform.ioremap_err env) ->
  err_ok (Platform.clk_get_err env) ->
  err_ok (Platform.reset_get_err env) ->
  err_ok (Platform.thermal_register_err env) ->
  Platform.rk3588_tsadc_probe hw env = (0, Some chip, tr) ->
  let all := tr ++ snd (Platform.rk3588_tsadc_remove chip) in
  fst (Platform.rk3588_tsadc_remove chip) = 0
  /\ last_write Platform.TSADC_AUTO_CON all = Some 0
  /\ last_write Platform.TSADC_INT_EN all = Some 0
  /\ count_calls "clk_prepare_enable" all
     = count_calls "clk_disable_unprepare" all
  /\ count_calls "reset_control_assert" all
     = S (count_calls "reset_control_deassert" all).
Proof.
  intros H1 H2 H3 H4 E. remember 0 as ret eqn:Hret in E.
  remember (Some chip) as oc eqn:Hoc in E.
  probe_paths E; cbn [err_ok] in *; try (exfalso; lia); try discriminate.
  cbv zeta. repeat apply conj; reflexivity.
Qed.

Lemma rk3588_tsadc_remove_after_probe_witness :
  exists chip tr,
    Platform.rk3588_tsadc_probe (fun _ => 0) (probe_env_ok 3)
    = (0, Some chip, tr)
    /\ last_write Platform.TSADC_AUTO_CON
         (tr ++ snd (Platform.rk3588_tsadc_remove chip)) = Some 0
    /\ last_write Platform.TSADC_INT_EN
         (tr ++ snd (Platform.rk3588_tsadc_remove chip)) = Some 0.
Proof.
  eexists. eexists. split; [reflexivity|].
  destruct (rk3588_tsadc_remove_after_probe (fun _ => 0) (probe_env_ok 3)
              _ _ I I I I eq_refl) as (_ & Ha & Hi & _).
  split; [exact Ha | exact Hi].
Defined.

(** ** Edges of the conversions *)

Lemma stored_temp_platform_at_lo (lo hi : tsadc_table) :
  in_int (temp hi) ->
  to_u32 (isub (code hi) (code lo)) <> 0 ->
  stored_temp_platform lo hi (code lo) = temp hi.
Proof.
  intros Hhi Hden. unfold stored_temp_platform, isub.
  rewrite Z.sub_diag.
  change (to_u32 (to_s32 0)) with 0.
  unfold umul. rewrite Z.mul_0_l. change (to_u32 0) with 0.
  unfold udiv. rewrite Z.div_0_l by assumption.
  unfold usub. rewrite Z.sub_0_r. unfold to_u32. rewrite Zmod_mod.
  fold (to_u32 (temp hi)). rewrite to_s32_to_u32.
  now apply to_s32_small.
Qed.

(** X22.  At the lower code of the bracket the search ends in, the two
    conversions part: whatever the direction of the temperatures,
    [code_to_temp] of tsadc.c stores the temperature of that entry,
    [table[mid].temp], and [rk3588_tsadc_code_to_temp] stores the
    temperature of the other end of the bracket, [table[mid-1].temp]. *)
Theorem lower_end_of_bracket (t : table) (c : Z) :
  desc (codes t) = true ->
  index_fits t = true ->
  int_fields t = true ->
  code_at t (last_index t) <= c <= code_at t 0 ->
  exists mid,
    search_loop t c (List.length t) 1 (last_index t) None = Ok (Break mid)
    /\ (c = code_at t mid ->
        Tsadc.code_to_temp t c = Ok (mkConv 0 (Some (temp_at t mid)))
        /\ (List.length t = List.length Platform.rk3588_code_table ->
            Platform.rk3588_tsadc_code_to_temp t c
            = Ok (mkConv 0 (Some (temp_at t (mid - 1)))))).
Proof.
  intros Hcd Hsz Hints Hc.
  destruct (size_bounds t Hsz) as [Hn2 Hn31].
  destruct (code_to_temp_found t c Hcd Hsz Hints Hc)
    as (m & E & Hm & Hbr & R).
  exists m. split; [exact E|]. intros ->. unfold last_index in Hm.
  destruct (den_positive t Hcd Hsz Hints m Hm) as [Hden Hpos].
  destruct (int_fields_at t m Hints ltac:(lia)) as [Htm _].
  destruct (int_fields_at t (m - 1) Hints ltac:(lia)) as [Htm1 _].
  split.
  - rewrite R. do 3 f_equal. apply stored_temp_at_lo; [exact Htm|].
    fold (code_at t (m - 1)) (code_at t m). lia.
  - intros Hlen.
    destruct (platform_code_to_temp_found t (code_at t m) Hcd Hsz Hints Hc
                Hlen) as (m' & E' & _ & _ & R').
    rewrite E in E'. injection E' as <-.
    rewrite R'. do 3 f_equal. apply stored_temp_platform_at_lo; [exact Htm1|].
    fold (code_at t (m - 1)) (code_at t m). lia.
Qed.

Lemma lower_end_of_bracket_witness :
  exists mid,
    search_loop Platform.rk3588_code_table 3440 16 1 15 None = Ok (Break mid)
    /\ (3440 = code_at Platform.rk3588_code_table mid ->
        Tsadc.code_to_temp Platform.rk3588_code_table 3440
        = Ok (mkConv 0 (Some (temp_at Platform.rk3588_code_table mid)))
        /\ (List.length Platform.rk3588_code_table
            = List.length Platform.rk3588_code_table ->
            Platform.rk3588_tsadc_code_to_temp Platform.rk3588_code_table 3440
            = Ok (mkConv 0
                    (Some (temp_at Platform.rk3588_code_table (mid - 1)))))).
Proof.
  apply (lower_end_of_bracket Platform.rk3588_code_table 3440);
    by_computation.
Defined.

(** X23.  [rk3588_tsadc_code_to_temp] takes [high] from the size of the
    global table and not from the table it is given: with a shorter
    table, every code that is not above [table[0].code] makes it read
    [table[15]], outside the table. *)
Theorem platform_short_table_out_of_bounds (t : table) (c : Z) :
  1 <= ARRAY_SIZE t < ARRAY_SIZE Platform.rk3588_code_table ->
  c <= code_at t 0 ->
  Platform.rk3588_tsadc_code_to_temp t c = Fault OutOfBounds.
Proof.
  intros Hn Hc. unfold Platform.rk3588_tsadc_code_to_temp.
  rewrite (tbl_ok t 0) by lia. cbn [bind]. fold (code_at t 0).
  rewrite Z.gtb_ltb. destruct (Z.ltb_spec (code_at t 0) c); [lia|].
  change (to_u32 (ARRAY_SIZE Platform.rk3588_code_table - 1)) with 15.
  change (ARRAY_SIZE Platform.rk3588_code_table) with 16 in Hn.
  unfold tbl. cbn [Z.ltb Z.compare].
  destruct (nth_error t (Z.to_nat 15)) as [e|] eqn:E; [|reflexivity].
  assert (Z.to_nat 15 < List.length t)%nat
    by (apply nth_error_Some; congruence).
  unfold ARRAY_SIZE in Hn. lia.
Qed.

Lemma platform_short_table_out_of_bounds_witness :
  Platform.rk3588_tsadc_code_to_temp Tsadc.rk3588_code_table 300
  = Fault OutOfBounds.
Proof.
  apply (platform_short_table_out_of_bounds Tsadc.rk3588_code_table 300);
    by_computation.
Defined.

Lemma search_loop_safe (t : table) (c : Z) (fuel : nat) :
  ARRAY_SIZE t < two31 ->
  forall (low high : Z) (mid : option Z),
    1 <= low -> high < ARRAY_SIZE t -> high - low < Z.of_nat fuel ->
    (forall m, mid = Some m -> 1 <= m < ARRAY_SIZE t) ->
    (low <= high \/ mid <> None) ->
    exists m,
      1 <= m < ARRAY_SIZE t
      /\ (search_loop t c fuel low high mid = Ok (Break m)
          \/ search_loop t c fuel low high mid = Ok (Exhausted (Some m))).
Proof.
  intros Hn. rewrite two31_eq in Hn.
  induction fuel as [|fuel IH]; intros low high mid Hl Hh Hf Hmid Hrun.
  - cbn [search_loop]. destruct (Z.leb_spec low high); [lia|].
    destruct mid as [m|]; [|destruct Hrun; [lia|congruence]].
    exists m. split; [now apply Hmid | now right].
  - cbn [search_loop]. destruct (Z.leb_spec low high) as [Hlh|Hgt].
    + assert (uadd low high = low + high) as ->
          by (apply to_u32_small; rewrite two32_eq; lia).
      unfold udiv.
      assert (low <= (low + high) / 2 <= high) as Hm.
      { split; [apply Z.div_le_lower_bound | apply Z.div_le_upper_bound];
          lia. }
      set (m := (low + high) / 2) in *.
      assert (usub m 1 = m - 1) as ->
          by (apply to_u32_small; rewrite two32_eq; lia).
      assert (uadd m 1 = m + 1) as ->
          by (apply to_u32_small; rewrite two32_eq; lia).
      rewrite (tbl_ok t m) by lia. cbn [bind].
      assert (forall m', Some m = Some m' -> 1 <= m' < ARRAY_SIZE t) as Hm'
          by (intros m' [= <-]; lia).
      destruct (c >=? code (entry_at t m)).
      * rewrite (tbl_ok t (m - 1)) by lia. cbn [bind].
        destruct (c <=? code (entry_at t (m - 1))).
        -- exists m. split; [lia | now left].
        -- destruct (c >? code (entry_at t m));
             apply IH; try assumption; try lia; right; discriminate.
      * cbn [bind].
        destruct (c >? code (entry_at t m));
          apply IH; try assumption; try lia; right; discriminate.
    + destruct mid as [m|]; [|destruct Hrun; [lia|congruence]].
      exists m. split; [now apply Hmid | now right].
Qed.

(** X24.  [code_to_temp] is memory safe on every table of at least two
    entries, sorted or not: whatever the code, the loop assigns [mid]
    before it is used and every index read lies in the table.  The only
    undefined operation left is the division, by a bracket whose two
    codes are equal; a table without such a bracket always gets a
    status. *)
Theorem code_to_temp_memory_safe (t : table) (c : Z) :
  index_fits t = true ->
  (forall f, Tsadc.code_to_temp t c = Fault f -> f = DivByZero)
  /\ ((forall m, 1 <= m < ARRAY_SIZE t ->
                 to_u32 (isub (code_at t (m - 1)) (code_at t m)) <> 0) ->
      exists r, Tsadc.code_to_temp t c = Ok r).
Proof.
  intros Hsz. destruct (size_bounds t Hsz) as [Hn2 Hn31].
  pose proof two31_eq as E31.
  unfold Tsadc.code_to_temp.
  rewrite (tbl_ok t 0) by lia. cbn [bind].
  rewrite (to_u32_small (ARRAY_SIZE t - 1)) by (rewrite two32_eq; lia).
  rewrite (tbl_ok t (ARRAY_SIZE t - 1)) by lia. cbn [bind].
  destruct (c >? _); [split; [discriminate | eexists; reflexivity]|].
  destruct (c <? _); [split; [discriminate | eexists; reflexivity]|].
  destruct (search_loop_safe t c (List.length t) Hn31 1 (ARRAY_SIZE t - 1)
              None ltac:(lia) ltac:(lia) ltac:(unfold ARRAY_SIZE; lia)
              ltac:(discriminate) ltac:(left; lia))
    as (m & Hm & [-> | ->]); cbn [bind exit_mid];
    (assert (usub m 1 = m - 1) as ->
        by (apply to_u32_small; rewrite two32_eq; lia));
    rewrite (tbl_ok t (m - 1)), (tbl_ok t m) by lia; cbn [bind];
    fold (code_at t (m - 1)) (code_at t m);
    (destruct (Z.eqb_spec (to_u32 (isub (code_at t (m - 1)) (code_at t m))) 0)
      as [Hz|Hnz];
     [split; [now intros f [= <-] | intros Hall; now apply Hall in Hz]
     |split; [discriminate | eexists; reflexivity]]).
Qed.

Lemma code_to_temp_memory_safe_witness :
  (forall f,
      Tsadc.code_to_temp [mkEntry 1 9; mkEntry 2 9; mkEntry 3 5] 7 = Fault f ->
      f = DivByZero)
  /\ Tsadc.code_to_temp [mkEntry 1 9; mkEntry 2 9; mkEntry 3 5] 9
     = Fault DivByZero.
Proof.
  split; [|reflexivity].
  apply (code_to_temp_memory_safe [mkEntry 1 9; mkEntry 2 9; mkEntry 3 5] 7).
  reflexivity.
Defined.
